(** * frontend-prep / backend / python / examples

    A shallow embedding of the example scripts of the repository into
    Rocq.  Every script is a value of the monad [M]: it threads the state
    of the interpreter's surroundings (standard output, standard input,
    the file system, the calls made to the operating system, a source of
    arbitrary choices) and ends either normally or with a Python
    exception.  Generators are resumptions, iterator classes are records
    with their methods. *)

From Stdlib Require Import ZArith Ascii String List Bool.
From Stdlib Require Import SpecFloat.
From stdpp Require Import base list strings gmap fin_maps sorting.

Set Warnings "-register-all".

Local Open Scope string_scope.
Local Open Scope list_scope.
Local Open Scope Z_scope.

(** ** Exceptions *)

Inductive exn :=
| AssertionError
| AttributeError
| EOFError
| IndexError
| KeyError
| NameError
| OverflowError
| StopIteration
| TypeError
| ValueError
| ZeroDivisionError
| FileNotFoundError
| FileExistsError
| NotADirectoryError
| IsADirectoryError
| PermissionError
| OSError
| InvalidOperation.

#[global] Instance exn_eq_dec : EqDecision exn.
Proof. solve_decision. Defined.

(** ** Numbers *)

Module PyFloat.

(** Python's [float] is IEEE 754 binary64. *)
Definition prec : Z := 53.
Definition emax : Z := 1024.

Definition zero : spec_float := S754_zero false.

(** The exact value of an integer, as a (not necessarily canonical)
    finite float; only ever an operand of a rounding operation. *)
Definition exact (z : Z) : spec_float :=
  match z with
  | Z0 => S754_zero false
  | Zpos p => S754_finite false p 0
  | Zneg p => S754_finite true p 0
  end.

(** [float(z)]: the nearest double, ties to even. *)
Definition of_int (z : Z) : spec_float := binary_normalize prec emax z 0 false.

Definition is_inf (f : spec_float) : bool :=
  match f with S754_infinity _ => true | _ => false end.

Definition div : spec_float -> spec_float -> spec_float := SFdiv prec emax.
Definition add : spec_float -> spec_float -> spec_float := SFadd prec emax.
Definition mul : spec_float -> spec_float -> spec_float := SFmul prec emax.
Definition eqb : spec_float -> spec_float -> bool := SFeqb.
Definition ltb : spec_float -> spec_float -> bool := SFltb.
Definition leb : spec_float -> spec_float -> bool := SFleb.

(** A decimal literal [m]e[e] of the source text, e.g. [100.24] is
    [lit 10024 (-2)]: the nearest double. *)
Definition lit (m e : Z) : spec_float :=
  if 0 <=? e then of_int (m * 10 ^ e)
  else div (exact m) (exact (10 ^ (- e))).

(** [int(f)] truncates towards zero. *)
Definition trunc (f : spec_float) : option Z :=
  match f with
  | S754_zero _ => Some 0
  | S754_finite s m e =>
      let a := if 0 <=? e then Z.pos m * 2 ^ e else Z.pos m / 2 ^ (- e) in
      Some (if s then - a else a)
  | _ => None
  end.

End PyFloat.

(** The numbers a script can hand to an arithmetic operator: [bool],
    [int] and [float]. *)
Inductive pynum :=
| NBool (b : bool)
| NInt (z : Z)
| NFloat (f : spec_float).

Definition int_of_bool (b : bool) : Z := if b then 1 else 0.

(** A float whose value the model does not compute: the result of a
    function of the C mathematics library. *)
Inductive pyfloat :=
| FVal (f : spec_float)
| FLibm (fn : string) (x : pynum).

(** ** Values that reach [print] *)

Inductive pyval :=
| VNone
| VBool (b : bool)
| VInt (z : Z)
| VFloat (f : pyfloat)
| VComplex (re im : spec_float)
| VStr (s : string)
| VBytes (s : string)
| VList (l : list pyval)
| VTuple (l : list pyval)
| VSet (l : list pyval)
| VFrozenSet (l : list pyval)
| VDict (l : list (pyval * pyval))
| VType (name : string)
| VObject (cls : string)
| VDecimal (coef : Z) (exp : Z)
| VFraction (num : Z) (den : Z)
| VFormat (pieces : list (pyval * string)).

#[global] Instance spec_float_eq_dec : EqDecision spec_float.
Proof. solve_decision. Defined.

#[global] Instance pynum_eq_dec : EqDecision pynum.
Proof. solve_decision. Defined.

#[global] Instance pyfloat_eq_dec : EqDecision pyfloat.
Proof. solve_decision. Defined.

(** Structural equality of printed values. *)
Fixpoint pyval_eq_dec (x y : pyval) {struct x} : {x = y} + {x <> y}.
Proof.
  decide equality;
    try apply Z.eq_dec; try apply string_dec; try apply Bool.bool_dec;
    try apply pyfloat_eq_dec; try apply spec_float_eq_dec;
    try (apply List.list_eq_dec;
         first [apply pyval_eq_dec
               | decide equality; apply string_dec || apply pyval_eq_dec]).
Defined.

#[global] Instance pyval_eq : EqDecision pyval := pyval_eq_dec.

Class ToPy (A : Type) := py : A -> pyval.
#[global] Instance topy_val : ToPy pyval := fun v => v.
#[global] Instance topy_unit : ToPy unit := fun _ => VNone.
#[global] Instance topy_bool : ToPy bool := VBool.
#[global] Instance topy_Z : ToPy Z := VInt.
#[global] Instance topy_float : ToPy spec_float := fun f => VFloat (FVal f).
#[global] Instance topy_pyfloat : ToPy pyfloat := VFloat.
#[global] Instance topy_string : ToPy string := VStr.
#[global] Instance topy_ascii : ToPy ascii := fun c => VStr (String c EmptyString).
#[global] Instance topy_list {A} `{ToPy A} : ToPy (list A) := fun l => VList (map py l).
#[global] Instance topy_pair {A B} `{ToPy A} `{ToPy B} : ToPy (A * B) :=
  fun p => VTuple [py (fst p); py (snd p)].
#[global] Instance topy_option {A} `{ToPy A} : ToPy (option A) :=
  fun o => match o with Some a => py a | None => VNone end.
#[global] Instance topy_num : ToPy pynum :=
  fun n => match n with
           | NBool b => VBool b
           | NInt z => VInt z
           | NFloat f => VFloat (FVal f)
           end.

(** ** The surroundings of a running script *)

Definition path := list string.

(** A node of the file system: a regular file, or a directory with its
    permission bits. *)
Inductive node :=
| File (mode : Z)
| Dir (mode : Z).

#[global] Instance node_eq_dec : EqDecision node.
Proof. solve_decision. Defined.

(** Calls to the operating system, as the scripts make them. *)
Inductive syscall :=
| SysGetcwd
| SysGetcwdb
| SysChdir (p : path)
| SysListdir (p : path)
| SysMkdir (p : path)
| SysRename (src dst : path)
| SysChmod (p : path) (mode : Z)
| SysRemove (p : path)
| SysRmdir (p : path)
| SysOpenWrite (p : path)
| SysWrite (p : path) (data : string).

#[global] Instance syscall_eq_dec : EqDecision syscall.
Proof. solve_decision. Defined.

(** What outlives a process, and what the operating system keeps for
    it. *)
Record os_state := {
  (** the file system: absolute path to node *)
  fs : gmap path node;
  (** contents of the regular files the scripts wrote *)
  contents : gmap path string;
  (** the working directory of the process *)
  cwd : path;
  (** the calls made to the operating system, oldest first *)
  calls : list syscall;
  (** whether the operating system refuses a call for lack of permission *)
  denied : syscall -> bool;
}.

Record world := {
  (** what [print] and the prompts of [input] have written, oldest first *)
  stdout : list (list pyval);
  (** the lines [input] has still to read *)
  stdin : list string;
  (** the modules imported so far *)
  imported : list string;
  (** the source of arbitrary choices: [random], the order of a set *)
  entropy : nat -> Z;
  (** how many choices have been drawn *)
  drawn : nat;
  (** where the interpreter keeps the small integers: [id] *)
  address : Z -> Z;
  (** the operating system's side *)
  sys : os_state;
}.

(** ** The monad of scripts *)

Inductive outcome (A : Type) :=
| Normal (a : A)
| Raised (e : exn).
Arguments Normal {A} a.
Arguments Raised {A} e.

Definition M (A : Type) : Type := world -> outcome A * world.

Definition ret {A} (a : A) : M A := fun w => (Normal a, w).

Definition bind {A B} (m : M A) (k : A -> M B) : M B :=
  fun w =>
    match m w with
    | (Normal a, w') => k a w'
    | (Raised e, w') => (Raised e, w')
    end.

Definition raise {A} (e : exn) : M A := fun w => (Raised e, w).

Declare Scope py_scope.
Delimit Scope py_scope with py.
Notation "x <- m ;; k" := (bind m (fun x => k))
  (at level 100, m at next level, right associativity) : py_scope.
Notation "m ;; k" := (bind m (fun _ => k))
  (at level 100, right associativity) : py_scope.
Notation "'pass'" := (ret tt) : py_scope.
Local Open Scope py_scope.

(** A partial operation of the language that raises [e] where it is
    undefined. *)
Definition or_raise {A} (e : exn) (o : option A) : M A :=
  match o with Some a => ret a | None => raise e end.

Definition lift {A} (o : outcome A) : M A := fun w => (o, w).

(** Updates of one field of the world. *)
Definition set_stdout (out : list (list pyval)) (w : world) : world :=
  {| stdout := out; stdin := stdin w; imported := imported w;
     entropy := entropy w; drawn := drawn w; address := address w; sys := sys w |}.

Definition set_stdin (inp : list string) (w : world) : world :=
  {| stdout := stdout w; stdin := inp; imported := imported w;
     entropy := entropy w; drawn := drawn w; address := address w; sys := sys w |}.

Definition set_imported (ms : list string) (w : world) : world :=
  {| stdout := stdout w; stdin := stdin w; imported := ms;
     entropy := entropy w; drawn := drawn w; address := address w; sys := sys w |}.

Definition set_drawn (k : nat) (w : world) : world :=
  {| stdout := stdout w; stdin := stdin w; imported := imported w;
     entropy := entropy w; drawn := k; address := address w; sys := sys w |}.

Definition set_sys (s : os_state) (w : world) : world :=
  {| stdout := stdout w; stdin := stdin w; imported := imported w;
     entropy := entropy w; drawn := drawn w; address := address w; sys := s |}.

Definition set_fs (t : gmap path node) (s : os_state) : os_state :=
  {| fs := t; contents := contents s; cwd := cwd s; calls := calls s; denied := denied s |}.

Definition set_contents (c : gmap path string) (s : os_state) : os_state :=
  {| fs := fs s; contents := c; cwd := cwd s; calls := calls s; denied := denied s |}.

Definition set_cwd (d : path) (s : os_state) : os_state :=
  {| fs := fs s; contents := contents s; cwd := d; calls := calls s; denied := denied s |}.

Definition set_calls (cs : list syscall) (s : os_state) : os_state :=
  {| fs := fs s; contents := contents s; cwd := cwd s; calls := cs; denied := denied s |}.

(** The world after the lines [out] have been written. *)
Definition printed (out : list (list pyval)) (w : world) : world :=
  set_stdout (stdout w ++ out) w.

(** [print(a, b, ...)] *)
Definition print (args : list pyval) : M unit :=
  fun w => (Normal tt, printed [args] w).

(** [input(prompt)]: writes the prompt, reads a line, [EOFError] at the
    end of the input. *)
Definition input (prompt : string) : M string :=
  fun w =>
    let w' := printed [[VStr prompt]] w in
    match stdin w with
    | [] => (Raised EOFError, w')
    | line :: rest => (Normal line, set_stdin rest w')
    end.

(** One arbitrary choice. *)
Definition draw : M Z :=
  fun w => (Normal (entropy w (drawn w)), set_drawn (S (drawn w)) w).

(** [import name] *)
Definition import_ (name : string) : M unit :=
  fun w => (Normal tt, set_imported (imported w ++ [name]) w).

(** [id(z)] for a small integer [z]. *)
Definition id_ (z : Z) : M Z :=
  fun w => (Normal (address w z), w).

(** ** [try] / [except] / [finally] *)

(** The exception hierarchy, as far as the modelled exceptions go: five
    of them are subclasses of [OSError], no other is a subclass of another
    modelled one.  A handler is [Some c] for [except c:] and [None] for a
    bare [except:]. *)
Definition subclass (e c : exn) : bool :=
  bool_decide (e = c)
  || (bool_decide (c = OSError)
      && bool_decide (e ∈ [FileNotFoundError; FileExistsError; NotADirectoryError;
                           IsADirectoryError; PermissionError])).

Definition handles (h : option exn) (e : exn) : bool :=
  match h with
  | None => true
  | Some c => subclass e c
  end.

Fixpoint find_handler {A} (hs : list (option exn * M A)) (e : exn) : option (M A) :=
  match hs with
  | [] => None
  | (h, body) :: hs' => if handles h e then Some body else find_handler hs' e
  end.

Definition try_except {A} (body : M A) (hs : list (option exn * M A)) : M A :=
  fun w =>
    match body w with
    | (Normal a, w') => (Normal a, w')
    | (Raised e, w') =>
        match find_handler hs e with
        | Some h => h w'
        | None => (Raised e, w')
        end
    end.

Definition try_finally {A} (body : M A) (final : M unit) : M A :=
  fun w =>
    match body w with
    | (r, w') =>
        match final w' with
        | (Normal _, w'') => (r, w'')
        | (Raised e, w'') => (Raised e, w'')
        end
    end.

(** ** Sequences *)

(** [len(l)] *)
Definition len {A} (l : list A) : Z := Z.of_nat (length l).

(** [l[i]], with Python's negative indices; [None] is [IndexError]. *)
Definition index {A} (l : list A) (i : Z) : option A :=
  let j := if i <? 0 then len l + i else i in
  if j <? 0 then None else l !! Z.to_nat j.

Definition getitem {A} (l : list A) (i : Z) : M A := or_raise IndexError (index l i).

(** [range(start, stop, step)] for a nonzero step. *)
Definition range3 (start stop step : Z) : list Z :=
  let count :=
    if 0 <? step then (stop - start + step - 1) / step
    else (start - stop - step - 1) / (- step) in
  map (fun k => start + Z.of_nat k * step) (seq 0 (Z.to_nat count)).

Definition range2 (start stop : Z) : list Z := range3 start stop 1.
Definition range1 (stop : Z) : list Z := range3 0 stop 1.

(** [for x in l: body] *)
Fixpoint for_each {A} (l : list A) (body : A -> M unit) : M unit :=
  match l with
  | [] => pass
  | x :: l' => body x ;; for_each l' body
  end.

(** A loop body that may [break] or [continue]. *)
Inductive loop_signal := Next | Break.

Fixpoint for_each_ctl {A} (l : list A) (body : A -> M loop_signal) : M unit :=
  match l with
  | [] => pass
  | x :: l' =>
      s <- body x ;;
      match s with
      | Next => for_each_ctl l' body
      | Break => pass
      end
  end.

(** ** Generators *)

(** One step of a generator: it is finished, or it yields a value and
    keeps the rest of its body for the next [next()]. *)
Inductive gen (A : Type) :=
| GDone
| GYield (v : A) (rest : world -> outcome (gen A) * world).
Arguments GDone {A}.
Arguments GYield {A} v rest.

(** A generator object is its suspended body. *)
Definition generator (A : Type) : Type := M (gen A).

Definition gdone {A} : generator A := ret GDone.
Definition gyield {A} (v : A) (rest : generator A) : generator A := ret (GYield v rest).

(** [next(g)]: the value (or the exception) and the generator afterwards.
    A generator that returned or raised stays finished. *)
Definition next {A} (g : generator A) (w : world) : outcome A * generator A * world :=
  match g w with
  | (Normal GDone, w') => (Raised StopIteration, gdone, w')
  | (Normal (GYield v rest), w') => (Normal v, rest, w')
  | (Raised e, w') => (Raised e, gdone, w')
  end.

(** A [for] loop inside a generator body: [body x k] is the body at [x]
    followed by the rest [k] of the generator. *)
Fixpoint gfor {A B} (l : list B) (body : B -> generator A -> generator A)
    (after : generator A) : generator A :=
  match l with
  | [] => after
  | x :: l' => body x (gfor l' body after)
  end.

(** [for x in g: body]: calls [next] until [StopIteration]. *)
Fixpoint for_gen_step {A} (s : gen A) (body : A -> M unit) : M unit :=
  match s with
  | GDone => pass
  | GYield v rest =>
      body v ;;
      fun w =>
        match rest w with
        | (Normal s', w') => for_gen_step s' body w'
        | (Raised e, w') => (Raised e, w')
        end
  end.

Definition for_gen {A} (g : generator A) (body : A -> M unit) : M unit :=
  s <- g ;; for_gen_step s body.

(** [list(g)]: the values a generator yields until it is finished. *)
Fixpoint list_of_gen_step {A} (s : gen A) : M (list A) :=
  match s with
  | GDone => ret []
  | GYield v rest =>
      fun w =>
        match rest w with
        | (Normal s', w') =>
            match list_of_gen_step s' w' with
            | (Normal l, w'') => (Normal (v :: l), w'')
            | (Raised e, w'') => (Raised e, w'')
            end
        | (Raised e, w') => (Raised e, w')
        end
  end.

Definition list_of_gen {A} (g : generator A) : M (list A) :=
  s <- g ;; list_of_gen_step s.

(** ** Arithmetic *)

(** The integer value of a [bool] or [int] operand. *)
Definition as_int (n : pynum) : option Z :=
  match n with
  | NBool b => Some (int_of_bool b)
  | NInt z => Some z
  | NFloat _ => None
  end.

(** [float(z)], [OverflowError] when [z] is too large for a double. *)
Definition float_of_int (z : Z) : M spec_float :=
  let f := PyFloat.of_int z in
  if PyFloat.is_inf f then raise OverflowError else ret f.

(** The operand of a float operation, converted as the interpreter does. *)
Definition to_float (n : pynum) : M spec_float :=
  match n with
  | NBool b => float_of_int (int_of_bool b)
  | NInt z => float_of_int z
  | NFloat f => ret f
  end.

(** [a == 0] *)
Definition eq_zero (n : pynum) : bool :=
  match n with
  | NBool b => negb b
  | NInt z => z =? 0
  | NFloat f => PyFloat.eqb f PyFloat.zero
  end.

(** [a / b]: true division.  Two integers give the correctly rounded
    quotient, [ZeroDivisionError] for a zero divisor and [OverflowError]
    when the quotient is too large for a double; otherwise both operands
    are converted to [float] and divided, [ZeroDivisionError] for a zero
    divisor. *)
Definition truediv (a b : pynum) : M pynum :=
  match as_int a, as_int b with
  | Some x, Some y =>
      if y =? 0 then raise ZeroDivisionError
      else
        let q := PyFloat.div (PyFloat.exact x) (PyFloat.exact y) in
        if PyFloat.is_inf q then raise OverflowError else ret (NFloat q)
  | _, _ =>
      x <- to_float a ;;
      y <- to_float b ;;
      if PyFloat.eqb y PyFloat.zero then raise ZeroDivisionError
      else ret (NFloat (PyFloat.div x y))
  end.

(** [2 ** n] for an integer [n]: an [int] when [n] is not negative, the
    [float] power of two otherwise. *)
Definition pow2 (n : Z) : pynum :=
  if 0 <=? n then NInt (2 ^ n)
  else NFloat (binary_normalize PyFloat.prec PyFloat.emax 1 n false).

(** ** Strings *)

Definition chars (s : string) : list ascii := list_ascii_of_string s.
Definition str (l : list ascii) : string := string_of_list_ascii l.

Definition code (c : ascii) : Z := Z.of_nat (nat_of_ascii c).

(** A character is a code point below 256.  The white space among
    them, which [str.strip] and [Decimal] skip: the controls 9 to 13 and
    28 to 31, the space, the next-line control 133 and the no-break
    space 160. *)
Definition is_space (c : ascii) : bool :=
  let n := code c in
  ((9 <=? n) && (n <=? 13)) || ((28 <=? n) && (n <=? 32))
  || (n =? 133) || (n =? 160).

(** The white space [int] skips around a number: what C's [isspace]
    accepts (9 to 13 and the space: the separators 28 to 31 are not
    among them), and the white space above 127, which [int] turns into
    spaces before it reads the string. *)
Definition is_int_space (c : ascii) : bool :=
  let n := code c in
  ((9 <=? n) && (n <=? 13)) || (n =? 32) || (n =? 133) || (n =? 160).

Definition digit_of (c : ascii) : option Z :=
  let n := code c in
  if (48 <=? n) && (n <=? 57) then Some (n - 48) else None.

Fixpoint lstrip (l : list ascii) : list ascii :=
  match l with
  | c :: l' => if is_space c then lstrip l' else l
  | [] => []
  end.

Definition strip (l : list ascii) : list ascii := rev (lstrip (rev (lstrip l))).

Fixpoint int_lstrip (l : list ascii) : list ascii :=
  match l with
  | c :: l' => if is_int_space c then int_lstrip l' else l
  | [] => []
  end.

Definition int_strip (l : list ascii) : list ascii :=
  rev (int_lstrip (rev (int_lstrip l))).

(** The digits after a first digit; an underscore may stand between two
    digits. *)
Fixpoint more_digits (l : list ascii) (acc : Z) : option Z :=
  match l with
  | [] => Some acc
  | c :: l' =>
      if bool_decide (c = "_"%char) then
        match l' with
        | d :: l'' =>
            match digit_of d with
            | Some v => more_digits l'' (10 * acc + v)
            | None => None
            end
        | [] => None
        end
      else
        match digit_of c with
        | Some v => more_digits l' (10 * acc + v)
        | None => None
        end
  end.

Definition unsigned_digits (l : list ascii) : option Z :=
  match l with
  | d :: l' =>
      match digit_of d with
      | Some v => more_digits l' v
      | None => None
      end
  | [] => None
  end.

(** [sys.get_int_max_str_digits()] as the interpreter starts: [int]
    refuses a string of more digits (Python 3.11, and the security
    releases of 3.7 to 3.10).  No script changes the limit. *)
Definition int_max_str_digits : Z := 4300.

(** The digits of a string, leading zeros included, underscores not. *)
Fixpoint count_digits (l : list ascii) : Z :=
  match l with
  | [] => 0
  | c :: l' => match digit_of c with Some _ => 1 | None => 0 end + count_digits l'
  end.

Definition limited_digits (l : list ascii) : option Z :=
  if int_max_str_digits <? count_digits l then None else unsigned_digits l.

(** [int(s)] for a string [s]: surrounding white space, an optional sign,
    at most [int_max_str_digits] decimal digits; [None] is [ValueError].
    There is no decimal digit from 128 to 255, so only the ASCII ones
    count. *)
Definition parse_int (s : string) : option Z :=
  match int_strip (chars s) with
  | c :: l =>
      if bool_decide (c = "-"%char) then Z.opp <$> limited_digits l
      else if bool_decide (c = "+"%char) then limited_digits l
      else limited_digits (c :: l)
  | [] => None
  end.

Definition int_of_str (s : string) : M Z := or_raise ValueError (parse_int s).

(** *** [str.format] *)

Inductive field_name :=
| Auto
| Pos (n : nat)
| Key (k : string).

Inductive fpiece :=
| Lit (text : string)
| Field (name : field_name) (spec : string)
| Malformed.

Inductive fstate := SLit | SOpen | SClose | SName | SSpec.

Definition all_digits (l : list ascii) : bool :=
  forallb (fun c => match digit_of c with Some _ => true | None => false end) l.

Definition decimal (l : list ascii) : Z :=
  fold_left (fun acc c => 10 * acc + default 0 (digit_of c)) l 0.

Definition classify_name (l : list ascii) : field_name :=
  match l with
  | [] => Auto
  | _ => if all_digits l then Pos (Z.to_nat (decimal l)) else Key (str l)
  end.

Definition flush_lit (lit : list ascii) (acc : list fpiece) : list fpiece :=
  match lit with
  | [] => acc
  | _ => Lit (str (rev lit)) :: acc
  end.

(** The replacement fields of a template, left to right: [{{] and [}}]
    are literal braces, a field is [{name}] or [{name:spec}].  The
    accumulators hold the text read so far in reverse; the scan stops with
    [Malformed] at a brace without its partner. *)
Fixpoint parse_template (l : list ascii) (st : fstate)
    (lit name spec : list ascii) (acc : list fpiece) : list fpiece :=
  match l with
  | [] =>
      match st with
      | SLit => rev (flush_lit lit acc)
      | _ => rev (Malformed :: flush_lit lit acc)
      end
  | c :: l' =>
      match st with
      | SLit =>
          if bool_decide (c = "{"%char) then parse_template l' SOpen lit [] [] acc
          else if bool_decide (c = "}"%char) then parse_template l' SClose lit [] [] acc
          else parse_template l' SLit (c :: lit) [] [] acc
      | SOpen =>
          if bool_decide (c = "{"%char) then parse_template l' SLit (c :: lit) [] [] acc
          else if bool_decide (c = "}"%char) then
            parse_template l' SLit [] [] [] (Field Auto "" :: flush_lit lit acc)
          else if bool_decide (c = ":"%char) then parse_template l' SSpec lit [] [] acc
          else parse_template l' SName lit [c] [] acc
      | SClose =>
          if bool_decide (c = "}"%char) then parse_template l' SLit (c :: lit) [] [] acc
          else rev (Malformed :: flush_lit lit acc)
      | SName =>
          if bool_decide (c = "}"%char) then
            parse_template l' SLit [] [] []
              (Field (classify_name (rev name)) "" :: flush_lit lit acc)
          else if bool_decide (c = ":"%char) then parse_template l' SSpec lit name [] acc
          else if bool_decide (c = "{"%char) then rev (Malformed :: flush_lit lit acc)
          else parse_template l' SName lit (c :: name) [] acc
      | SSpec =>
          if bool_decide (c = "}"%char) then
            parse_template l' SLit [] [] []
              (Field (classify_name (rev name)) (str (rev spec)) :: flush_lit lit acc)
          else if bool_decide (c = "{"%char) then rev (Malformed :: flush_lit lit acc)
          else parse_template l' SSpec lit name (c :: spec) acc
      end
  end.

Fixpoint skip_digits (l : list ascii) : list ascii :=
  match l with
  | c :: l' => match digit_of c with Some _ => skip_digits l' | None => l end
  | [] => []
  end.

(** The presentation types a value accepts in a format specification of
    the shape [width][type]. *)
Definition spec_type_ok (v : pyval) (t : ascii) : bool :=
  match v with
  | VInt _ => bool_decide (t ∈ chars "bcdoxXneEfFgG%")
  | VBool _ => bool_decide (t ∈ chars "bcdoxXneEfFgG%")
  | VFloat _ => bool_decide (t ∈ chars "eEfFgGn%")
  | VStr _ => bool_decide (t = "s"%char)
  | _ => false
  end.

Definition spec_ok (v : pyval) (spec : string) : bool :=
  match skip_digits (chars spec) with
  | [] =>
      match spec, v with
      | EmptyString, _ => true
      | _, (VInt _ | VBool _ | VFloat _ | VStr _) => true
      | _, _ => false
      end
  | [t] => spec_type_ok v t
  | _ => false
  end.

(** Automatic numbering ([{}]) and explicit indices ([{0}]) do not mix. *)
Inductive numbering := Unset | Automatic (next : nat) | Manual.

Fixpoint fill (ps : list fpiece) (args : list pyval) (kwargs : list (string * pyval))
    (nb : numbering) : M (list (pyval * string)) :=
  match ps with
  | [] => ret []
  | Lit text :: ps' =>
      rest <- fill ps' args kwargs nb ;;
      ret ((VStr text, "") :: rest)
  | Malformed :: _ => raise ValueError
  | Field name spec :: ps' =>
      found <-
        match name, nb with
        | Auto, Manual => raise ValueError
        | Auto, Unset => v <- or_raise IndexError (args !! 0%nat) ;; ret (v, Automatic 1)
        | Auto, Automatic i => v <- or_raise IndexError (args !! i) ;; ret (v, Automatic (S i))
        | Pos _, Automatic _ => raise ValueError
        | Pos i, _ => v <- or_raise IndexError (args !! i) ;; ret (v, Manual)
        | Key k, _ => v <- or_raise KeyError (snd <$> find (fun kv => bool_decide (fst kv = k)) kwargs) ;; ret (v, nb)
        end ;;
      (if spec_ok (fst found) spec then pass else raise ValueError) ;;
      rest <- fill ps' args kwargs (snd found) ;;
      ret ((fst found, spec) :: rest)
  end.

(** [template.format(args..., key=value...)].  The result keeps every value
    beside its format specification; the characters a number is rendered
    with are not computed. *)
Definition format_kw (template : string) (args : list pyval)
    (kwargs : list (string * pyval)) : M pyval :=
  pieces <- fill (parse_template (chars template) SLit [] [] [] []) args kwargs Unset ;;
  ret (VFormat pieces).

Definition format (template : string) (args : list pyval) : M pyval :=
  format_kw template args [].

(** ** Lists and tuples *)

(** The position an index names, if it is in range. *)
Definition position {A} (l : list A) (i : Z) : option nat :=
  let j := if i <? 0 then len l + i else i in
  if (0 <=? j) && (j <? len l) then Some (Z.to_nat j) else None.

(** [l[i] = v] *)
Definition setitem {A} (l : list A) (i : Z) (v : A) : M (list A) :=
  n <- or_raise IndexError (position l i) ;;
  ret (<[n := v]> l).

(** [del l[i]] *)
Definition delitem {A} (l : list A) (i : Z) : M (list A) :=
  n <- or_raise IndexError (position l i) ;;
  ret (delete n l).

(** [l.pop(i)] *)
Definition list_pop {A} (l : list A) (i : Z) : M (A * list A) :=
  n <- or_raise IndexError (position l i) ;;
  v <- or_raise IndexError (l !! n) ;;
  ret (v, delete n l).

Fixpoint remove_first {A} `{EqDecision A} (x : A) (l : list A) : option (list A) :=
  match l with
  | [] => None
  | y :: l' => if decide (x = y) then Some l' else cons y <$> remove_first x l'
  end.

(** [l.remove(x)]: the first occurrence, [ValueError] if there is none. *)
Definition list_remove {A} `{EqDecision A} (l : list A) (x : A) : M (list A) :=
  or_raise ValueError (remove_first x l).

Fixpoint find_index {A} `{EqDecision A} (x : A) (l : list A) : option Z :=
  match l with
  | [] => None
  | y :: l' => if decide (x = y) then Some 0 else Z.succ <$> find_index x l'
  end.

(** [l.index(x)] *)
Definition index_of {A} `{EqDecision A} (l : list A) (x : A) : M Z :=
  or_raise ValueError (find_index x l).

(** [l.count(x)] *)
Definition count {A} `{EqDecision A} (l : list A) (x : A) : Z :=
  len (filter (fun y => x = y) l).

(** [x in l] *)
Definition mem {A} `{EqDecision A} (x : A) (l : list A) : bool := bool_decide (x ∈ l).

(** [l * k] *)
Definition times {A} (l : list A) (k : Z) : list A :=
  concat (replicate (Z.to_nat k) l).

(** A bound of a slice, clamped to the list. *)
Definition bound {A} (l : list A) (dflt : Z) (b : option Z) : nat :=
  match b with
  | None => Z.to_nat dflt
  | Some i =>
      let j := if i <? 0 then len l + i else i in
      Z.to_nat (Z.min (Z.max j 0) (len l))
  end.

(** [l[start:stop]]; [None] is an omitted bound. *)
Definition slice {A} (l : list A) (start stop : option Z) : list A :=
  let lo := bound l 0 start in
  let hi := bound l (len l) stop in
  take (hi - lo) (drop lo l).

(** [max(l)] and [min(l)], [ValueError] for an empty sequence. *)
Definition max_of (l : list Z) : M Z :=
  match l with
  | [] => raise ValueError
  | x :: l' => ret (fold_left Z.max l' x)
  end.

Definition min_of (l : list Z) : M Z :=
  match l with
  | [] => raise ValueError
  | x :: l' => ret (fold_left Z.min l' x)
  end.

(** [sorted(l)] *)
Definition sorted (l : list Z) : list Z := merge_sort Z.le l.

(** A tuple prints with parentheses. *)
Definition tuple {A} `{ToPy A} (l : list A) : pyval := VTuple (map py l).

(** [a, b, c, d = t] *)
Definition unpack4 {A} (t : list A) : M (A * A * A * A) :=
  match t with
  | [a; b; c; d] => ret (a, b, c, d)
  | _ => raise ValueError
  end.

(** Subscripting a value whose type is only known when the script runs. *)
Definition subscript (v : pyval) (i : Z) : M pyval :=
  match v with
  | VList l => getitem l i
  | VTuple l => getitem l i
  | VStr s => c <- getitem (chars s) i ;; ret (py c)
  | _ => raise TypeError
  end.

(** ** Dictionaries *)

(** A dictionary keeps its items in the order of insertion. *)
Record dict (K V : Type) := Dict { items : list (K * V) }.
Arguments Dict {K V} items.
Arguments items {K V} _.

#[global] Instance topy_dict {K V} `{ToPy K} `{ToPy V} : ToPy (dict K V) :=
  fun d => VDict (map (fun kv => (py (fst kv), py (snd kv))) (items d)).

Section Dicts.
Context {K V : Type} `{EqDecision K}.

Definition dict_get (d : dict K V) (k : K) : option V :=
  snd <$> find (fun kv => bool_decide (fst kv = k)) (items d).

(** [d[k]] *)
Definition dict_getitem (d : dict K V) (k : K) : M V :=
  or_raise KeyError (dict_get d k).

Fixpoint assign (l : list (K * V)) (k : K) (v : V) : list (K * V) :=
  match l with
  | [] => [(k, v)]
  | (k', v') :: l' => if decide (k' = k) then (k, v) :: l' else (k', v') :: assign l' k v
  end.

(** [d[k] = v]: a new key goes last, a known key keeps its place. *)
Definition dict_set (d : dict K V) (k : K) (v : V) : dict K V :=
  Dict (assign (items d) k v).

(** [{k1: v1, k2: v2, ...}] *)
Definition dict_of (l : list (K * V)) : dict K V :=
  fold_left (fun d kv => dict_set d (fst kv) (snd kv)) l (Dict []).

Definition without (d : dict K V) (k : K) : dict K V :=
  Dict (filter (fun kv => fst kv <> k) (items d)).

(** [d.pop(k)] *)
Definition dict_pop (d : dict K V) (k : K) : M (V * dict K V) :=
  v <- dict_getitem d k ;;
  ret (v, without d k).

(** [del d[k]] *)
Definition dict_del (d : dict K V) (k : K) : M (dict K V) :=
  v <- dict_getitem d k ;;
  ret (without d k).

(** [d.popitem()]: the item inserted last. *)
Definition dict_popitem (d : dict K V) : M ((K * V) * dict K V) :=
  match rev (items d) with
  | [] => raise KeyError
  | kv :: rest => ret (kv, Dict (rev rest))
  end.

(** [d.clear()] *)
Definition dict_clear (d : dict K V) : dict K V := Dict [].

Definition keys (d : dict K V) : list K := map fst (items d).

(** [k in d] *)
Definition dict_mem (k : K) (d : dict K V) : bool := mem k (keys d).

End Dicts.

(** ** Sets *)

(** A set holds each element once; the order of the list means nothing. *)
Record pyset (A : Type) := PySet { elems : list A }.
Arguments PySet {A} elems.
Arguments elems {A} _.

Record frozenset (A : Type) := FrozenSet { frozen : pyset A }.
Arguments FrozenSet {A} frozen.
Arguments frozen {A} _.

#[global] Instance topy_set {A} `{ToPy A} : ToPy (pyset A) :=
  fun s => VSet (map py (elems s)).
#[global] Instance topy_frozenset {A} `{ToPy A} : ToPy (frozenset A) :=
  fun s => VFrozenSet (map py (elems (frozen s))).

Section Sets.
Context {A : Type} `{EqDecision A}.

(** [s.add(x)] *)
Definition set_add (s : pyset A) (x : A) : pyset A :=
  if mem x (elems s) then s else PySet (elems s ++ [x]).

(** [set(l)], [{a, b, ...}] and [s.update(l)] *)
Definition set_update (s : pyset A) (l : list A) : pyset A := fold_left set_add l s.
Definition set_of (l : list A) : pyset A := set_update (PySet []) l.

(** [s.discard(x)] *)
Definition set_discard (s : pyset A) (x : A) : pyset A :=
  PySet (filter (fun y => y <> x) (elems s)).

(** [s.remove(x)] *)
Definition set_remove (s : pyset A) (x : A) : M (pyset A) :=
  if mem x (elems s) then ret (set_discard s x) else raise KeyError.

(** [s.pop()]: removes an arbitrary element. *)
Definition set_pop (s : pyset A) : M (A * pyset A) :=
  match elems s with
  | [] => raise KeyError
  | _ =>
      r <- draw ;;
      let n := Z.to_nat (r mod len (elems s)) in
      x <- or_raise KeyError (elems s !! n) ;;
      ret (x, PySet (delete n (elems s)))
  end.

Definition set_clear (s : pyset A) : pyset A := PySet [].

(** [s | t], [s & t], [s - t], [s ^ t] *)
Definition union (s t : pyset A) : pyset A := set_update s (elems t).
Definition intersection (s t : pyset A) : pyset A :=
  PySet (filter (fun x => x ∈ elems t) (elems s)).
Definition difference (s t : pyset A) : pyset A :=
  PySet (filter (fun x => x ∉ elems t) (elems s)).
Definition symmetric_difference (s t : pyset A) : pyset A :=
  PySet (elems (difference s t) ++ elems (difference t s)).

(** [x in s] *)
Definition set_mem (x : A) (s : pyset A) : bool := mem x (elems s).

End Sets.

(** ** Arbitrary orders *)

Definition swap {A} (l : list A) (i j : nat) : list A :=
  match l !! i, l !! j with
  | Some a, Some b => <[i := b]> (<[j := a]> l)
  | _, _ => l
  end.

(** The shuffle of [random.shuffle]: for [i] from the last index down to
    1, the elements at [i] and at an arbitrary [j <= i] change places. *)
Fixpoint shuffle_from {A} (i : nat) (l : list A) : M (list A) :=
  match i with
  | O => ret l
  | S i' =>
      r <- draw ;;
      let j := Z.to_nat (r mod (Z.of_nat i + 1)) in
      shuffle_from i' (swap l i j)
  end.

Definition shuffle {A} (l : list A) : M (list A) := shuffle_from (length l - 1) l.

(** The order in which a set hands out its elements is arbitrary. *)
Definition iter_set {A} (s : pyset A) : M (list A) := shuffle (elems s).

(** ** More on strings *)

(** [s[i]] *)
Definition str_getitem (s : string) (i : Z) : M string :=
  c <- getitem (chars s) i ;; ret (String c "").

(** [s[start:stop]] *)
Definition str_slice (s : string) (start stop : option Z) : string :=
  str (slice (chars s) start stop).

(** [s * k] *)
Definition str_times (s : string) (k : Z) : string := str (times (chars s) k).

Fixpoint starts_with (p l : list ascii) : bool :=
  match p, l with
  | [], _ => true
  | a :: p', b :: l' => bool_decide (a = b) && starts_with p' l'
  | _ :: _, [] => false
  end.

Fixpoint occurs_in (p l : list ascii) : bool :=
  starts_with p l ||
  match l with
  | [] => false
  | _ :: l' => occurs_in p l'
  end.

(** [a in b] for two strings *)
Definition str_in (a b : string) : bool := occurs_in (chars a) (chars b).

(** [enumerate(l)] *)
Definition enumerate {A} (l : list A) : list (Z * A) :=
  zip (map Z.of_nat (seq 0 (length l))) l.

(** ** Types and conversions *)

Definition type_name (v : pyval) : string :=
  match v with
  | VNone => "NoneType"
  | VBool _ => "bool"
  | VInt _ => "int"
  | VFloat _ => "float"
  | VComplex _ _ => "complex"
  | VStr _ => "str"
  | VBytes _ => "bytes"
  | VList _ => "list"
  | VTuple _ => "tuple"
  | VSet _ => "set"
  | VFrozenSet _ => "frozenset"
  | VDict _ => "dict"
  | VType _ => "type"
  | VObject cls => cls
  | VDecimal _ _ => "decimal.Decimal"
  | VFraction _ _ => "fractions.Fraction"
  | VFormat _ => "str"
  end.

(** [type(v)] *)
Definition type_ (v : pyval) : pyval := VType (type_name v).

(** [isinstance(v, cls)] for a built-in class; [bool] is a subclass of
    [int]. *)
Definition isinstance (v : pyval) (cls : string) : bool :=
  bool_decide (type_name v = cls)
  || (bool_decide (cls = "int") && bool_decide (type_name v = "bool")).

(** [int(f)] for a float *)
Definition int_of_float (f : spec_float) : M Z :=
  match PyFloat.trunc f with
  | Some z => ret z
  | None => raise (if PyFloat.is_inf f then OverflowError else ValueError)
  end.

(** [re + im*j] for an integer [re]. *)
Definition complex_ (re : Z) (im : spec_float) : M pyval :=
  r <- float_of_int re ;;
  ret (VComplex (PyFloat.add r PyFloat.zero) im).

(** [a + b] for an [int] and a [float] *)
Definition add_int_float (a : Z) (b : spec_float) : M spec_float :=
  x <- float_of_int a ;; ret (PyFloat.add x b).

(** ** The [decimal] module *)

Module decimal.

(** [coef * 10 ^ exp]; the special values, the negative zero and the
    exponent notation of the constructor are not modelled. *)
Record t := { coef : Z; exp : Z }.

#[global] Instance topy : ToPy t := fun d => VDecimal (coef d) (exp d).

(** The precision of the default context. *)
Definition prec : Z := 28.

Fixpoint count_digits (fuel : nat) (z : Z) : Z :=
  match fuel with
  | O => 0
  | S fuel' => if z =? 0 then 0 else 1 + count_digits fuel' (z / 10)
  end.

Definition digits (z : Z) : Z :=
  count_digits (S (Z.to_nat (Z.log2 (Z.abs z)))) (Z.abs z).

(** Rounding to the precision of the context, half to even. *)
Definition round (d : t) : t :=
  let drop := digits (coef d) - prec in
  if drop <=? 0 then d
  else
    let p := 10 ^ drop in
    let a := Z.abs (coef d) in
    let q := a / p in
    let r := a mod p in
    let up := (p <? 2 * r) || ((p =? 2 * r) && Z.odd q) in
    let q' := if up then q + 1 else q in
    let '(q'', e) := if q' =? 10 ^ prec then (q' / 10, exp d + drop + 1)
                     else (q', exp d + drop) in
    {| coef := Z.sgn (coef d) * q''; exp := e |}.

(** The digits before and after the point. *)
Fixpoint scan (l : list ascii) (seen_point : bool) (c e : Z) (any : bool) : option t :=
  match l with
  | [] => if any then Some {| coef := c; exp := e |} else None
  | a :: l' =>
      if bool_decide (a = "."%char) then
        if seen_point then None else scan l' true c e any
      else
        match digit_of a with
        | Some v => scan l' seen_point (10 * c + v) (if seen_point then e - 1 else e) true
        | None => None
        end
  end.

Definition parse (s : string) : option t :=
  match strip (chars s) with
  | a :: l =>
      if bool_decide (a = "-"%char) then
        (fun d => {| coef := - coef d; exp := exp d |}) <$> scan l false 0 0 false
      else if bool_decide (a = "+"%char) then scan l false 0 0 false
      else scan (a :: l) false 0 0 false
  | [] => None
  end.

(** [Decimal(s)] keeps every digit of [s]. *)
Definition Decimal (s : string) : M t := or_raise InvalidOperation (parse s).

(** [a + b] and [a * b] in the default context, whose exponent limits
    are far from these scripts' values. *)
Definition add (a b : t) : t :=
  let e := Z.min (exp a) (exp b) in
  round {| coef := coef a * 10 ^ (exp a - e) + coef b * 10 ^ (exp b - e); exp := e |}.

Definition mul (a b : t) : t :=
  round {| coef := coef a * coef b; exp := exp a + exp b |}.

End decimal.

(** ** The [fractions] module *)

Module fractions.

Record t := { numerator : Z; denominator : Z }.

#[global] Instance topy : ToPy t := fun q => VFraction (numerator q) (denominator q).

(** [Fraction(n, d)], in lowest terms with a positive denominator. *)
Definition Fraction2 (n d : Z) : M t :=
  if d =? 0 then raise ZeroDivisionError
  else
    let g := Z.gcd n d * Z.sgn d in
    ret {| numerator := n / g; denominator := d / g |}.

(** [Fraction(n)] *)
Definition Fraction (n : Z) : t := {| numerator := n; denominator := 1 |}.

(** [Fraction(f)] for a float: its exact value. *)
Definition of_float (f : spec_float) : M t :=
  match f with
  | S754_zero _ => ret (Fraction 0)
  | S754_finite s m e =>
      let n := if s then Z.neg m else Z.pos m in
      if 0 <=? e then ret (Fraction (n * 2 ^ e)) else Fraction2 n (2 ^ (- e))
  | S754_infinity _ => raise OverflowError
  | S754_nan => raise ValueError
  end.

(** [float(q)]: the true division of the numerator by the denominator,
    rounded once. *)
Definition to_float (q : t) : M spec_float :=
  if denominator q =? 0 then raise ZeroDivisionError
  else
    let f := PyFloat.div (PyFloat.exact (numerator q)) (PyFloat.exact (denominator q)) in
    if PyFloat.is_inf f then raise OverflowError else ret f.

(** [q == 0] *)
Definition eq_zero (q : t) : bool := (numerator q =? 0) && (denominator q =? 1).

(** [a / b] for two rational numbers, as [Fraction._div] computes it;
    making the result raises [ZeroDivisionError] when its denominator
    is zero. *)
Definition _div (a b : t) : M t :=
  let na := numerator a in
  let da := denominator a in
  let nb := numerator b in
  let db := denominator b in
  let g1 := Z.gcd na nb in
  let na := if 1 <? g1 then na / g1 else na in
  let nb := if 1 <? g1 then nb / g1 else nb in
  let g2 := Z.gcd db da in
  let da := if 1 <? g2 then da / g2 else da in
  let db := if 1 <? g2 then db / g2 else db in
  let n := na * db in
  let d := nb * da in
  let n' := if d <? 0 then - n else n in
  let d' := if d <? 0 then - d else d in
  if d' =? 0 then raise ZeroDivisionError
  else ret {| numerator := n'; denominator := d' |}.

End fractions.

(** ** Numbers of any type *)

(** What a caller can pass to a function that is written for numbers:
    a [bool], an [int] or a [float], or a [fractions.Fraction].  ([complex]
    and [decimal.Decimal] are not modelled.) *)
Inductive number :=
| Num (n : pynum)
| Frac (q : fractions.t).

#[global] Instance topy_number : ToPy number :=
  fun x => match x with Num n => py n | Frac q => py q end.

(** [x == 0] *)
Definition number_eq_zero (x : number) : bool :=
  match x with
  | Num n => eq_zero n
  | Frac q => fractions.eq_zero q
  end.

(** The operand as a rational number: an [int] (or [bool]) is its own
    numerator, over 1; a [float] is not rational. *)
Definition as_rational (x : number) : option fractions.t :=
  match x with
  | Num n => fractions.Fraction <$> as_int n
  | Frac q => Some q
  end.

(** [float(x)] *)
Definition number_to_float (x : number) : M spec_float :=
  match x with
  | Num n => to_float n
  | Frac q => fractions.to_float q
  end.

(** [x / y].  Between built-in numbers it is [truediv]; when a
    [Fraction] is one operand, the division is the rational one if the
    other operand is rational, and otherwise both are converted to
    [float] and divided. *)
Definition number_truediv (x y : number) : M number :=
  match x, y with
  | Num a, Num b => r <- truediv a b ;; ret (Num r)
  | _, _ =>
      match as_rational x, as_rational y with
      | Some a, Some b => q <- fractions._div a b ;; ret (Frac q)
      | _, _ =>
          fx <- number_to_float x ;;
          fy <- number_to_float y ;;
          r <- truediv (NFloat fx) (NFloat fy) ;;
          ret (Num r)
      end
  end.

(** ** The [math] module *)

Module math.

(** [math.pi], the double nearest to pi *)
Definition pi : spec_float := S754_finite false 7074237752028440 (-51).

(** The largest arguments for which [exp] and [sinh] are finite. *)
Definition exp_max : spec_float := S754_finite false 6243314768165359 (-43).
Definition sinh_max : spec_float := S754_finite false 6249411755243645 (-43).

(** [math.cos(x)]: the value is the C library's; an infinite argument
    is a domain error. *)
Definition cos (x : pynum) : M pyfloat :=
  f <- to_float x ;;
  if PyFloat.is_inf f then raise ValueError else ret (FLibm "cos" x).

Definition positive (x : pynum) : bool :=
  match x with
  | NBool b => b
  | NInt z => 0 <? z
  | NFloat f => negb (PyFloat.leb f PyFloat.zero)
  end.

(** [math.log(x)] and [math.log10(x)]: a domain error unless [0 < x]
    (or [x] is not a number). *)
Definition log (x : pynum) : M pyfloat :=
  if positive x then ret (FLibm "log" x) else raise ValueError.

Definition log10 (x : pynum) : M pyfloat :=
  if positive x then ret (FLibm "log10" x) else raise ValueError.

(** [math.exp(x)] and [math.sinh(x)]: a range error when the result
    is too large for a double. *)
Definition exp (x : pynum) : M pyfloat :=
  f <- to_float x ;;
  if PyFloat.ltb exp_max f && negb (PyFloat.is_inf f) then raise OverflowError
  else ret (FLibm "exp" x).

Definition sinh (x : pynum) : M pyfloat :=
  f <- to_float x ;;
  if PyFloat.ltb sinh_max (SFabs f) && negb (PyFloat.is_inf f) then raise OverflowError
  else ret (FLibm "sinh" x).

Fixpoint fact (n : nat) : Z :=
  match n with
  | O => 1
  | S n' => Z.of_nat n * fact n'
  end.

(** [math.factorial(n)] *)
Definition factorial (n : Z) : M Z :=
  if n <? 0 then raise ValueError else ret (fact (Z.to_nat n)).

End math.

(** ** The [random] module *)

Module random.

(** [random.randrange(a, b)] *)
Definition randrange (a b : Z) : M Z :=
  if b <=? a then raise ValueError
  else r <- draw ;; ret (a + r mod (b - a)).

(** [random.choice(l)] *)
Definition choice {A} (l : list A) : M A :=
  match l with
  | [] => raise IndexError
  | _ => r <- draw ;; getitem l (r mod len l)
  end.

(** [random.shuffle(l)] *)
Definition shuffle {A} (l : list A) : M (list A) := shuffle l.

(** [random.random()]: a multiple of [2^-53] in [[0, 1)]. *)
Definition random : M spec_float :=
  r <- draw ;;
  ret (PyFloat.div (PyFloat.exact (r mod 2 ^ 53)) (PyFloat.exact (2 ^ 53))).

End random.

(** ** The [re] module *)

Module re.

(** Patterns of ordinary characters and [.], which stands for any
    character but the newline.  The text the pattern matches at the
    head of [text]. *)
Fixpoint match_at (pat text : list ascii) : option (list ascii) :=
  match pat, text with
  | [], _ => Some []
  | p :: pat', c :: text' =>
      if (if bool_decide (p = "."%char) then negb (bool_decide (code c = 10))
          else bool_decide (p = c))
      then cons c <$> match_at pat' text'
      else None
  | _ :: _, [] => None
  end.

Fixpoint search_from (pat text : list ascii) : option (list ascii) :=
  match match_at pat text with
  | Some m => Some m
  | None =>
      match text with
      | [] => None
      | _ :: text' => search_from pat text'
      end
  end.

(** [re.search(pat, text)]: the leftmost match, if any. *)
Definition search (pat text : string) : option string :=
  str <$> search_from (chars pat) (chars text).

(** The matches from left to right; [skip] characters are still inside
    the last match. *)
Fixpoint findall_from (pat text : list ascii) (skip : nat) : list string :=
  match skip, text with
  | S k, _ :: text' => findall_from pat text' k
  | S _, [] => []
  | O, _ =>
      match match_at pat text, text with
      | Some m, _ :: text' => str m :: findall_from pat text' (length m - 1)
      | Some m, [] => [str m]
      | None, _ :: text' => findall_from pat text' 0
      | None, [] => []
      end
  end.

(** [re.findall(pat, text)] *)
Definition findall (pat text : string) : list string :=
  findall_from (chars pat) (chars text) 0.

End re.

(** [next(g)] as a statement of a script: an exception ends the
    statement, the generator afterwards is handed on. *)
Definition next_ {A} (g : generator A) : M (A * generator A) :=
  fun w =>
    match next g w with
    | (Normal v, g', w') => (Normal (v, g'), w')
    | (Raised e, _, w') => (Raised e, w')
    end.

(** [iter(l)] for a list that is not changed meanwhile. *)
Definition iter_list {A} (l : list A) : generator A :=
  gfor l (fun x k => gyield x k) gdone.

(** A method that reads and changes its object and nothing else; [call]
    makes it a statement. *)
Definition method (S A : Type) : Type := S -> outcome A * S.

Definition call {S A} (m : method S A) (self : S) : M (A * S) :=
  fun w =>
    match m self with
    | (Normal a, self') => (Normal (a, self'), w)
    | (Raised e, _) => (Raised e, w)
    end.

(** ** Statements *)

(** [assert b] *)
Definition assert_ (b : bool) : M unit :=
  if b then pass else raise AssertionError.

(** [while cond: body] on the variables [s] the loop changes.  [fuel]
    bounds the number of iterations: the loop is cut off there, and a
    caller passes a bound that the loop does not reach. *)
Fixpoint while_ {S} (fuel : nat) (cond : S -> bool) (body : S -> M S) (s : S) : M S :=
  match fuel with
  | O => ret s
  | S fuel' =>
      if cond s then s' <- body s ;; while_ fuel' cond body s'
      else ret s
  end.

(** The characters a string literal of this file cannot hold. *)
Definition dq : string := String (ascii_of_nat 34) "".
Definition tab : string := String (ascii_of_nat 9) "".
Definition nl : string := String (ascii_of_nat 10) "".

(** * The scripts *)

(** ** error_and_exception25.py *)

Definition error_and_exception25 : M unit :=
  try_except
    (let a := "hi" in
     b <- int_of_str a ;;
     print [py "Value of b:"; py b])
    [(None, print [py "Exception Caught!"])] ;;
  try_except
    (let x := NInt 5 in
     let y := NInt 0 in
     z <- truediv x y ;;
     pass)
    [(Some ZeroDivisionError, print [py "Division by Zero is not possible."])] ;;
  try_except
    (raise TypeError)
    [(Some TypeError, print [py "Type Exception Caught!"])] ;;
  try_finally
    (try_except
       (print [py "Im in Try block"] ;;
        raise TypeError)
       [(None, print [py "Im in Except block"])])
    (print [py "Im in finally block"]).

(** ** example26.py *)

Definition example26_try : M unit :=
  s1 <- input "Please enter the first number:" ;;
  a <- int_of_str s1 ;;
  s2 <- input "Please enter the second number:" ;;
  b <- int_of_str s2 ;;
  (if a <? 0 then raise TypeError else pass) ;;
  c <- truediv (NInt a) (NInt b) ;;
  line <- format "{} / {} = {}" [py a; py b; py c] ;;
  print [line].

Definition example26_handlers : list (option exn * M unit) :=
  [(Some ZeroDivisionError, print [py "Division by zero is not possible..."]);
   (Some ValueError, print [py "The data types are not proper..."]);
   (Some TypeError, print [py "The data is not in range..."]);
   (None, print [py "default exception handling if none of the exception matches..."])].

Definition example26 : M unit :=
  try_finally
    (try_except example26_try example26_handlers)
    (print [py "Anyways i will exceute"]).

(** ** example33.py *)

Definition my_generator : generator Z :=
  let n := 1 in
  print [py "This is printed first"] ;;
  gyield n (
    let n := n + 1 in
    print [py "This is printed second"] ;;
    gyield n (
      let n := n + 1 in
      print [py "This is printed third"] ;;
      gyield n gdone)).

Definition reverse_string (my_string : string) : generator ascii :=
  let length := len (chars my_string) in
  gfor (range3 (length - 1) (-1) (-1))
    (fun i k => c <- getitem (chars my_string) i ;; gyield c k)
    gdone.

Definition example33 : M unit :=
  let a := my_generator in
  r <- next_ a ;; let a := snd r in
  r <- next_ a ;; let a := snd r in
  r <- next_ a ;; let a := snd r in
  print [py "Using for loop..."] ;;
  for_gen my_generator (fun item => print [py item]) ;;
  for_gen (reverse_string "World") (fun char => print [py char]).

(** [''.join(g)]: the characters a generator yields, as one string. *)
Definition join_yields (g : generator ascii) : M string :=
  l <- list_of_gen g ;; ret (str l).

(** ** decorators34.py *)

Module decorators34.

Definition make_decorated (func : M unit) : M unit :=
  let inner_func :=
    print [py "I got decorated."] ;;
    func in
  inner_func.

Definition simple_func : M unit :=
  print [py "I am a simple function"].

(** The second pair of definitions, lines 18 to 26: the same decorator,
    applied with [@]. *)
Definition make_decorated' (func : M unit) : M unit :=
  let inner_func :=
    print [py "I got decorated."] ;;
    func in
  inner_func.

Definition simple_func' : M unit :=
  make_decorated' (print [py "I am a simple function"]).

(** The wrapper returns [None] ([return] without a value) or what
    [func] returns. *)
Definition my_smart_div {R} (func : number -> number -> M R) : number -> number -> M (option R) :=
  let inner_func (x y : number) :=
    print [py "I am dividing x, and y"] ;;
    if number_eq_zero y then
      print [py "Oops! Division by Zero is illegal... !!!"] ;;
      ret None
    else
      r <- func x y ;;
      ret (Some r) in
  inner_func.

Definition go_divide : number -> number -> M (option number) :=
  my_smart_div (fun a b => number_truediv a b).

Definition main : M unit :=
  let decor := make_decorated simple_func in
  decor ;;
  simple_func' ;;
  r <- go_divide (Num (NInt 20)) (Num (NInt 2)) ;;
  print [py "20/2"; py r].

End decorators34.

(** ** example17.py *)

Module Pow_of_Two.

(** [n] is unset until [__iter__] has run. *)
Record t := { max : Z; n : option Z }.

Definition __doc__ : string := "class to implement an iterator 
    of power of two".

Definition __init__ (max : Z) : t := {| max := max; n := None |}.

Definition __iter__ (self : t) : t := {| max := max self; n := Some 0 |}.

Definition __next__ : method t pynum :=
  fun self =>
    match n self with
    | None => (Raised AttributeError, self)
    | Some k =>
        if k <=? max self then
          let result := pow2 k in
          (Normal result, {| max := max self; n := Some (k + 1) |})
        else (Raised StopIteration, self)
    end.

End Pow_of_Two.

Module Infinite_Iter.

Record t := { num : option Z }.

Definition __doc__ : string := "Infinite Iterator to return all
    odd numbers".

Definition __init__ : t := {| num := None |}.

Definition __iter__ (self : t) : t := {| num := Some 1 |}.

Definition __next__ : method t Z :=
  fun self =>
    match num self with
    | None => (Raised AttributeError, self)
    | Some k => (Normal k, {| num := Some (k + 2) |})
    end.

End Infinite_Iter.

(** [k] successive calls of [next] on an iterator object: what each call
    returned or raised, and the object afterwards. *)
Fixpoint nexts {S A} (m : method S A) (k : nat) (self : S) : list (outcome A) * S :=
  match k with
  | O => ([], self)
  | S k' =>
      let '(r, self') := m self in
      let '(rs, self'') := nexts m k' self' in
      (r :: rs, self'')
  end.

(** The same for a generator. *)
Fixpoint gnexts {A} (k : nat) (g : generator A) (w : world) : list (outcome A) * generator A * world :=
  match k with
  | O => ([], g, w)
  | S k' =>
      let '(r, g', w') := next g w in
      let '(rs, g'', w'') := gnexts k' g' w' in
      (r :: rs, g'', w'')
  end.

Definition example17 : M unit :=
  let our_list := [44; 77; 11; 33] in
  let our_iter := iter_list our_list in
  r <- next_ our_iter ;; let our_iter := snd r in print [py (fst r)] ;;
  r <- next_ our_iter ;; let our_iter := snd r in print [py (fst r)] ;;
  r <- next_ our_iter ;; let our_iter := snd r in print [py (fst r)] ;;
  r <- next_ our_iter ;; let our_iter := snd r in print [py (fst r)] ;;
  print [py Pow_of_Two.__doc__] ;;
  let a := Pow_of_Two.__init__ 4 in
  (* [iter(a)] returns [a] itself: [i] and [a] are one object *)
  let i := Pow_of_Two.__iter__ a in
  r <- call Pow_of_Two.__next__ i ;; let i := snd r in print [py (fst r)] ;;
  r <- call Pow_of_Two.__next__ i ;; let i := snd r in print [py (fst r)] ;;
  r <- call Pow_of_Two.__next__ i ;; let i := snd r in print [py (fst r)] ;;
  let i := Infinite_Iter.__init__ in
  let a := Infinite_Iter.__iter__ i in
  print [py Infinite_Iter.__doc__] ;;
  r <- call Infinite_Iter.__next__ a ;; let a := snd r in print [py (fst r)] ;;
  r <- call Infinite_Iter.__next__ a ;; let a := snd r in print [py (fst r)] ;;
  r <- call Infinite_Iter.__next__ a ;; let a := snd r in print [py (fst r)] ;;
  r <- call Infinite_Iter.__next__ a ;; let a := snd r in print [py (fst r)].

(** * The operating system *)

Module os.

(** ** Paths *)

(** The components of a path string, split at the slashes; [cur] holds
    the component being read, in reverse. *)
Fixpoint split_slash (l cur : list ascii) : list string :=
  match l with
  | [] => [str (rev cur)]
  | c :: l' =>
      if bool_decide (c = "/"%char) then str (rev cur) :: split_slash l' []
      else split_slash l' (c :: cur)
  end.

Definition is_abs (s : string) : bool :=
  match s with
  | String c _ => bool_decide (c = "/"%char)
  | EmptyString => false
  end.

(** Walks the components from [base]; empty components and [.] stay,
    [..] goes up.  Symbolic links are not modelled. *)
Fixpoint walk (base : path) (comps : list string) : path :=
  match comps with
  | [] => base
  | c :: comps' =>
      if bool_decide (c = "" \/ c = ".") then walk base comps'
      else if bool_decide (c = "..") then walk (removelast base) comps'
      else walk (base ++ [c]) comps'
  end.

(** The absolute path a path string names in the working directory [d]. *)
Definition resolve (d : path) (s : string) : path :=
  walk (if is_abs s then [] else d) (split_slash (chars s) []).

Definition render (p : path) : string :=
  match p with
  | [] => "/"
  | _ => String.concat "" (map (fun c => "/" +:+ c) p)
  end.

(** ** The tree *)

(** The root is a directory and is not stored. *)
Definition node_at (t : gmap path node) (p : path) : option node :=
  match p with
  | [] => Some (Dir 493)
  | _ => t !! p
  end.

Definition parent (p : path) : path := removelast p.

(** The names in the directory [p]. *)
Definition children (t : gmap path node) (p : path) : list string :=
  omap (fun kv : path * node =>
          match fst kv with
          | [] => None
          | q => if bool_decide (parent q = p) then last q else None
          end)
       (map_to_list t).

Definition under (src p : path) : bool := bool_decide (src `prefix_of` p).

Definition reroot (src dst p : path) : path :=
  if under src p then dst ++ drop (length src) p else p.

(** The map after the subtree at [src] has been moved to [dst],
    replacing what was there. *)
Definition move_tree {V} (src dst : path) (t : gmap path V) : gmap path V :=
  let moved := filter (fun kv : path * V => under src (fst kv) = true) t in
  let kept := filter (fun kv : path * V => under src (fst kv) = false
                                          /\ under dst (fst kv) = false) t in
  map_fold (fun p n acc => <[reroot src dst p := n]> acc) kept moved.

(** The directory a new entry [p] goes into must exist. *)
Definition check_parent (t : gmap path node) (p : path) : outcome unit :=
  match node_at t (parent p) with
  | None => Raised FileNotFoundError
  | Some (File _) => Raised NotADirectoryError
  | Some (Dir _) => Normal tt
  end.

(** ** Calls *)

(** A call is recorded, refused when the system denies it, and
    otherwise acts on the system's state. *)
Definition call_os {A} (c : syscall) (body : os_state -> outcome A * os_state) : M A :=
  fun w =>
    let s := set_calls (calls (sys w) ++ [c]) (sys w) in
    if denied s c then (Raised PermissionError, set_sys s w)
    else let '(r, s') := body s in (r, set_sys s' w).

Definition getcwd_body (s : os_state) : outcome string * os_state :=
  match node_at (fs s) (cwd s) with
  | Some (Dir _) => (Normal (render (cwd s)), s)
  | _ => (Raised FileNotFoundError, s)
  end.

(** [os.getcwd()] *)
Definition getcwd : M string := call_os SysGetcwd getcwd_body.

(** [os.getcwdb()]: the same path, as bytes. *)
Definition getcwdb : M string := call_os SysGetcwdb getcwd_body.

(** [os.chdir(path)] *)
Definition chdir (name : string) : M unit :=
  fun w =>
    let p := resolve (cwd (sys w)) name in
    call_os (SysChdir p)
      (fun s =>
         match node_at (fs s) p with
         | None => (Raised FileNotFoundError, s)
         | Some (File _) => (Raised NotADirectoryError, s)
         | Some (Dir _) => (Normal tt, set_cwd p s)
         end) w.

(** [os.listdir()]: the names in the working directory, in the order
    the map enumerates them (the system promises no order). *)
Definition listdir : M (list string) :=
  fun w =>
    let p := cwd (sys w) in
    call_os (SysListdir p)
      (fun s =>
         match node_at (fs s) p with
         | None => (Raised FileNotFoundError, s)
         | Some (File _) => (Raised NotADirectoryError, s)
         | Some (Dir _) => (Normal (children (fs s) p), s)
         end) w.

(** [os.mkdir(name)]: permissions [0o777]; the umask is not modelled. *)
Definition mkdir (name : string) : M unit :=
  fun w =>
    let p := resolve (cwd (sys w)) name in
    call_os (SysMkdir p)
      (fun s =>
         match node_at (fs s) p with
         | Some _ => (Raised FileExistsError, s)
         | None =>
             match check_parent (fs s) p with
             | Raised e => (Raised e, s)
             | Normal _ => (Normal tt, set_fs (<[p := Dir 511]> (fs s)) s)
             end
         end) w.

(** [os.rename(src, dst)], as POSIX has it: an existing [dst] is
    replaced when it is a file and [src] is one, or an empty directory
    and [src] is a directory. *)
Definition rename (src dst : string) : M unit :=
  fun w =>
    let ps := resolve (cwd (sys w)) src in
    let pd := resolve (cwd (sys w)) dst in
    call_os (SysRename ps pd)
      (fun s =>
         let moved :=
           (Normal tt,
            set_contents (move_tree ps pd (contents s))
              (set_fs (move_tree ps pd (fs s)) s)) in
         match ps, node_at (fs s) ps, check_parent (fs s) pd with
         | [], _, _ => (Raised OSError, s)
         | _, None, _ => (Raised FileNotFoundError, s)
         | _, _, Raised e => (Raised e, s)
         | _, Some n, Normal _ =>
             if bool_decide (ps = pd) then (Normal tt, s)
             else if under ps pd then (Raised OSError, s)
             else
               match n, node_at (fs s) pd with
               | _, None => moved
               | File _, Some (File _) => moved
               | File _, Some (Dir _) => (Raised IsADirectoryError, s)
               | Dir _, Some (File _) => (Raised NotADirectoryError, s)
               | Dir _, Some (Dir _) =>
                   match pd, children (fs s) pd with
                   | [], _ => (Raised OSError, s)
                   | _, [] => moved
                   | _, _ => (Raised OSError, s)
                   end
               end
         end) w.

(** [os.chmod(name, mode)] *)
Definition chmod (name : string) (mode : Z) : M unit :=
  fun w =>
    let p := resolve (cwd (sys w)) name in
    call_os (SysChmod p mode)
      (fun s =>
         match p, node_at (fs s) p with
         | _, None => (Raised FileNotFoundError, s)
         | [], _ => (Raised PermissionError, s)
         | _, Some (File _) => (Normal tt, set_fs (<[p := File mode]> (fs s)) s)
         | _, Some (Dir _) => (Normal tt, set_fs (<[p := Dir mode]> (fs s)) s)
         end) w.

(** [os.remove(name)]: removes a file.  For a directory Linux answers
    with [IsADirectoryError], which is what is modelled. *)
Definition remove (name : string) : M unit :=
  fun w =>
    let p := resolve (cwd (sys w)) name in
    call_os (SysRemove p)
      (fun s =>
         match node_at (fs s) p with
         | None => (Raised FileNotFoundError, s)
         | Some (Dir _) => (Raised IsADirectoryError, s)
         | Some (File _) =>
             (Normal tt, set_contents (delete p (contents s)) (set_fs (delete p (fs s)) s))
         end) w.

(** [os.rmdir(name)]: removes an empty directory. *)
Definition rmdir (name : string) : M unit :=
  fun w =>
    let p := resolve (cwd (sys w)) name in
    call_os (SysRmdir p)
      (fun s =>
         match p, node_at (fs s) p with
         | _, None => (Raised FileNotFoundError, s)
         | _, Some (File _) => (Raised NotADirectoryError, s)
         | [], Some (Dir _) => (Raised OSError, s)
         | _, Some (Dir _) =>
             match children (fs s) p with
             | [] => (Normal tt, set_fs (delete p (fs s)) s)
             | _ => (Raised OSError, s)
             end
         end) w.

(** [open(name, 'w')]: creates the file or empties it; the result is
    the path the file object writes to. *)
Definition open_w (name : string) : M path :=
  fun w =>
    let p := resolve (cwd (sys w)) name in
    call_os (SysOpenWrite p)
      (fun s =>
         match node_at (fs s) p, check_parent (fs s) p with
         | Some (Dir _), _ => (Raised IsADirectoryError, s)
         | Some (File _), _ => (Normal p, set_contents (<[p := ""]> (contents s)) s)
         | None, Raised e => (Raised e, s)
         | None, Normal _ =>
             (Normal p,
              set_contents (<[p := ""]> (contents s)) (set_fs (<[p := File 438]> (fs s)) s))
         end) w.

(** [f.write(data)] on a file opened for writing. *)
Definition write (f : path) (data : string) : M Z :=
  call_os (SysWrite f data)
    (fun s =>
       (Normal (len (chars data)),
        set_contents (<[f := default "" (contents s !! f) +:+ data]> (contents s)) s)).

End os.

Module stat.
(** [stat.S_IRWXU], [0o700] *)
Definition S_IRWXU : Z := 448.
End stat.

(** ** directory_and_filemanage9.py *)

Definition directory_and_filemanage9 : M unit :=
  import_ "os" ;;
  import_ "stat" ;;
  d <- os.getcwd ;; print [py d] ;;
  d <- os.getcwdb ;; print [VBytes d] ;;
  os.chdir "/Users/srinu/Documents/frontend-prep/backend/python" ;;
  d <- os.getcwd ;; print [py d] ;;
  l <- os.listdir ;; print [py l] ;;
  os.mkdir "test_folder" ;;
  os.rename "test_folder" "New_folder" ;;
  os.chmod "New_folder" stat.S_IRWXU ;;
  os.remove "Test.txt" ;;
  os.rmdir "Test.txt".

(** ** Sample surroundings *)

(** The directory the script changes to, and the directories above it. *)
Definition project_dir : path :=
  ["Users"; "srinu"; "Documents"; "frontend-prep"; "backend"; "python"].

Definition project_tree : gmap path node :=
  list_to_map
    [(["Users"], Dir 493);
     (["Users"; "srinu"], Dir 493);
     (["Users"; "srinu"; "Documents"], Dir 493);
     (["Users"; "srinu"; "Documents"; "frontend-prep"], Dir 493);
     (["Users"; "srinu"; "Documents"; "frontend-prep"; "backend"], Dir 493);
     (project_dir, Dir 493);
     (project_dir ++ ["examples"], Dir 493)].

(** A process started in [project_dir ++ ["examples"]] on the tree [t],
    with nothing on its standard input. *)
Definition start (t : gmap path node) : world :=
  {| stdout := []; stdin := []; imported := [];
     entropy := fun _ => 0; drawn := 0; address := fun z => z;
     sys := {| fs := t; contents := ∅; cwd := project_dir ++ ["examples"];
               calls := []; denied := fun _ => false |} |}.

(** The same tree with the file [Test.txt] in the project directory. *)
Definition project_tree_with_file : gmap path node :=
  <[project_dir ++ ["Test.txt"] := File 420]> project_tree.

(** ** array_imple3.py *)

Definition array_imple3 : M unit :=
  let arr := [10; 20; 30; 40; 50] in
  print [py arr] ;;
  a0 <- getitem arr 0 ;;
  a1 <- getitem arr 1 ;;
  a2 <- getitem arr 2 ;;
  a3 <- getitem arr (-1) ;;
  a4 <- getitem arr (-2) ;;
  print [py a0; py a1; py a2; py a3; py a4] ;;
  let brands := ["Coke"; "Apple"; "Google"; "Microsoft"; "Toyota"] in
  let brands_length := len brands in
  print [py brands_length] ;;
  let brands := brands ++ ["Intel"] in
  print [py brands] ;;
  brands <- delitem brands 0 ;;
  print [py brands] ;;
  brands <- list_remove brands "Intel" ;;
  print [py brands] ;;
  popped <- list_pop brands 3 ;;
  let brands := snd popped in
  print [py brands] ;;
  brands <- setitem brands 0 "banana" ;;
  brands <- setitem brands (-1) "mango" ;;
  print [py brands] ;;
  let concat := [1; 2; 3] in
  let concat := concat ++ [4; 5; 6] in
  print [py concat] ;;
  let repeat := ["a"] in
  let repeat := times repeat 5 in
  print [py repeat] ;;
  let fruits := ["Apple"; "Banana"; "Mango"; "Grapes"; "Orange"] in
  print [py (slice fruits (Some 1) (Some 4))] ;;
  print [py (slice fruits None (Some 3))] ;;
  print [py (slice fruits (Some (-4)) None)] ;;
  print [py (slice fruits (Some (-3)) (Some (-1)))] ;;
  let multd := [[1; 2]; [3; 4]; [5; 6]; [7; 8]] in
  print [py multd] ;;
  m0 <- getitem multd 0 ;;
  print [py m0] ;;
  m3 <- getitem multd 3 ;;
  print [py m3] ;;
  m3 <- getitem multd 3 ;;
  m31 <- getitem m3 1 ;;
  print [py m31] ;;
  m2 <- getitem multd 2 ;;
  m20 <- getitem m2 0 ;;
  print [py m20].

(** ** example10.py *)

Definition example10 : M unit :=
  let new_dict := dict_of [(1, "Hello"); (2, "Hi"); (3, "Hola")] in
  print [py new_dict] ;;
  v <- dict_getitem new_dict 1 ;;
  print [py v] ;;
  print [py (dict_get new_dict 2)] ;;
  let new_dict := dict_set new_dict 1 "Hey" in
  print [py new_dict] ;;
  let new_dict := dict_set new_dict 4 "Namste" in
  print [py new_dict] ;;
  let squares := dict_of [(1, 1); (2, 4); (3, 9); (4, 16); (5, 25)] in
  print [py squares] ;;
  r <- dict_pop squares 4 ;;
  let squares := snd r in
  print [py (fst r)] ;;
  print [py squares] ;;
  r <- dict_popitem squares ;;
  let squares := snd r in
  print [py (fst r)] ;;
  print [py squares] ;;
  squares <- dict_del squares 1 ;;
  print [py squares] ;;
  let squares := dict_clear squares in
  print [py squares] ;;
  (* [del squares]: the name is not used again *)
  let squares1 := dict_of (map (fun x => (x, x * x)) (range1 6)) in
  print [py squares1] ;;
  let squares2 := dict_of [(1, 1); (3, 9); (5, 25); (7, 49); (9, 81)] in
  print [py (dict_mem 1 squares2)] ;;
  print [py (negb (dict_mem 2 squares2))] ;;
  print [py (dict_mem 49 squares2)] ;;
  for_each (keys squares2) (fun i =>
    v <- dict_getitem squares2 i ;;
    print [py v]) ;;
  print [py (len (items squares2))] ;;
  print [py (sorted (keys squares2))].

(** ** example12.py *)

Definition example12 : M unit :=
  let num_int := 123 in
  let num_float := PyFloat.lit 123 (-2) in
  new_num <- add_int_float num_int num_float ;;
  print [py "Interger Number:"; py num_int; py "Type:"; type_ (py num_int)] ;;
  print [py "Float Number:"; py num_float; py "Type:"; type_ (py num_float)] ;;
  print [py "Added New Number:"; py new_num; py "Type:"; type_ (py new_num)] ;;
  let num_int1 := 123 in
  let num_str1 := "123" in
  print [py "Integer data type:"; py num_int1; py "Type:"; type_ (py num_int1)] ;;
  print [py "String data type:"; py num_str1; py "Type:"; type_ (py num_str1)] ;;
  num_str1 <- int_of_str num_str1 ;;
  print [py "Data type of the string after Type casting"; type_ (py num_str1)] ;;
  let num_sum := num_int1 + num_str1 in
  print [py "Sum of num_str1 & num_int1:"; py num_sum; py "Type:"; type_ (py num_sum)].

(** ** example13.py *)

Definition example13 : M unit :=
  let value1 := py 100 in
  print [type_ value1] ;;
  print [py (isinstance value1 "int")] ;;
  print [py (isinstance value1 "float")] ;;
  print [py (isinstance value1 "complex")] ;;
  let value2 := py (PyFloat.lit 10024 (-2)) in
  print [type_ value2] ;;
  print [py (isinstance value2 "int")] ;;
  print [py (isinstance value2 "float")] ;;
  print [py (isinstance value2 "complex")] ;;
  value3 <- complex_ 50 (PyFloat.lit 6 0) ;;
  print [type_ value3] ;;
  print [py (isinstance value3 "int")] ;;
  print [py (isinstance value3 "float")] ;;
  print [py (isinstance value3 "complex")] ;;
  print [py 13; py 13] ;;
  print [py 171; py 171] ;;
  print [py 19; py 19] ;;
  i <- int_of_float (PyFloat.lit 105 (-1)) ;;
  print [py i] ;;
  i <- int_of_float (PyFloat.lit (-2099) (-2)) ;;
  print [py i] ;;
  f <- float_of_int 5 ;;
  print [py f] ;;
  let data1 := PyFloat.add (PyFloat.lit 1 (-1)) (PyFloat.lit 2 (-1)) in
  print [py data1] ;;
  let data1 := PyFloat.mul (PyFloat.lit 120 (-2)) (PyFloat.lit 250 (-2)) in
  print [py data1] ;;
  import_ "decimal" ;;
  a <- decimal.Decimal "0.1" ;;
  b <- decimal.Decimal "0.2" ;;
  print [py (decimal.add a b)] ;;
  a <- decimal.Decimal "1.2" ;;
  b <- decimal.Decimal "2.5" ;;
  print [py (decimal.mul a b)] ;;
  import_ "fractions" ;;
  q <- fractions.of_float (PyFloat.lit 15 (-1)) ;;
  print [py q] ;;
  print [py (fractions.Fraction 5)] ;;
  q <- fractions.Fraction2 1 5 ;;
  print [py q] ;;
  import_ "math" ;;
  print [py math.pi] ;;
  v <- math.cos (NInt 10) ;;
  print [py v] ;;
  v <- math.log (NInt 10) ;;
  print [py v] ;;
  v <- math.log10 (NInt 10) ;;
  print [py v] ;;
  v <- math.exp (NInt 10) ;;
  print [py v] ;;
  v <- math.factorial 5 ;;
  print [py v] ;;
  v <- math.sinh (NInt 10) ;;
  print [py v] ;;
  print [py (SFabs (PyFloat.lit (-1234) (-2)))] ;;
  import_ "random" ;;
  r <- random.randrange 5 15 ;;
  print [py "Random Number -->"; py r] ;;
  r <- random.randrange 5 15 ;;
  print [py "Random Number -->"; py r] ;;
  let day := ["sun"; "mon"; "tue"; "wed"; "thurs"; "fri"; "sat"] in
  d <- random.choice day ;;
  print [py d] ;;
  print [py day] ;;
  day <- random.shuffle day ;;
  print [py day] ;;
  r <- random.random ;;
  print [py r].

(** ** example14.py *)

Module example14.

(** Both functions assign to the global [a]: they take nothing from it
    and hand back its new value. *)
Definition outer_func : M Z :=
  let a := 20 in
  let inner_func : M Z :=
    let a := 30 in
    print [py "a value:"; py a] ;;
    ret a in
  a <- inner_func ;;
  print [py "a value:"; py a] ;;
  ret a.

Definition main : M unit :=
  let a := 2 in
  i <- id_ 2 ;; print [py "id(2)"; py i] ;;
  i <- id_ a ;; print [py "id(a)"; py i] ;;
  let a := 2 in
  i <- id_ a ;; print [py i] ;;
  let a := a + 1 in
  i <- id_ a ;; print [py i] ;;
  i <- id_ 3 ;; print [py i] ;;
  let b := 2 in
  i <- id_ 2 ;; print [py i] ;;
  i <- id_ b ;; print [py i] ;;
  let a := 10 in
  print [py a] ;;
  a <- outer_func ;;
  print [py a].

End example14.

(** ** example16.py *)

Module example16.

(** [func2] binds the global [x]; [func1] has a local [x] of its own and
    hands back the global one, which is unbound before the call. *)
Definition func1 (global_x : option Z) : M (option Z) :=
  let x := 20 in
  let func2 (global_x : option Z) : M (option Z) :=
    let global_x := Some 25 in
    ret global_x in
  print [py "Before calling function2:"; py x] ;;
  print [py "Calling func2 now..."] ;;
  global_x <- func2 global_x ;;
  print [py "After calling func2:"; py x] ;;
  ret global_x.

Definition main : M unit :=
  let global_x : option Z := None in
  global_x <- func1 global_x ;;
  x <- or_raise NameError global_x ;;
  print [py "Global x"; py x].

End example16.

(** ** example19.py *)

Module example19.

(** An object without attributes of its own. *)
Record object := Object { class : string }.

Module myBird.
Definition __init__ (self : object) : M unit :=
  print [py "myBird class constructor is executing..."].
Definition whatType (self : object) : M unit :=
  print [py "I am a Bird..."].
Definition canSwim (self : object) : M unit :=
  print [py "I can Swim..."].
End myBird.

(** [class myPenguin(myBird)] *)
Module myPenguin.
Definition __init__ (self : object) : M unit :=
  myBird.__init__ self ;;
  print [py "myPenguin class constructor is executing..."].
Definition whoisThis (self : object) : M unit :=
  print [py "I am Penguin..."].
Definition canRun (self : object) : M unit :=
  print [py "I can run faster..."].
(** inherited *)
Definition whatType : object -> M unit := myBird.whatType.
Definition canSwim : object -> M unit := myBird.canSwim.
(** [myPenguin()] *)
Definition new : M object :=
  let self := Object "myPenguin" in
  __init__ self ;; ret self.
End myPenguin.

(** What [flying_bird_test] asks of its argument. *)
Class Bird (T : Type) := {
  canFly : T -> M unit;
  canSwim : T -> M unit;
}.

Module MyParrot.
Record t := New {}.
Definition canFly (self : t) : M unit := print [py "Parrot can fly..."].
Definition canSwim (self : t) : M unit := print [py "Parrot Cannot Swim..."].
End MyParrot.

Module MyPenguin.
Record t := New {}.
Definition canFly (self : t) : M unit := print [py "Penguin cannot fly..."].
Definition canSwim (self : t) : M unit := print [py "Penguin can swim..."].
End MyPenguin.

#[global] Instance MyParrot_bird : Bird MyParrot.t :=
  {| canFly := MyParrot.canFly; canSwim := MyParrot.canSwim |}.
#[global] Instance MyPenguin_bird : Bird MyPenguin.t :=
  {| canFly := MyPenguin.canFly; canSwim := MyPenguin.canSwim |}.

Definition flying_bird_test {T} `{Bird T} (bird : T) : M unit :=
  canFly bird ;;
  canSwim bird.

Definition main : M unit :=
  pg1 <- myPenguin.new ;;
  myPenguin.canRun pg1 ;;
  myPenguin.canSwim pg1 ;;
  myPenguin.whatType pg1 ;;
  myPenguin.whoisThis pg1 ;;
  let bird_parrot := MyParrot.New in
  let bird_penguin := MyPenguin.New in
  flying_bird_test bird_parrot ;;
  flying_bird_test bird_penguin.

End example19.

(** ** example2.py *)

Module example2.

Module MyComplexNumber.

(** [my_property] is the attribute line 15 adds to one object. *)
Record t := { real_part : Z; imag_part : Z; my_property : option Z }.

#[global] Instance topy : ToPy t := fun _ => VObject "MyComplexNumber".

(** [MyComplexNumber(real, imag)] *)
Definition __init__ (real imag : Z) : M t :=
  print [py "My Complex Number Constructor Executing..."] ;;
  ret {| real_part := real; imag_part := imag; my_property := None |}.

Definition displayComplex (self : t) : M unit :=
  line <- format "{0} + {1}j" [py (real_part self); py (imag_part self)] ;;
  print [line].

End MyComplexNumber.

Import MyComplexNumber.

Definition main : M unit :=
  cmplx1 <- MyComplexNumber.__init__ 40 50 ;;
  displayComplex cmplx1 ;;
  cmplx2 <- MyComplexNumber.__init__ 10 20 ;;
  let cmplx2 := {| real_part := real_part cmplx2; imag_part := imag_part cmplx2;
                   my_property := Some 30 |} in
  p <- or_raise AttributeError (my_property cmplx2) ;;
  print [py cmplx2; py (real_part cmplx2); py p].

End example2.

(** ** example21.py *)

Module example21.

Definition findMax (a b : Z) : Z :=
  if a >? b then a else b.

(** [msg] has a default value. *)
Definition hello (name : string) (msg : option string) : M unit :=
  let msg := default ", how are you?" msg in
  print [py "Hello"; py name; py msg].

(** [sumAll] takes any number of arguments, which it sees as a tuple. *)
Definition sumAll (args : list Z) : Z :=
  let sum := 0 in
  fold_left (fun sum i => sum + i) args sum.

Definition defaultArg (a b c : option Z) : M unit :=
  let a := default 0 a in
  let b := default 0 b in
  let c := default 0 c in
  line <- format "a = {}, b = {}, c = {}..." [py a; py b; py c] ;;
  print [line].

Definition main : M unit :=
  print [py "Max of 10 and 20 is:"; py (findMax 10 20)] ;;
  hello "srinu" (Some ", What's up?") ;;
  hello "stranger" None ;;
  print [py "Sum of all Integers between 1 and 5 is:"; py (sumAll [1; 2; 3; 4; 5])] ;;
  defaultArg (Some 10) (Some 20) (Some 30) ;;
  defaultArg (Some 10) (Some 20) None ;;
  defaultArg (Some 10) None None ;;
  defaultArg None None None ;;
  defaultArg (Some 111) (Some 222) (Some 333).

End example21.

(** ** example28.py *)

Module example28.

Record object := Object { class : string }.

Module myBird.
Definition __init__ (self : object) : M unit :=
  print [py "myBird class constructor is executing..."].
Definition whatType (self : object) : M unit :=
  print [py "I am a Bird..."].
Definition canSwim (self : object) : M unit :=
  print [py "I can Swim..."].
End myBird.

Module myParrot.
(** class attribute *)
Definition species : string := "bird".

(** instance attributes *)
Record t := { name : string; age : Z }.

Definition __init__ (name : string) (age : Z) : M t :=
  print [py "myParrot class constructor is executing..."] ;;
  ret {| name := name; age := age |}.

Definition canSing (self : t) (thisSong : string) : M pyval :=
  format "{} can sing {}" [py (name self); py thisSong].
End myParrot.

(** [class myPenguin(myBird)] *)
Module myPenguin.
Definition __init__ (self : object) : M unit :=
  myBird.__init__ self ;;
  print [py "Penguin is ready"].
Definition whoIsThis (self : object) : M unit :=
  print [py "I am Penguin."].
Definition canRun (self : object) : M unit :=
  print [py "I can run faster."].
(** inherited *)
Definition whatType : object -> M unit := myBird.whatType.
Definition canSwim : object -> M unit := myBird.canSwim.
Definition new : M object :=
  let self := Object "myPenguin" in
  __init__ self ;; ret self.
End myPenguin.

Module personalComputer.
Record t := { maxComputerPrice : Z }.

Definition __init__ : t := {| maxComputerPrice := 20000 |}.

Definition mySell (self : t) : M unit :=
  line <- format "selling price: {}" [py (maxComputerPrice self)] ;;
  print [line].

Definition setMaxComputerPrice (self : t) (price : Z) : t :=
  {| maxComputerPrice := price |}.
End personalComputer.

Definition main : M unit :=
  mp1 <- myParrot.__init__ "MyParrpt1" 10 ;;
  mp2 <- myParrot.__init__ "MyParrot2" 12 ;;
  line <- format "mp1 is {}" [py myParrot.species] ;;
  print [line] ;;
  line <- format "mp2 is also a {}" [py myParrot.species] ;;
  print [line] ;;
  line <- format "{} is {} years of age" [py (myParrot.name mp1); py (myParrot.age mp1)] ;;
  print [line] ;;
  line <- format "{} is {} years of age" [py (myParrot.name mp2); py (myParrot.age mp2)] ;;
  print [line] ;;
  song <- myParrot.canSing mp1 "chirp" ;;
  print [song] ;;
  pg1 <- myPenguin.new ;;
  myPenguin.whoIsThis pg1 ;;
  myPenguin.canSwim pg1 ;;
  myPenguin.canRun pg1 ;;
  let pc := personalComputer.__init__ in
  personalComputer.mySell pc ;;
  let pc := {| personalComputer.maxComputerPrice := 30000 |} in
  personalComputer.mySell pc ;;
  let pc := personalComputer.setMaxComputerPrice pc 40000 in
  personalComputer.mySell pc.

End example28.

(** ** example29.py *)

Definition example29 : M unit :=
  let people :=
    dict_of
      [(1, dict_of [("name", "John"); ("age", "24"); ("sex", "Male")]);
       (2, dict_of [("name", "Marie"); ("age", "25"); ("sex", "Female")])] in
  print [py people] ;;
  p <- dict_getitem people 2 ;; v <- dict_getitem p "name" ;; print [py v] ;;
  p <- dict_getitem people 1 ;; print [py p] ;;
  p <- dict_getitem people 1 ;; v <- dict_getitem p "name" ;; print [py v] ;;
  p <- dict_getitem people 1 ;; v <- dict_getitem p "age" ;; print [py v] ;;
  p <- dict_getitem people 1 ;; v <- dict_getitem p "sex" ;; print [py v] ;;
  let people := dict_set people 3 (dict_of []) in
  p <- dict_getitem people 3 ;; let people := dict_set people 3 (dict_set p "name" "Luna") in
  p <- dict_getitem people 3 ;; let people := dict_set people 3 (dict_set p "age" "24") in
  p <- dict_getitem people 3 ;; let people := dict_set people 3 (dict_set p "sex" "Female") in
  p <- dict_getitem people 3 ;; let people := dict_set people 3 (dict_set p "married" "No") in
  print [py "people"; py people] ;;
  p <- dict_getitem people 3 ;;
  p <- dict_del p "name" ;;
  let people := dict_set people 3 p in
  print [py people] ;;
  people <- dict_del people 3 ;;
  people <- dict_del people 1 ;;
  print [py people] ;;
  for_each (items people) (fun item =>
    let p_id := fst item in
    let p_info := snd item in
    print [py (nl +:+ " Person ID:"); py p_id] ;;
    for_each (keys p_info) (fun key =>
      v <- dict_getitem p_info key ;;
      print [py (key +:+ ":"); py v])).

(** ** example38.py *)

Definition example38 : M unit :=
  import_ "re" ;;
  match re.search "ape" "The ape was at the apex" with
  | Some _ => print [py "Match for ape found..."]
  | None => pass
  end ;;
  let allApes := re.findall "ape." "The ape was at apex" in
  for_each allApes (fun i => print [py i]).

(** ** example5.py *)

Module example5.

Definition a_void_function : M unit :=
  let a := 1 in
  let b := 2 in
  let c := a + b in
  pass.

Module ExampleClass.
Definition function1 (parameters : Z) : M unit :=
  print [py "Invoking function1 with params..."; py parameters].
Definition function2 (parameters : Z) : M unit :=
  print [py "Invoking function2 with params..."; py parameters].
End ExampleClass.

Definition function_name (parameter : Z) : M unit :=
  print [py "hi"] ;;
  pass.

(** The functions of section 16 read the global [globalVar] or hand
    back its new value. *)
Definition read1 (globalVar : Z) : M unit :=
  print [py globalVar].

Definition write1 (globalVar : Z) : Z :=
  let globalVar := 5 in
  globalVar.

Definition write2 (globalVar : Z) : Z :=
  let globalVar' := 15 in
  globalVar.

Definition outer_func : M unit :=
  let a := 5 in
  let inner_func (a : Z) : M Z :=
    let a := 10 in
    print [py "inner function"; py a] ;;
    ret a in
  a <- inner_func a ;;
  print [py "outer function"; py a].

Definition function1 : M unit :=
  pass.

Definition functionWithReturnValue : Z :=
  let a := 10 in
  a.

Definition generator : generator Z :=
  gfor (range1 6) (fun i k => gyield (i * i) k) gdone.

Definition main : M unit :=
  (* 1 *)
  print [py (5 =? 5)] ;;
  print [py (5 >? 5)] ;;
  (* 2 *)
  print [py (bool_decide (VNone = py 0))] ;;
  print [py (bool_decide (VNone = VList []))] ;;
  print [py (bool_decide (VNone = py false))] ;;
  print [py (bool_decide (VNone = VNone))] ;;
  (* 3 *)
  x <- a_void_function ;;
  print [py x] ;;
  (* 4 *)
  print [py (true && false)] ;;
  print [py (true || false)] ;;
  print [py (negb true)] ;;
  (* 5 *)
  import_ "math" ;;
  v <- math.cos (NFloat math.pi) ;;
  print [py v] ;;
  (* 6 *)
  assert_ (5 >? 5) ;;
  assert_ (5 =? 5) ;;
  (* 7 *)
  for_each_ctl (range2 1 11) (fun i =>
    if i =? 5 then ret Break
    else print [py i] ;; ret Next) ;;
  (* 8 *)
  for_each_ctl (range2 1 11) (fun i =>
    if i =? 5 then ret Next
    else print [py i] ;; ret Next) ;;
  (* 9 *)
  ExampleClass.function1 1 ;;
  ExampleClass.function2 2 ;;
  (* 10 *)
  function_name 1 ;;
  (* 11 *)
  let a := Some 10 in
  v <- or_raise NameError a ;;
  print [py v] ;;
  let a : option Z := None in
  v <- or_raise NameError a ;;
  print [py v] ;;
  (* 12 *)
  let num := 2 in
  (if num =? 1 then print [py "One"]
   else if num =? 2 then print [py "Two"]
   else print [py "Something Else"]) ;;
  (* 13 *)
  try_finally
    (try_except
       (let x := 9 in
        raise ZeroDivisionError)
       [(Some ZeroDivisionError, print [py "Division Cannot be performed"])])
    (print [py "Execution success"]) ;;
  (* 14 *)
  for_each (range2 1 10) (fun i => print [py i]) ;;
  (* 15 *)
  import_ "math" ;;
  import_ "math" ;;
  v <- math.cos (NInt 10) ;;
  print [py v] ;;
  (* 16 *)
  let globalVar := 10 in
  read1 globalVar ;;
  let globalVar := write1 globalVar in
  read1 globalVar ;;
  let globalVar := write2 globalVar in
  read1 globalVar ;;
  (* 17 *)
  let a := [1; 2; 3; 4] in
  print [py (mem 4 a)] ;;
  print [py (negb (mem 5 a))] ;;
  (* 18: for [True] and the small integers, [is] is equality *)
  print [py (Bool.eqb true true)] ;;
  print [py (1 =? 2)] ;;
  (* 19 *)
  let a := fun x => x * 2 in
  for_each (range2 1 5) (fun i => print [py (a i)]) ;;
  (* 20 *)
  outer_func ;;
  (* 22 *)
  print [py functionWithReturnValue] ;;
  (* 23 *)
  let i := 5 in
  i <- while_ (Z.to_nat i) (fun i => i >? 0)
         (fun i => print [py i] ;; ret (i - 1)) i ;;
  (* 24 *)
  my_file <- os.open_w "example.txt" ;;
  os.write my_file "Hello World!!" ;;
  (* 25 *)
  let g := generator in
  for_gen g (fun i => print [py i]).

End example5.

(** ** example6.py *)

Definition example6 : M unit :=
  let tuple1 : list Z := [] in
  print [tuple tuple1] ;;
  let tuple2 := [1; 2; 3] in
  print [tuple tuple2] ;;
  let tuple3 := [py "Srinu"; py 24; py (PyFloat.lit 20000 (-2)); py true] in
  print [tuple tuple3] ;;
  let tuple4 := [py "points"; py [1; 4; 3]; tuple [7; 8; 6]] in
  print [tuple tuple4] ;;
  let tuple5 := [py 101; py "srinu"; py (PyFloat.lit 200000 (-2)); py "Tech"] in
  print [tuple tuple5] ;;
  u <- unpack4 tuple5 ;;
  let '(empid, empname, empsal, empdept) := u in
  print [empid] ;;
  print [empname] ;;
  print [empsal] ;;
  print [empdept] ;;
  let tuple6 := ["w"; "e"; "l"; "c"; "o"; "m"; "e"] in
  print [tuple tuple6] ;;
  v <- getitem tuple6 1 ;; print [py v] ;;
  v <- getitem tuple6 3 ;; print [py v] ;;
  v <- getitem tuple6 5 ;; print [py v] ;;
  let nested_tuple := [py "point"; py [1; 3; 5]; tuple [8; 7; 9]] in
  print [py "Nested tuple"; tuple nested_tuple] ;;
  v <- getitem nested_tuple 0 ;; print [v] ;;
  v <- getitem nested_tuple 1 ;; v <- subscript v 0 ;; print [v] ;;
  v <- getitem nested_tuple 2 ;; v <- subscript v 2 ;; print [v] ;;
  let slicing_tuple := ["w"; "e"; "l"; "c"; "o"; "m"; "e"] in
  print [tuple (slice slicing_tuple (Some 1) (Some 3))] ;;
  print [tuple (slice slicing_tuple None (Some (-3)))] ;;
  print [tuple (slice slicing_tuple (Some 3) None)] ;;
  print [tuple (slice slicing_tuple None None)] ;;
  let tuple7 := ["w"; "e"; "l"; "c"; "o"; "m"; "e"] in
  print [tuple tuple7] ;;
  let tuple7 := ["g"; "o"; "o"; "d"; "b"; "y"; "e"] in
  print [tuple tuple7] ;;
  let tuple8 := ["w"; "e"; "l"] in
  let tuple9 := ["c"; "o"; "m"; "e"] in
  print [tuple (tuple8 ++ tuple9)] ;;
  print [tuple (times ["again"] 4)] ;;
  let tuple_to_delete := ["d"; "e"; "l"; "e"; "t"; "e"; "m"; "e"] in
  let tuple10 := ["w"; "e"; "l"; "c"; "o"; "m"; "e"; "c"] in
  print [py (count tuple10 "e")] ;;
  i <- index_of tuple10 "c" ;;
  print [py i] ;;
  print [py (mem "c" tuple10)] ;;
  print [py (negb (mem "c" tuple10))] ;;
  print [py (mem "a" tuple10)] ;;
  print [py (negb (mem "a" tuple10))] ;;
  for_each tuple10 (fun letters => print [py "Letter is:"; py letters]) ;;
  let tuple11 := [22; 33; 55; 44; 77; 66; 11] in
  v <- max_of tuple11 ;; print [py v] ;;
  v <- min_of tuple11 ;; print [py v] ;;
  print [py (sorted tuple11)] ;;
  print [py (len tuple11)].

(** ** example7.py *)

Definition example7 : M unit :=
  let my_set1 := set_of [11; 33; 66; 55; 44; 22] in
  print [py my_set1] ;;
  let my_set2 := set_of [py 101; py "agnibha"; tuple [21; 2; 1994]] in
  print [py my_set2] ;;
  let my_set3 := set_of [11; 22; 44; 33; 11; 33; 22; 22; 23] in
  print [py my_set3] ;;
  let my_set5 := set_of [1; 2; 3; 2] in
  print [py my_set5] ;;
  print [type_ (py my_set5)] ;;
  my_list1 <- iter_set (set_of [11; 22; 33; 44]) ;;
  print [py my_list1] ;;
  print [type_ (py my_list1)] ;;
  let my_set6 := set_of [11; 33; 44; 66; 55] in
  let my_set6 := set_add my_set6 77 in
  print [py my_set6] ;;
  let my_set6 := set_update my_set6 [23; 36; 6] in
  print [py my_set6] ;;
  let my_set6 := set_update (set_update my_set6 [100; 200]) (elems (set_of [103; 104; 105])) in
  print [py my_set6] ;;
  let my_set6 := set_discard my_set6 4 in
  print [py my_set6] ;;
  let my_set6 := set_discard my_set6 100 in
  print [py my_set6] ;;
  my_set6 <- set_remove my_set6 200 ;;
  print [py my_set6] ;;
  r <- set_pop my_set6 ;; let my_set6 := snd r in
  print [py (fst r)] ;;
  r <- set_pop my_set6 ;; let my_set6 := snd r in
  print [py (fst r)] ;;
  let my_set6 := set_clear my_set6 in
  print [py my_set6] ;;
  let myset1 := set_of [0; 1; 2; 3; 4; 5] in
  let myset2 := set_of [4; 5; 6; 7; 8; 9] in
  print [py (union myset1 myset2)] ;;
  print [py (union myset2 myset1)] ;;
  print [py (union myset1 myset2)] ;;
  print [py (union myset2 myset1)] ;;
  print [py (intersection myset1 myset2)] ;;
  print [py (intersection myset2 myset1)] ;;
  print [py (intersection myset1 myset2)] ;;
  print [py (intersection myset2 myset1)] ;;
  print [py (difference myset1 myset2)] ;;
  print [py (difference myset2 myset1)] ;;
  print [py (difference myset1 myset2)] ;;
  print [py (difference myset2 myset1)] ;;
  print [py (symmetric_difference myset1 myset2)] ;;
  print [py (symmetric_difference myset2 myset1)] ;;
  print [py (symmetric_difference myset1 myset2)] ;;
  print [py (symmetric_difference myset2 myset1)] ;;
  let myset3 := set_of [0; 1; 2; 3; 4; 5] in
  print [py (set_mem 2 myset3)] ;;
  print [py (set_mem 6 myset3)] ;;
  print [py (negb (set_mem 2 myset3))] ;;
  print [py (negb (set_mem 6 myset3))] ;;
  letters <- iter_set (set_of (chars "welcome")) ;;
  for_each letters (fun letter => print [py letter]) ;;
  print [py (len (elems myset3))] ;;
  v <- max_of (elems myset3) ;; print [py v] ;;
  v <- min_of (elems myset3) ;; print [py v] ;;
  print [py (sorted (elems myset3))] ;;
  let myset4 := FrozenSet (set_of [1; 2; 3; 4]) in
  let myset5 := FrozenSet (set_of [3; 4; 5; 6]) in
  print [py myset4] ;;
  print [py myset5] ;;
  print [py (FrozenSet (difference (frozen myset4) (frozen myset5)))] ;;
  print [py (FrozenSet (union (frozen myset4) (frozen myset5)))] ;;
  print [py (FrozenSet (intersection (frozen myset4) (frozen myset5)))] ;;
  print [py (FrozenSet (symmetric_difference (frozen myset4) (frozen myset5)))].

(** ** global_local_nonlocal15.py *)

Module global_local_nonlocal15.

(** [funct1] changes the global [x] and hands back its new value. *)
Definition funct1 (x : string) : M string :=
  let y := "local" in
  let x := str_times x 2 in
  print [py x] ;;
  print [py y] ;;
  ret x.

Definition func2 : M unit :=
  let a := 10 in
  print [py "Local variable a:"; py a].

Definition outer : M unit :=
  let b := "local" in
  let inner (b : string) : M string :=
    let b := "nonlocal" in
    print [py "Inner b:"; py b] ;;
    ret b in
  print [py "Outer b:"; py b] ;;
  b <- inner b ;;
  print [py "Outer b:"; py b].

Definition main : M unit :=
  let x := "global" in
  print [py "Global x:"; py x] ;;
  x <- funct1 x ;;
  print [py "Global x after funct1 invocation:"; py x] ;;
  let a := 5 in
  print [py "Global a:"; py a] ;;
  func2 ;;
  print [py "Global a:"; py a] ;;
  outer.

End global_local_nonlocal15.

(** ** multiple_inheritance20.py *)

Module multiple_inheritance20.

Record object := Object { class : string }.

Module Base1.
Definition fun1 (self : object) : M unit := print [py "Fun1 is executing..."].
End Base1.

Module Base2.
Definition fun2 (self : object) : M unit := print [py "Fun2 in executing..."].
End Base2.

Module Base3.
Definition fun3 (self : object) : M unit := print [py "Fun3 is executing..."].
End Base3.

(** [class MultiDerived(Base1, Base2, Base3)] *)
Module MultiDerived.
Definition multiDerived (self : object) : M unit :=
  print [py "multiDerived function is executing..."].
(** inherited *)
Definition fun1 : object -> M unit := Base1.fun1.
Definition fun2 : object -> M unit := Base2.fun2.
Definition fun3 : object -> M unit := Base3.fun3.
End MultiDerived.

Definition main : M unit :=
  let md1 := Object "MultiDerived" in
  MultiDerived.multiDerived md1 ;;
  MultiDerived.fun1 md1 ;;
  MultiDerived.fun2 md1 ;;
  MultiDerived.fun3 md1.

End multiple_inheritance20.

(** ** statements_and_comments31.py *)

Definition statements_and_comments31 : M unit :=
  let a := 1 in
  let b := 1 + 2 + 3 + 4 + 5 + 6 in
  let c := 1 + 2 + 3 + 4 + 5 + 6 in
  let d := 2 in
  let e := 1 in
  let f := 0 in
  for_each_ctl (range2 1 10) (fun i =>
    print [py i] ;;
    if i =? 5 then ret Break else ret Next) ;;
  print [py "End of the program..."].

(** ** strings11.py *)

Definition strings11 : M unit :=
  let mystr1 := "welcome" in
  print [py mystr1] ;;
  let mystr2 := "welcome" in
  print [py mystr2] ;;
  let mystr3 := "welcome" in
  print [py mystr3] ;;
  let mystr4 := "welcome" in
  print [py mystr4] ;;
  let mystr5 := "welcome
to the world of 
python programming" in
  print [py mystr5] ;;
  let my_str := "language" in
  print [py "my_str"; py my_str] ;;
  c <- str_getitem my_str 0 ;;
  print [py "my_str[0] = "; py c] ;;
  c <- str_getitem my_str (-1) ;;
  print [py "my_str[-1] = "; py c] ;;
  print [py "my_str[1:5] = "; py (str_slice my_str (Some 1) (Some 5))] ;;
  print [py "my_str[5:-2] = "; py (str_slice my_str (Some 5) (Some (-2)))] ;;
  let my_str1 := "language" in
  print [py my_str1] ;;
  let my_str1 := "programming" in
  print [py my_str1] ;;
  print [py (my_str1 +:+ my_str)] ;;
  print [py (str_times my_str1 3)] ;;
  let letter_count := 0 in
  let letter_count :=
    fold_left
      (fun letter_count letter =>
         if bool_decide (letter = "m"%char) then letter_count + 1 else letter_count)
      (chars my_str1) letter_count in
  print [py "Count of letter m in my_str1 is:"; py letter_count] ;;
  print [py (str_in "l" "hello")] ;;
  print [py (negb (str_in "l" "hello"))] ;;
  print [py (str_in "b" "hello")] ;;
  print [py (negb (str_in "b" "hello"))] ;;
  let my_str2 := "university" in
  let my_list_enumerate := enumerate (chars my_str2) in
  print [py "list(enumerate(my_str2)):"; py my_list_enumerate] ;;
  print [py "length of my_str2 is:"; py (len (chars my_str2))] ;;
  print [py ("tell me " +:+ dq +:+ "what's your name?" +:+ dq)] ;;
  print [py ("tell me " +:+ dq +:+ "what's your name?" +:+ dq)] ;;
  print [py "tell me 'what's your name?'"] ;;
  print [py ("tell me " +:+ dq +:+ "what's your name?" +:+ dq)] ;;
  print [py "C:\User\user\mydata.txt"] ;;
  print [py ("This line is having a new line " +:+ nl +:+ "character")] ;;
  print [py ("This line is having a tab " +:+ tab +:+ "character")] ;;
  print [py "ABC written in ABC (Hex) Representation"] ;;
  default_order <- format "{} {} {}" [py "Today"; py "is"; py "sunday"] ;;
  print [default_order] ;;
  positional_order <- format "{1} {0} {2}" [py "is"; py "Today"; py "sunday"] ;;
  print [positional_order] ;;
  keyword_order <- format_kw "{t} {i} {s}" []
                     [("i", py "is"); ("t", py "Today"); ("s", py "sunday")] ;;
  print [keyword_order] ;;
  line <- format "Required binary represntation of {0}is {0:b}" [py 20] ;;
  print [line] ;;
  line <- format "Exponent representation : {0:e}" [py (PyFloat.lit 1566345 (-3))] ;;
  print [line] ;;
  third <- truediv (NInt 1) (NInt 3) ;;
  line <- format "One third is: {0:3f}" [py third] ;;
  print [line].

(** * The repository *)

(** A script: its file, the modules its [import] statements name, and
    what running it does. *)
Record script := {
  file : string;
  imports : list string;
  run : M unit;
}.

Definition array_imple3_py : script :=
  {| file := "array_imple3.py"; imports := []; run := array_imple3 |}.
Definition decorators34_py : script :=
  {| file := "decorators34.py"; imports := []; run := decorators34.main |}.
Definition directory_and_filemanage9_py : script :=
  {| file := "directory_and_filemanage9.py"; imports := ["os"; "stat"];
     run := directory_and_filemanage9 |}.
Definition error_and_exception25_py : script :=
  {| file := "error_and_exception25.py"; imports := []; run := error_and_exception25 |}.
Definition example10_py : script :=
  {| file := "example10.py"; imports := []; run := example10 |}.
Definition example12_py : script :=
  {| file := "example12.py"; imports := []; run := example12 |}.
Definition example13_py : script :=
  {| file := "example13.py"; imports := ["decimal"; "fractions"; "math"; "random"];
     run := example13 |}.
Definition example14_py : script :=
  {| file := "example14.py"; imports := []; run := example14.main |}.
Definition example16_py : script :=
  {| file := "example16.py"; imports := []; run := example16.main |}.
Definition example17_py : script :=
  {| file := "example17.py"; imports := []; run := example17 |}.
Definition example19_py : script :=
  {| file := "example19.py"; imports := []; run := example19.main |}.
Definition example2_py : script :=
  {| file := "example2.py"; imports := []; run := example2.main |}.
Definition example21_py : script :=
  {| file := "example21.py"; imports := []; run := example21.main |}.
Definition example26_py : script :=
  {| file := "example26.py"; imports := []; run := example26 |}.
Definition example28_py : script :=
  {| file := "example28.py"; imports := []; run := example28.main |}.
Definition example29_py : script :=
  {| file := "example29.py"; imports := []; run := example29 |}.
Definition example33_py : script :=
  {| file := "example33.py"; imports := []; run := example33 |}.
Definition example38_py : script :=
  {| file := "example38.py"; imports := ["re"]; run := example38 |}.
Definition example5_py : script :=
  {| file := "example5.py"; imports := ["math"; "math"; "math"]; run := example5.main |}.
Definition example6_py : script :=
  {| file := "example6.py"; imports := []; run := example6 |}.
Definition example7_py : script :=
  {| file := "example7.py"; imports := []; run := example7 |}.
Definition global_local_nonlocal15_py : script :=
  {| file := "global_local_nonlocal15.py"; imports := [];
     run := global_local_nonlocal15.main |}.
Definition multiple_inheritance20_py : script :=
  {| file := "multiple_inheritance20.py"; imports := [];
     run := multiple_inheritance20.main |}.
Definition statements_and_comments31_py : script :=
  {| file := "statements_and_comments31.py"; imports := [];
     run := statements_and_comments31 |}.
Definition strings11_py : script :=
  {| file := "strings11.py"; imports := []; run := strings11 |}.

(** The twenty-five files of backend/python/examples. *)
Definition scripts : list script :=
  [array_imple3_py; decorators34_py; directory_and_filemanage9_py;
   error_and_exception25_py; example10_py; example12_py; example13_py;
   example14_py; example16_py; example17_py; example19_py; example2_py;
   example21_py; example26_py; example28_py; example29_py; example33_py;
   example38_py; example5_py; example6_py; example7_py;
   global_local_nonlocal15_py; multiple_inheritance20_py;
   statements_and_comments31_py; strings11_py].

(** The name under which [import] would find a file of the repository:
    the file name without [.py]. *)
Definition module_name (s : script) : string :=
  str (take (length (chars (file s)) - 3) (chars (file s))).

Definition repo_modules : list string := map module_name scripts.

(** The modules of the standard library the scripts name. *)
Definition stdlib_modules : list string :=
  ["decimal"; "fractions"; "math"; "os"; "random"; "re"; "stat"].

(** * Footprints *)

(** A computation is quiet when it neither looks at the operating
    system's side of the world nor changes it: run on a world with
    another system state, it returns the same and leaves that state in
    place. *)
Definition quiet {A} (m : M A) : Prop :=
  forall w s, m (set_sys s w) = (fst (m w), set_sys s (snd (m w))).

(** * What the specification says of every script *)

(** The script runs from its first statement to its last. *)
Definition runs_to_completion (s : script) : Prop :=
  forall w, fst (run s w) = Normal tt.

(** Nothing the script created is left in the file system: a path that
    named nothing before the run names nothing after it. *)
Definition leaves_nothing (s : script) : Prop :=
  forall w p, fs (sys w) !! p = None -> fs (sys (snd (run s w))) !! p = None.

(** The script makes no call to the operating system. *)
Definition makes_no_call (s : script) : Prop :=
  forall w, calls (sys (snd (run s w))) = calls (sys w).

(** The world in which a process [w] starts after an earlier process has
    ended in [w0]: what the earlier one left in the file system is there,
    everything else is the new process's own. *)
Definition started_after (w0 w : world) : world :=
  set_sys (set_contents (contents (sys w0)) (set_fs (fs (sys w0)) (sys w))) w.

(** A computation only ever adds to the record of calls. *)
Definition extends {A} (m : M A) : Prop :=
  forall w, exists l, calls (sys (snd (m w))) = calls (sys w) ++ l.

(** * Further notions *)

(** Two worlds whose file systems agree on every path outside the
    directory [d]. *)
Definition same_outside (d : path) (w w' : world) : Prop :=
  forall p, os.under d p = false -> fs (sys w') !! p = fs (sys w) !! p.

(** The calls of directory_and_filemanage9.py, in the order of its
    lines. *)
Definition directory_and_filemanage9_trace : list syscall :=
  [SysGetcwd; SysGetcwdb; SysChdir project_dir; SysGetcwd; SysListdir project_dir;
   SysMkdir (project_dir ++ ["test_folder"]);
   SysRename (project_dir ++ ["test_folder"]) (project_dir ++ ["New_folder"]);
   SysChmod (project_dir ++ ["New_folder"]) stat.S_IRWXU;
   SysRemove (project_dir ++ ["Test.txt"]);
   SysRmdir (project_dir ++ ["Test.txt"])].

(** A run of directory_and_filemanage9.py from [w0] that has made [i]
    of its calls and stands at [w']: the calls are recorded in order,
    nothing outside the project directory has changed, and once
    [os.chmod] has returned, [New_folder] is a directory of mode
    [0o700]. *)
Definition reached (w0 : world) (i : nat) (w' : world) : Prop :=
  calls (sys w') = calls (sys w0) ++ take i directory_and_filemanage9_trace
  /\ same_outside project_dir w0 w'
  /\ (9 <= i -> fs (sys w') !! (project_dir ++ ["New_folder"]) = Some (Dir stat.S_IRWXU))%nat.

(** The same when each of the [i] calls has returned. *)
Definition ready (w0 : world) (i : nat) (w' : world) : Prop :=
  reached w0 i w'
  /\ (3 <= i -> cwd (sys w') = project_dir)%nat
  /\ (i = 6 -> fs (sys w') !! (project_dir ++ ["test_folder"]) = Some (Dir 511))%nat
  /\ (i = 7 -> fs (sys w') !! (project_dir ++ ["New_folder"]) = Some (Dir 511))%nat
  /\ (8 <= i -> fs (sys w') !! (project_dir ++ ["New_folder"]) = Some (Dir stat.S_IRWXU))%nat.

(** The [i+1]-th call has been made: it has returned, or it has raised. *)
Definition advances {A} (w0 : world) (i : nat) (x : outcome A * world) : Prop :=
  match fst x with
  | Normal _ => ready w0 (S i) (snd x)
  | Raised _ => reached w0 (S i) (snd x)
  end.

(** [s.isascii()] *)
Definition is_ascii (s : string) : bool :=
  forallb (fun c => code c <? 128) (chars s).

(** * Properties *)

(** ** The monad *)

Lemma bind_ret {A B} (a : A) (k : A -> M B) w : bind (ret a) k w = k a w.
Proof. reflexivity. Qed.

Lemma bind_normal {A B} (m : M A) (k : A -> M B) w a w' :
  m w = (Normal a, w') -> bind m k w = k a w'.
Proof. intros H. unfold bind. now rewrite H. Qed.

Lemma bind_raised {A B} (m : M A) (k : A -> M B) w e w' :
  m w = (Raised e, w') -> bind m k w = (Raised e, w').
Proof. intros H. unfold bind. now rewrite H. Qed.

Lemma bind_ext {A B} (m : M A) (k k' : A -> M B) w :
  (forall a w', k a w' = k' a w') -> bind m k w = bind m k' w.
Proof. intros H. unfold bind. destruct (m w) as [[a|e] w']; [apply H|reflexivity]. Qed.

(** ** Generators *)

Lemma for_gen_bind {A B} (m : M B) (k : B -> generator A) (body : A -> M unit) w :
  for_gen (bind m k) body w = bind m (fun x => for_gen (k x) body) w.
Proof. unfold for_gen, bind. destruct (m w) as [[b|e] w']; reflexivity. Qed.

Lemma for_gen_gyield {A} (v : A) (rest : generator A) (body : A -> M unit) w :
  for_gen (gyield v rest) body w = bind (body v) (fun _ => for_gen rest body) w.
Proof.
  unfold for_gen, gyield. rewrite bind_ret. cbn [for_gen_step].
  apply bind_ext. intros _ w'. unfold bind.
  destruct (rest w') as [[s|e] w'']; reflexivity.
Qed.

Lemma for_gen_gdone {A} (body : A -> M unit) w : for_gen gdone body w = (Normal tt, w).
Proof. reflexivity. Qed.

Lemma gnexts_gdone {A} (k : nat) (w : world) :
  gnexts k (@gdone A) w = (repeat (Raised StopIteration) k, gdone, w).
Proof.
  induction k as [|k IH]; [reflexivity|].
  cbn [gnexts repeat]. cbn. rewrite IH. reflexivity.
Qed.

Lemma gnexts_app {A} (j k : nat) (g : generator A) (w : world) :
  gnexts (j + k) g w =
  let '(rs, g', w') := gnexts j g w in
  let '(rs', g'', w'') := gnexts k g' w' in
  (rs ++ rs', g'', w'').
Proof.
  revert g w. induction j as [|j IH]; intros g w.
  - cbn. destruct (gnexts k g w) as [[rs g'] w']. reflexivity.
  - cbn [Nat.add gnexts]. destruct (next g w) as [[r g1] w1].
    rewrite IH. destruct (gnexts j g1 w1) as [[rs g2] w2].
    destruct (gnexts k g2 w2) as [[rs' g3] w3]. reflexivity.
Qed.

(** The world after the three [print]s of [my_generator]. *)
Definition my_generator_printed (w : world) : world :=
  printed [[py "This is printed third"]]
    (printed [[py "This is printed second"]]
       (printed [[py "This is printed first"]] w)).

Lemma my_generator_three (w : world) :
  gnexts 3 my_generator w =
  ([Normal 1; Normal 2; Normal 3], gdone, my_generator_printed w).
Proof. reflexivity. Qed.

(** C5: the first three [next()] on [my_generator()] return 1, 2 and 3,
    every further [next()] raises [StopIteration], and a [for] loop over
    it runs its body on exactly 1, 2, 3 in this order (between the
    generator's own prints). *)
Theorem my_generator_yields (k : nat) (w : world) :
  gnexts (3 + k) my_generator w =
    ([Normal 1; Normal 2; Normal 3] ++ repeat (Raised StopIteration) k,
     gdone, my_generator_printed w)
  /\ list_of_gen my_generator w = (Normal [1; 2; 3], my_generator_printed w)
  /\ forall body : Z -> M unit,
       for_gen my_generator body w =
       (print [py "This is printed first"] ;; body 1 ;;
        print [py "This is printed second"] ;; body 2 ;;
        print [py "This is printed third"] ;; body 3) w.
Proof.
  split; [|split].
  - rewrite gnexts_app, my_generator_three. cbv beta iota zeta.
    rewrite gnexts_gdone. reflexivity.
  - reflexivity.
  - intros body. unfold my_generator. cbv zeta.
    rewrite for_gen_bind. apply bind_ext. intros _ w1.
    rewrite for_gen_gyield. apply bind_ext. intros _ w2.
    rewrite for_gen_bind. apply bind_ext. intros _ w3.
    rewrite for_gen_gyield. apply bind_ext. intros _ w4.
    rewrite for_gen_bind. apply bind_ext. intros _ w5.
    rewrite for_gen_gyield. unfold bind.
    destruct (body _ w5) as [[[]|e] w6]; reflexivity.
Qed.

Lemma list_of_gen_bind {A B} (m : M B) (k : B -> generator A) w :
  list_of_gen (bind m k) w = bind m (fun x => list_of_gen (k x)) w.
Proof. unfold list_of_gen, bind. destruct (m w) as [[b|e] w']; reflexivity. Qed.

Lemma list_of_gen_gyield {A} (v : A) (rest : generator A) w :
  list_of_gen (gyield v rest) w = bind (list_of_gen rest) (fun l => ret (v :: l)) w.
Proof.
  unfold list_of_gen, gyield. rewrite bind_ret. cbn [list_of_gen_step].
  unfold bind. destruct (rest w) as [[s|e] w']; [|reflexivity].
  destruct (list_of_gen_step s w') as [[l|e] w'']; reflexivity.
Qed.

(** ** Sequences *)

Lemma range3_down (n : nat) :
  range3 (Z.of_nat (S n) - 1) (-1) (-1) = Z.of_nat n :: range3 (Z.of_nat n - 1) (-1) (-1).
Proof.
  unfold range3. cbn [Z.ltb Z.compare].
  change (- -1) with 1. rewrite !Z.div_1_r.
  replace (Z.of_nat (S n) - 1 - -1 - -1 - 1) with (Z.of_nat (S n)) by lia.
  replace (Z.of_nat n - 1 - -1 - -1 - 1) with (Z.of_nat n) by lia.
  rewrite !Nat2Z.id. cbn [seq map]. f_equal; [lia|].
  rewrite <- seq_shift, map_map. apply map_ext. intros k. lia.
Qed.

Lemma index_nat {A} (l : list A) (n : nat) : index l (Z.of_nat n) = l !! n.
Proof.
  unfold index. assert (H : (Z.of_nat n <? 0) = false) by (apply Z.ltb_ge; lia).
  rewrite H, H. now rewrite Nat2Z.id.
Qed.

(** ** example33.py: [reverse_string] *)

(** Walking the indices [n-1, ..., 0] of a list yields the first [n]
    elements backwards. *)
Lemma reverse_walk (l : list ascii) (n : nat) (w : world) :
  (n <= length l)%nat ->
  list_of_gen
    (gfor (range3 (Z.of_nat n - 1) (-1) (-1))
       (fun i k => bind (getitem l i) (fun c => gyield c k)) gdone) w
  = (Normal (rev (take n l)), w).
Proof.
  induction n as [|n IH]; intros Hn.
  - reflexivity.
  - rewrite range3_down. cbn [gfor].
    destruct (lookup_lt_is_Some_2 l n ltac:(lia)) as [c Hc].
    rewrite list_of_gen_bind. unfold getitem at 1. rewrite index_nat, Hc.
    cbn [or_raise]. rewrite bind_ret, list_of_gen_gyield.
    rewrite (bind_normal _ _ _ _ _ (IH ltac:(lia))). unfold ret.
    rewrite (take_S_r _ _ _ Hc), rev_app_distr. reflexivity.
Qed.

Lemma reverse_string_list (s : string) (w : world) :
  list_of_gen (reverse_string s) w = (Normal (rev (chars s)), w).
Proof.
  unfold reverse_string, len. cbv zeta.
  rewrite reverse_walk by lia. now rewrite firstn_all.
Qed.

(** C9: the characters [reverse_string(s)] yields are those of [s] in
    reverse order, and reversing the joined yields once more gives [s]
    back. *)
Theorem reverse_string_involution (s : string) (w : world) :
  list_of_gen (reverse_string s) w = (Normal (rev (chars s)), w)
  /\ join_yields (reverse_string s) w = (Normal (str (rev (chars s))), w)
  /\ bind (join_yields (reverse_string s))
          (fun r => join_yields (reverse_string r)) w = (Normal s, w).
Proof.
  assert (Hj : forall t w', join_yields (reverse_string t) w' = (Normal (str (rev (chars t))), w')).
  { intros t w'. unfold join_yields, bind. now rewrite reverse_string_list. }
  split; [apply reverse_string_list|]. split; [apply Hj|].
  unfold bind. rewrite Hj, Hj. unfold chars, str.
  now rewrite list_ascii_of_string_of_list_ascii, rev_involutive,
    string_of_list_ascii_of_string.
Qed.

(** ** example17.py: [Pow_of_Two] *)

Lemma pow2_nonneg (k : Z) : 0 <= k -> pow2 k = NInt (2 ^ k).
Proof. intros H. unfold pow2. now rewrite (proj2 (Z.leb_le 0 k) H). Qed.

(** From [n = k], the next [d = max + 1 - k] calls return the powers
    [2^k, ..., 2^max] and leave [n = max + 1]. *)
Lemma Pow_of_Two_run (d : nat) (max k : Z) :
  0 <= k -> k + Z.of_nat d = max + 1 ->
  nexts Pow_of_Two.__next__ d {| Pow_of_Two.max := max; Pow_of_Two.n := Some k |}
  = (map (fun j => Normal (NInt (2 ^ (k + Z.of_nat j)))) (seq 0 d),
     {| Pow_of_Two.max := max; Pow_of_Two.n := Some (max + 1) |}).
Proof.
  revert k. induction d as [|d IH]; intros k Hk Hd.
  - cbn. repeat f_equal. lia.
  - cbn [nexts]. unfold Pow_of_Two.__next__ at 1. cbn [Pow_of_Two.n Pow_of_Two.max].
    rewrite (proj2 (Z.leb_le k max)) by lia.
    rewrite pow2_nonneg by lia. rewrite IH by lia.
    cbn [seq map]. rewrite Z.add_0_r. f_equal. f_equal.
    rewrite <- seq_shift, map_map. apply map_ext. intros j. do 3 f_equal. lia.
Qed.

Lemma Pow_of_Two_stop (max : Z) :
  Pow_of_Two.__next__ {| Pow_of_Two.max := max; Pow_of_Two.n := Some (max + 1) |}
  = (Raised StopIteration, {| Pow_of_Two.max := max; Pow_of_Two.n := Some (max + 1) |}).
Proof.
  unfold Pow_of_Two.__next__. cbn [Pow_of_Two.n Pow_of_Two.max].
  now rewrite (proj2 (Z.leb_gt (max + 1) max)) by lia.
Qed.

Lemma nexts_app {S A} (m : method S A) (j k : nat) (self : S) :
  nexts m (j + k) self =
  let '(rs, self') := nexts m j self in
  let '(rs', self'') := nexts m k self' in
  (rs ++ rs', self'').
Proof.
  revert self. induction j as [|j IH]; intros self.
  - cbn. now destruct (nexts m k self).
  - cbn [Nat.add nexts]. destruct (m self) as [r s1]. rewrite IH.
    destruct (nexts m j s1) as [rs s2]. now destruct (nexts m k s2).
Qed.

(** C8: for [max >= 0], after [iter()] the first [max + 1] calls of
    [next()] on [Pow_of_Two(max)] return [2^0, 2^1, ..., 2^max] in this
    order and call number [max + 2] raises [StopIteration]. *)
Theorem Pow_of_Two_iterates (max : Z) :
  0 <= max ->
  nexts Pow_of_Two.__next__ (Z.to_nat max + 1 + 1)
    (Pow_of_Two.__iter__ (Pow_of_Two.__init__ max))
  = (map (fun j => Normal (NInt (2 ^ Z.of_nat j))) (seq 0 (Z.to_nat max + 1))
       ++ [Raised StopIteration],
     {| Pow_of_Two.max := max; Pow_of_Two.n := Some (max + 1) |}).
Proof.
  intros Hmax. rewrite nexts_app.
  unfold Pow_of_Two.__iter__, Pow_of_Two.__init__. cbn [Pow_of_Two.max].
  rewrite Pow_of_Two_run by lia. cbn [nexts]. rewrite Pow_of_Two_stop.
  reflexivity.
Qed.

Lemma Pow_of_Two_iterates_witness :
  nexts Pow_of_Two.__next__ (Z.to_nat 4 + 1 + 1)
    (Pow_of_Two.__iter__ (Pow_of_Two.__init__ 4))
  = (map (fun j => Normal (NInt (2 ^ Z.of_nat j))) (seq 0 (Z.to_nat 4 + 1))
       ++ [Raised StopIteration],
     {| Pow_of_Two.max := 4; Pow_of_Two.n := Some (4 + 1) |}).
Proof. apply (Pow_of_Two_iterates 4). lia. Defined.

(** ** Output *)

Lemma printed_printed (a b : list (list pyval)) (w : world) :
  printed b (printed a w) = printed (a ++ b) w.
Proof. unfold printed, set_stdout. cbn. now rewrite app_assoc. Qed.

Lemma snoc_lines {A} (l : list A) (a b : A) (r : list A) :
  l ++ a :: b :: r = (l ++ [a]) ++ b :: r.
Proof. now rewrite <- app_assoc. Qed.

Lemma stdout_printed (a : list (list pyval)) (w : world) :
  stdout (printed a w) = stdout w ++ a.
Proof. reflexivity. Qed.

(** ** error_and_exception25.py and example26.py *)

Lemma error_and_exception25_run (w : world) :
  error_and_exception25 w =
  (Normal tt,
   printed [[py "Exception Caught!"];
            [py "Division by Zero is not possible."];
            [py "Type Exception Caught!"];
            [py "Im in Try block"];
            [py "Im in Except block"];
            [py "Im in finally block"]] w).
Proof.
  transitivity
    (Normal tt,
     printed [[py "Im in finally block"]]
       (printed [[py "Im in Except block"]]
          (printed [[py "Im in Try block"]]
             (printed [[py "Type Exception Caught!"]]
                (printed [[py "Division by Zero is not possible."]]
                   (printed [[py "Exception Caught!"]] w)))))).
  - reflexivity.
  - now rewrite !printed_printed.
Qed.

(** Whatever the try block of example26.py raises, one of the four
    handlers takes it. *)
Lemma example26_handled (e : exn) :
  exists h, find_handler example26_handlers e = Some h
            /\ forall w, fst (h w) = Normal tt.
Proof.
  unfold example26_handlers. cbn [find_handler handles].
  repeat (destruct (subclass e _); [eexists; split; [reflexivity|intros; reflexivity]|]).
  eexists; split; [reflexivity|intros; reflexivity].
Qed.

Lemma example26_caught (w : world) (e : exn) (w' : world) :
  example26_try w = (Raised e, w') ->
  exists h, find_handler example26_handlers e = Some h
            /\ fst (h w') = Normal tt
            /\ example26 w =
               (Normal tt, printed [[py "Anyways i will exceute"]] (snd (h w'))).
Proof.
  intros Htry. destruct (example26_handled e) as (h & Hh & Hn).
  exists h. split; [exact Hh|]. split; [apply Hn|].
  unfold example26, try_finally, try_except. rewrite Htry, Hh.
  specialize (Hn w'). destruct (h w') as [[[]|e'] w'']; [reflexivity|discriminate].
Qed.

Lemma example26_passed (w w' : world) :
  example26_try w = (Normal tt, w') ->
  example26 w = (Normal tt, printed [[py "Anyways i will exceute"]] w').
Proof. intros Htry. unfold example26, try_finally, try_except. now rewrite Htry. Qed.

Lemma example26_safe (w : world) : fst (example26 w) = Normal tt.
Proof.
  destruct (example26_try w) as [[[]|e] w'] eqn:Htry.
  - now rewrite (example26_passed _ _ Htry).
  - destruct (example26_caught _ _ _ Htry) as (h & _ & _ & ->). reflexivity.
Qed.

(** C4: in the exception-handling scripts every exception raised in a
    try block is caught by a handler of that block and the script ends
    normally.  [int('hi')] raises [ValueError] and the bare [except]
    prints its line while 'Value of b:' is never printed; [5/0] raises
    [ZeroDivisionError], caught by its handler; the raised [TypeError] is
    caught by the [TypeError] handler; the [finally] line comes after the
    handler's line.  In example26.py, for every input, an exception of
    the try block finds a handler among the four, and the [finally] line
    is printed last, after the handler. *)
Theorem exception_examples_handled (w : world) :
  int_of_str "hi" w = (Raised ValueError, w)
  /\ truediv (NInt 5) (NInt 0) w = (Raised ZeroDivisionError, w)
  /\ error_and_exception25 w =
     (Normal tt,
      printed [[py "Exception Caught!"];
               [py "Division by Zero is not possible."];
               [py "Type Exception Caught!"];
               [py "Im in Try block"];
               [py "Im in Except block"];
               [py "Im in finally block"]] w)
  /\ fst (example26 w) = Normal tt
  /\ (forall e w', example26_try w = (Raised e, w') ->
        exists h, find_handler example26_handlers e = Some h
                  /\ fst (h w') = Normal tt
                  /\ example26 w =
                     (Normal tt, printed [[py "Anyways i will exceute"]] (snd (h w'))))
  /\ (forall w', example26_try w = (Normal tt, w') ->
        example26 w = (Normal tt, printed [[py "Anyways i will exceute"]] w')).
Proof.
  split; [reflexivity|]. split; [reflexivity|].
  split; [apply error_and_exception25_run|].
  split; [apply example26_safe|].
  split; [apply example26_caught|apply example26_passed].
Qed.

Example example26_quotient (w : world) :
  stdout (snd (example26 (set_stdin ["20"; "2"] w))) =
  stdout w ++ [[py "Please enter the first number:"];
               [py "Please enter the second number:"];
               [VFormat [(VInt 20, ""); (VStr " / ", ""); (VInt 2, ""); (VStr " = ", "");
                         (VFloat (FVal (S754_finite false 5629499534213120 (-49))), "")]];
               [py "Anyways i will exceute"]].
Proof. rewrite !snoc_lines. reflexivity. Qed.

Example example26_zero_divisor (w : world) :
  stdout (snd (example26 (set_stdin ["7"; "0"] w))) =
  stdout w ++ [[py "Please enter the first number:"];
               [py "Please enter the second number:"];
               [py "Division by zero is not possible..."];
               [py "Anyways i will exceute"]].
Proof. rewrite !snoc_lines. reflexivity. Qed.

Example example26_not_a_number (w : world) :
  stdout (snd (example26 (set_stdin ["seven"; "1"] w))) =
  stdout w ++ [[py "Please enter the first number:"];
               [py "The data types are not proper..."];
               [py "Anyways i will exceute"]].
Proof. rewrite !snoc_lines. reflexivity. Qed.

Example example26_negative (w : world) :
  stdout (snd (example26 (set_stdin [" -7 "; "2"] w))) =
  stdout w ++ [[py "Please enter the first number:"];
               [py "Please enter the second number:"];
               [py "The data is not in range..."];
               [py "Anyways i will exceute"]].
Proof. rewrite !snoc_lines. reflexivity. Qed.

Example example26_end_of_input (w : world) :
  stdout (snd (example26 (set_stdin [] w))) =
  stdout w ++ [[py "Please enter the first number:"];
               [py "default exception handling if none of the exception matches..."];
               [py "Anyways i will exceute"]].
Proof. rewrite !snoc_lines. reflexivity. Qed.

Example example26_quotient_too_large (w : world) :
  stdout (snd (example26 (set_stdin ["1" +:+ string_of_list_ascii (repeat "0"%char 400); "3"] w))) =
  stdout w ++ [[py "Please enter the first number:"];
               [py "Please enter the second number:"];
               [py "default exception handling if none of the exception matches..."];
               [py "Anyways i will exceute"]].
Proof. rewrite !snoc_lines. vm_compute. reflexivity. Qed.
(** ** Floats: a nonzero integer does not round to zero *)










(** ** decorators34.py: [go_divide] *)











(** ** Footprints *)

Lemma set_sys_sys (w : world) : set_sys (sys w) w = w.
Proof. now destruct w. Qed.

Lemma quiet_frame {A} (m : M A) (w : world) : quiet m -> sys (snd (m w)) = sys w.
Proof.
  intros H. specialize (H w (sys w)). rewrite set_sys_sys in H.
  destruct (m w) as [r w']. cbn in *. injection H as H. now rewrite H at 1.
Qed.

Lemma quiet_ret {A} (a : A) : quiet (ret a).
Proof. intros w s. reflexivity. Qed.

Lemma quiet_raise {A} (e : exn) : quiet (@raise A e).
Proof. intros w s. reflexivity. Qed.

Lemma quiet_bind {A B} (m : M A) (k : A -> M B) :
  quiet m -> (forall a, quiet (k a)) -> quiet (bind m k).
Proof.
  intros Hm Hk w s. unfold bind. rewrite (Hm w s).
  destruct (m w) as [[a|e] w']; cbn [fst snd]; [apply Hk|reflexivity].
Qed.

Lemma quiet_print (args : list pyval) : quiet (print args).
Proof. intros w s. reflexivity. Qed.

Lemma quiet_input (prompt : string) : quiet (input prompt).
Proof. intros w s. unfold input. cbn. now destruct (stdin w). Qed.

Lemma quiet_draw : quiet draw.
Proof. intros w s. reflexivity. Qed.

Lemma quiet_import (name : string) : quiet (import_ name).
Proof. intros w s. reflexivity. Qed.

Lemma quiet_id (z : Z) : quiet (id_ z).
Proof. intros w s. reflexivity. Qed.

Lemma quiet_or_raise {A} (e : exn) (o : option A) : quiet (or_raise e o).
Proof. destruct o; [apply quiet_ret|apply quiet_raise]. Qed.

Lemma quiet_lift {A} (o : outcome A) : quiet (lift o).
Proof. intros w s. reflexivity. Qed.

Lemma quiet_call {S A} (m : method S A) (self : S) : quiet (call m self).
Proof. intros w s. unfold call. now destruct (m self) as [[a|e] self']. Qed.

Lemma quiet_try_except {A} (body : M A) (hs : list (option exn * M A)) :
  quiet body -> Forall (fun h => quiet (snd h)) hs -> quiet (try_except body hs).
Proof.
  intros Hb Hh w s. unfold try_except. rewrite (Hb w s).
  destruct (body w) as [[a|e] w']; cbn [fst snd]; [reflexivity|].
  induction Hh as [|[h m] hs Hm Hhs IH]; cbn [find_handler]; [reflexivity|].
  destruct (handles h e); [apply Hm|apply IH].
Qed.

Lemma quiet_try_finally {A} (body : M A) (final : M unit) :
  quiet body -> quiet final -> quiet (try_finally body final).
Proof.
  intros Hb Hf w s. unfold try_finally. rewrite (Hb w s).
  destruct (body w) as [r w']. cbn [fst snd]. rewrite (Hf w' s).
  now destruct (final w') as [[[]|e] w''].
Qed.

Lemma quiet_for_each {A} (l : list A) (body : A -> M unit) :
  (forall x, quiet (body x)) -> quiet (for_each l body).
Proof.
  intros Hb. induction l as [|x l IH]; cbn [for_each]; [apply quiet_ret|].
  apply quiet_bind; [apply Hb|intros _; apply IH].
Qed.

Lemma quiet_for_each_ctl {A} (l : list A) (body : A -> M loop_signal) :
  (forall x, quiet (body x)) -> quiet (for_each_ctl l body).
Proof.
  intros Hb. induction l as [|x l IH]; cbn [for_each_ctl]; [apply quiet_ret|].
  apply quiet_bind; [apply Hb|intros []; [apply IH|apply quiet_ret]].
Qed.

Lemma quiet_while {S} (fuel : nat) (cond : S -> bool) (body : S -> M S) (s : S) :
  (forall x, quiet (body x)) -> quiet (while_ fuel cond body s).
Proof.
  intros Hb. revert s. induction fuel as [|fuel IH]; intros s; cbn [while_];
    [apply quiet_ret|].
  destruct (cond s); [|apply quiet_ret].
  apply quiet_bind; [apply Hb|apply IH].
Qed.

Lemma quiet_float_of_int (z : Z) : quiet (float_of_int z).
Proof. unfold float_of_int. destruct (PyFloat.is_inf _); [apply quiet_raise|apply quiet_ret]. Qed.

Lemma quiet_to_float (n : pynum) : quiet (to_float n).
Proof. destruct n; cbn [to_float]; [apply quiet_float_of_int..|apply quiet_ret]. Qed.

Create HintDb quiet.
#[local] Hint Resolve quiet_ret quiet_raise quiet_print quiet_input quiet_draw
  quiet_import quiet_id quiet_or_raise quiet_lift quiet_call quiet_float_of_int
  quiet_to_float : quiet.

(** One step of a structural proof of quietness. *)
Ltac quiet_step :=
  lazymatch goal with
  | |- quiet (bind _ _) => apply quiet_bind; [|intros]
  | |- quiet (try_except _ _) => apply quiet_try_except; [|repeat constructor; cbn [snd]]
  | |- quiet (try_finally _ _) => apply quiet_try_finally
  | |- quiet (for_each _ _) => apply quiet_for_each; intros
  | |- quiet (for_each_ctl _ _) => apply quiet_for_each_ctl; intros
  | |- quiet (if ?b then _ else _) => destruct b
  | |- quiet (match ?x with _ => _ end) => destruct x
  | |- quiet _ => solve [auto with quiet]
  end.

Ltac quiet_tac := cbv zeta; repeat (quiet_step; cbv zeta).

Lemma quiet_truediv (a b : pynum) : quiet (truediv a b).
Proof. unfold truediv. quiet_tac. Qed.

Lemma quiet_fill (ps : list fpiece) (args : list pyval) (kwargs : list (string * pyval))
    (nb : numbering) : quiet (fill ps args kwargs nb).
Proof.
  revert nb. induction ps as [|p ps IH]; intros nb; cbn [fill]; [apply quiet_ret|].
  destruct p as [text|name spec|]; [| |apply quiet_raise].
  - apply quiet_bind; [apply IH|intros; apply quiet_ret].
  - apply quiet_bind; [quiet_tac|intros found].
    apply quiet_bind; [quiet_tac|intros _].
    apply quiet_bind; [apply IH|intros; apply quiet_ret].
Qed.

Lemma quiet_format_kw (t : string) (args : list pyval) (kwargs : list (string * pyval)) :
  quiet (format_kw t args kwargs).
Proof. unfold format_kw. apply quiet_bind; [apply quiet_fill|intros; apply quiet_ret]. Qed.

Lemma quiet_format (t : string) (args : list pyval) : quiet (format t args).
Proof. apply quiet_format_kw. Qed.

Lemma quiet_getitem {A} (l : list A) (i : Z) : quiet (getitem l i).
Proof. apply quiet_or_raise. Qed.

Lemma quiet_shuffle_from {A} (i : nat) (l : list A) : quiet (shuffle_from i l).
Proof.
  revert l. induction i as [|i IH]; intros l; cbn [shuffle_from]; [apply quiet_ret|].
  apply quiet_bind; [apply quiet_draw|intros; apply IH].
Qed.

Lemma quiet_shuffle {A} (l : list A) : quiet (shuffle l).
Proof. apply quiet_shuffle_from. Qed.

Lemma quiet_iter_set {A} (s : pyset A) : quiet (iter_set s).
Proof. apply quiet_shuffle. Qed.

#[local] Hint Resolve quiet_truediv quiet_format quiet_format_kw quiet_getitem
  quiet_shuffle quiet_iter_set : quiet.

Lemma quiet_set_pop {A} (s : pyset A) : quiet (set_pop s).
Proof. unfold set_pop. quiet_tac. Qed.

Lemma quiet_set_remove {A} `{EqDecision A} (s : pyset A) (x : A) : quiet (set_remove s x).
Proof. unfold set_remove. quiet_tac. Qed.

Lemma quiet_max_of (l : list Z) : quiet (max_of l).
Proof. unfold max_of. quiet_tac. Qed.

Lemma quiet_min_of (l : list Z) : quiet (min_of l).
Proof. unfold min_of. quiet_tac. Qed.

Lemma quiet_int_of_float (f : spec_float) : quiet (int_of_float f).
Proof. unfold int_of_float. quiet_tac. Qed.

Lemma quiet_complex (re : Z) (im : spec_float) : quiet (complex_ re im).
Proof. unfold complex_. quiet_tac. Qed.

Lemma quiet_Decimal (s : string) : quiet (decimal.Decimal s).
Proof. apply quiet_or_raise. Qed.

Lemma quiet_Fraction2 (n d : Z) : quiet (fractions.Fraction2 n d).
Proof. unfold fractions.Fraction2. quiet_tac. Qed.

#[local] Hint Resolve quiet_Fraction2 : quiet.

Lemma quiet_of_float (f : spec_float) : quiet (fractions.of_float f).
Proof. unfold fractions.of_float. quiet_tac. Qed.

Lemma quiet_math_cos (x : pynum) : quiet (math.cos x).
Proof. unfold math.cos. quiet_tac. Qed.

Lemma quiet_math_log (x : pynum) : quiet (math.log x).
Proof. unfold math.log. quiet_tac. Qed.

Lemma quiet_math_log10 (x : pynum) : quiet (math.log10 x).
Proof. unfold math.log10. quiet_tac. Qed.

Lemma quiet_math_exp (x : pynum) : quiet (math.exp x).
Proof. unfold math.exp. quiet_tac. Qed.

Lemma quiet_math_sinh (x : pynum) : quiet (math.sinh x).
Proof. unfold math.sinh. quiet_tac. Qed.

Lemma quiet_math_factorial (n : Z) : quiet (math.factorial n).
Proof. unfold math.factorial. quiet_tac. Qed.

Lemma quiet_randrange (a b : Z) : quiet (random.randrange a b).
Proof. unfold random.randrange. quiet_tac. Qed.

Lemma quiet_choice {A} (l : list A) : quiet (random.choice l).
Proof. unfold random.choice. quiet_tac. Qed.

Lemma quiet_random : quiet random.random.
Proof. unfold random.random. quiet_tac. Qed.

#[local] Hint Resolve quiet_set_pop quiet_set_remove quiet_max_of quiet_min_of
  quiet_int_of_float quiet_complex quiet_Decimal quiet_of_float
  quiet_math_cos quiet_math_log quiet_math_log10 quiet_math_exp quiet_math_sinh
  quiet_math_factorial quiet_randrange quiet_choice quiet_random : quiet.

Lemma example26_quiet : quiet example26.
Proof. unfold example26, example26_try, example26_handlers, int_of_str. quiet_tac. Qed.

Lemma example13_quiet : quiet example13.
Proof. unfold example13, random.shuffle. quiet_tac. Qed.

Lemma example7_quiet : quiet example7.
Proof. unfold example7. quiet_tac. Qed.

(** ** Running a script step by step *)

Lemma fst_bind_normal {A B} (m : M A) (k : A -> M B) w a w' :
  m w = (Normal a, w') -> fst (bind m k w) = fst (k a w').
Proof. intros H. now rewrite (bind_normal _ _ _ _ _ H). Qed.

(** Runs the first statement of the script in the goal when it ends
    normally by computation, and forgets the world it leaves. *)
Ltac run_closed :=
  lazymatch goal with
  | |- fst (bind ?m ?k ?w) = _ =>
      let r := eval hnf in (m w) in
      lazymatch r with
      | (Normal ?a, ?w') =>
          rewrite (fst_bind_normal m k w a w' eq_refl); cbv beta zeta;
          generalize w';
          first [clear w; intros w
                | let x := fresh "x" in generalize a; clear w; intros x w]
      end
  end.

(** The same for a statement for which a lemma [H] gives the result. *)
Ltac run_with H :=
  lazymatch goal with
  | |- fst (bind ?m ?k ?w) = _ =>
      let E := fresh "E" in
      destruct (H w) as (? & ? & E);
      lazymatch type of E with
      | _ = (Normal ?a, ?w') =>
          rewrite (fst_bind_normal m k w a w' E); cbv beta zeta;
          clear E; clear w; rename w' into w
      end
  end.

Lemma shuffle_from_total {A} (i : nat) (l : list A) (w : world) :
  exists l' w', shuffle_from i l w = (Normal l', w').
Proof.
  revert l w. induction i as [|i IH]; intros l w; cbn [shuffle_from].
  - now eexists _, _.
  - unfold bind, draw. apply IH.
Qed.

Lemma shuffle_total {A} (l : list A) (w : world) :
  exists l' w', shuffle l w = (Normal l', w').
Proof. apply shuffle_from_total. Qed.

Lemma randrange_total (a b : Z) (w : world) :
  a < b -> exists r w', random.randrange a b w = (Normal r, w').
Proof.
  intros H. unfold random.randrange.
  rewrite (proj2 (Z.leb_gt b a)) by lia. now eexists _, _.
Qed.

Lemma index_in_range {A} (l : list A) (i : Z) :
  0 <= i < len l -> is_Some (index l i).
Proof.
  intros H. unfold index, len in *.
  rewrite (proj2 (Z.ltb_ge i 0)) by lia. rewrite (proj2 (Z.ltb_ge i 0)) by lia.
  apply lookup_lt_is_Some. lia.
Qed.

Lemma choice_total {A} (l : list A) (w : world) :
  l <> [] -> exists x w', random.choice l w = (Normal x, w').
Proof.
  intros H. unfold random.choice. destruct l as [|y l]; [congruence|].
  unfold bind, draw, getitem.
  destruct (index_in_range (y :: l) (entropy w (drawn w) mod len (y :: l))) as [x Hx].
  { apply Z.mod_pos_bound. unfold len. cbn [length]. lia. }
  rewrite Hx. now eexists _, _.
Qed.

Lemma random_total (w : world) : exists r w', random.random w = (Normal r, w').
Proof. now eexists _, _. Qed.

Lemma example13_safe (w : world) : fst (example13 w) = Normal tt.
Proof.
  unfold example13. cbv zeta.
  repeat run_closed.
  run_with (fun w => choice_total ["sun"; "mon"; "tue"; "wed"; "thurs"; "fri"; "sat"] w
                        ltac:(discriminate)).
  repeat run_closed.
  reflexivity.
Qed.

Lemma set_pop_total {A} (s : pyset A) (w : world) :
  elems s <> [] ->
  exists r w', set_pop s w = (Normal r, w')
               /\ S (length (elems (snd r))) = length (elems s).
Proof.
  intros H. unfold set_pop. destruct (elems s) as [|y l] eqn:El; [congruence|].
  unfold bind, draw.
  set (n := Z.to_nat (entropy w (drawn w) mod len (y :: l))).
  assert (Hn : (n < length (y :: l))%nat).
  { subst n. pose proof (Z.mod_pos_bound (entropy w (drawn w)) (len (y :: l))) as Hb.
    unfold len in *. cbn [length] in *. lia. }
  destruct (lookup_lt_is_Some_2 _ _ Hn) as [x Hx]. rewrite Hx.
  eexists _, _. split; [reflexivity|]. cbn [snd elems].
  rewrite length_delete by eauto. lia.
Qed.

Lemma for_each_total {A} (l : list A) (body : A -> M unit) (w : world) :
  (forall x w0, exists u w1, body x w0 = (Normal u, w1)) ->
  exists u w', for_each l body w = (Normal u, w').
Proof.
  intros Hb. revert w. induction l as [|x l IH]; intros w; cbn [for_each].
  - now eexists _, _.
  - destruct (Hb x w) as (u & w1 & E). rewrite (bind_normal _ _ _ _ _ E). apply IH.
Qed.

Lemma example7_safe (w : world) : fst (example7 w) = Normal tt.
Proof.
  unfold example7. cbv zeta.
  repeat run_closed.
  lazymatch goal with
  | |- fst (bind (set_pop ?s) ?k ?w) = _ =>
      destruct (set_pop_total s w ltac:(vm_compute; discriminate)) as (r & w' & E & Hlen);
      rewrite (fst_bind_normal _ k w r w' E); cbv beta zeta; clear E;
      clear w; rename w' into w
  end.
  run_closed.
  lazymatch goal with
  | |- fst (bind (set_pop ?s) ?k ?w) = _ =>
      destruct (set_pop_total s w) as (r' & w' & E & _);
      [intros Hnil; rewrite Hnil in Hlen; vm_compute in Hlen; discriminate|];
      rewrite (fst_bind_normal _ k w r' w' E); cbv beta zeta; clear E;
      clear w; rename w' into w
  end.
  repeat run_closed.
  lazymatch goal with
  | |- fst (bind (for_each ?l ?body) _ _) = _ =>
      run_with (fun w0 => for_each_total l body w0 ltac:(intros; now eexists _, _))
  end.
  repeat run_closed.
  reflexivity.
Qed.

(** ** Every script but one is quiet *)

Lemma example5_run (w : world) :
  example5.main w =
  (Raised AssertionError,
   printed [[py true]; [py false]; [py false]; [py false]; [py false]; [py true];
            [VNone]; [py false]; [py true]; [py false];
            [py (FLibm "cos" (NFloat math.pi))]]
     (set_imported (imported w ++ ["math"]) w)).
Proof.
  unfold printed, set_stdout, set_imported. cbn [stdout stdin imported entropy drawn address sys].
  rewrite (snoc_lines (stdout w)), !snoc_lines. reflexivity.
Qed.

Lemma example5_quiet : quiet example5.main.
Proof. intros w s. rewrite !example5_run. reflexivity. Qed.

Lemma scripts_quiet :
  Forall (fun s => file s <> "directory_and_filemanage9.py" -> quiet (run s)) scripts.
Proof.
  unfold scripts.
  repeat (apply Forall_cons; split;
          [lazymatch goal with
           | |- _ -> quiet (run directory_and_filemanage9_py) =>
               intros Hname; exfalso; apply Hname; reflexivity
           | |- _ -> quiet (run example26_py) => intros _; exact example26_quiet
           | |- _ -> quiet (run example13_py) => intros _; exact example13_quiet
           | |- _ -> quiet (run example7_py) => intros _; exact example7_quiet
           | |- _ -> quiet (run example5_py) => intros _; exact example5_quiet
           | |- _ => intros _ w s; reflexivity
           end |]).
  apply Forall_nil_2.
Qed.

Lemma scripts_complete :
  Forall (fun s => file s <> "example5.py" ->
                   file s <> "directory_and_filemanage9.py" -> runs_to_completion s)
    scripts.
Proof.
  unfold scripts.
  repeat (apply Forall_cons; split;
          [lazymatch goal with
           | |- _ -> _ -> runs_to_completion directory_and_filemanage9_py =>
               intros _ Hname; exfalso; apply Hname; reflexivity
           | |- _ -> _ -> runs_to_completion example5_py =>
               intros Hname _; exfalso; apply Hname; reflexivity
           | |- _ -> _ -> runs_to_completion example26_py => intros _ _; exact example26_safe
           | |- _ -> _ -> runs_to_completion example13_py => intros _ _; exact example13_safe
           | |- _ -> _ -> runs_to_completion example7_py => intros _ _; exact example7_safe
           | |- _ => intros _ _ w; reflexivity
           end |]).
  apply Forall_nil_2.
Qed.

(** ** directory_and_filemanage9.py *)

Lemma bind_raises {A B} (m : M A) (k : A -> M B) (w : world) :
  (forall a w', m w = (Normal a, w') -> exists e, fst (k a w') = Raised e) ->
  exists e, fst (bind m k w) = Raised e.
Proof.
  intros H. unfold bind. destruct (m w) as [[a|e] w'].
  - now apply H.
  - now exists e.
Qed.

(** Once [os.remove(name)] has succeeded, [os.rmdir(name)] fails: the
    name is gone. *)
Lemma rmdir_after_remove (name : string) (w w' : world) :
  os.remove name w = (Normal tt, w') ->
  exists e, fst (os.rmdir name w') = Raised e.
Proof.
  unfold os.remove, os.rmdir, os.call_os.
  set (p := os.resolve (cwd (sys w)) name).
  destruct (denied _ (SysRemove p)); [discriminate|].
  destruct (os.node_at _ p) as [[m|m]|] eqn:Hnode; try discriminate.
  intros [= <-]. cbn [sys set_sys cwd set_contents set_fs set_calls fs calls denied].
  fold p. destruct (denied (sys w) (SysRmdir p)); [now eexists|].
  destruct p as [|c p]; [discriminate|].
  cbn [os.node_at]. rewrite lookup_delete_eq. now eexists.
Qed.

Lemma directory_and_filemanage9_raises (w : world) :
  exists e, fst (directory_and_filemanage9 w) = Raised e.
Proof.
  unfold directory_and_filemanage9.
  do 14 (apply bind_raises; intros ? ? _).
  apply bind_raises. intros [] w1 Hremove.
  apply (rmdir_after_remove _ _ _ Hremove).
Qed.


Lemma extends_bind {A B} (m : M A) (k : A -> M B) :
  extends m -> (forall a, extends (k a)) -> extends (bind m k).
Proof.
  intros Hm Hk w. unfold bind. destruct (Hm w) as [l Hl].
  destruct (m w) as [[a|e] w']; cbn [snd] in *.
  - destruct (Hk a w') as [l' Hl']. exists (l ++ l'). now rewrite Hl', Hl, app_assoc.
  - now exists l.
Qed.

Lemma extends_print (args : list pyval) : extends (print args).
Proof. intros w. exists []. cbn. now rewrite app_nil_r. Qed.

Lemma extends_import (name : string) : extends (import_ name).
Proof. intros w. exists []. cbn. now rewrite app_nil_r. Qed.

Lemma extends_call_os {A} (c : syscall) (body : os_state -> outcome A * os_state) :
  (forall s, calls (snd (body s)) = calls s) -> extends (os.call_os c body).
Proof.
  intros Hb w. exists [c]. unfold os.call_os.
  destruct (denied _ c); [reflexivity|].
  specialize (Hb (set_calls (calls (sys w) ++ [c]) (sys w))).
  destruct (body _) as [r s']. cbn [snd sys set_sys] in *. now rewrite Hb.
Qed.

Lemma extends_getcwd : extends os.getcwd.
Proof. apply extends_call_os. intros s. unfold os.getcwd_body. now repeat case_match. Qed.

Lemma extends_getcwdb : extends os.getcwdb.
Proof. apply extends_call_os. intros s. unfold os.getcwd_body. now repeat case_match. Qed.

Lemma extends_chdir (name : string) : extends (os.chdir name).
Proof. intros w. apply extends_call_os. intros s. now repeat case_match. Qed.

Lemma extends_listdir : extends os.listdir.
Proof. intros w. apply extends_call_os. intros s. now repeat case_match. Qed.

Lemma extends_mkdir (name : string) : extends (os.mkdir name).
Proof. intros w. apply extends_call_os. intros s. now repeat case_match. Qed.

Lemma extends_rename (src dst : string) : extends (os.rename src dst).
Proof. intros w. apply extends_call_os. intros s. now repeat case_match. Qed.

Lemma extends_chmod (name : string) (mode : Z) : extends (os.chmod name mode).
Proof. intros w. apply extends_call_os. intros s. now repeat case_match. Qed.

Lemma extends_remove (name : string) : extends (os.remove name).
Proof. intros w. apply extends_call_os. intros s. now repeat case_match. Qed.

Lemma extends_rmdir (name : string) : extends (os.rmdir name).
Proof. intros w. apply extends_call_os. intros s. now repeat case_match. Qed.

(** In every world the script calls the operating system, first of all
    for the working directory. *)
Lemma directory_and_filemanage9_calls (w : world) :
  exists l, calls (sys (snd (directory_and_filemanage9 w))) = calls (sys w) ++ SysGetcwd :: l.
Proof.
  unfold directory_and_filemanage9.
  assert (Himport : forall (n : string) (k : M unit) w0,
            (import_ n ;; k) w0 = k (set_imported (imported w0 ++ [n]) w0)) by reflexivity.
  rewrite !Himport. clear Himport.
  set (w2 := set_imported _ (set_imported _ w)).
  assert (Hrest : forall d : string, extends
     (print [py d] ;;
      d <- os.getcwdb ;; print [VBytes d] ;;
      os.chdir "/Users/srinu/Documents/frontend-prep/backend/python" ;;
      d <- os.getcwd ;; print [py d] ;;
      l <- os.listdir ;; print [py l] ;;
      os.mkdir "test_folder" ;;
      os.rename "test_folder" "New_folder" ;;
      os.chmod "New_folder" stat.S_IRWXU ;;
      os.remove "Test.txt" ;;
      os.rmdir "Test.txt")).
  { intros d.
    repeat (apply extends_bind; [|intros]);
      auto using extends_print, extends_getcwd, extends_getcwdb, extends_chdir,
        extends_listdir, extends_mkdir, extends_rename, extends_chmod, extends_remove,
        extends_rmdir. }
  unfold bind at 1. unfold os.getcwd at 1, os.call_os.
  change (calls (sys w)) with (calls (sys w2)).
  destruct (denied _ SysGetcwd); [now exists []|].
  destruct (os.getcwd_body _) as [[d|e] s'] eqn:Hbody.
  - destruct (Hrest d (set_sys s' w2)) as [l Hl]. exists l. rewrite Hl.
    cbn [sys set_sys]. unfold os.getcwd_body in Hbody.
    repeat case_match; injection Hbody as _ <-; cbn; now rewrite <- app_assoc.
  - exists []. cbn [snd sys set_sys]. unfold os.getcwd_body in Hbody.
    repeat case_match; injection Hbody as _ <-; reflexivity.
Qed.

(** ** The repository as a whole *)

(** Membership in the list of scripts, by position. *)
Ltac in_scripts :=
  apply list_elem_of_In; unfold scripts; cbn [In];
  repeat first [left; reflexivity | right].

Lemma quiet_in_scripts (s : script) :
  s ∈ scripts -> file s <> "directory_and_filemanage9.py" -> quiet (run s).
Proof. intros Hin. exact (proj1 (Forall_forall _ _) scripts_quiet s Hin). Qed.

Lemma quiet_sys (s : script) (w : world) :
  s ∈ scripts -> file s <> "directory_and_filemanage9.py" ->
  sys (snd (run s w)) = sys w.
Proof. intros Hin Hname. apply quiet_frame, quiet_in_scripts; assumption. Qed.

(** C1, counterexample: example5.py is one of the scripts and stops at
    the [assert 5 > 5] of its line 31 with an [AssertionError] that
    nothing catches. *)
Lemma example5_does_not_complete :
  example5_py ∈ scripts
  /\ fst (run example5_py (start project_tree)) = Raised AssertionError.
Proof. split; [in_scripts|reflexivity]. Qed.

(** C1, amended: every script other than example5.py and
    directory_and_filemanage9.py runs to completion in every world, and
    example5.py ends in every world at its failing assertion, after its
    first eleven lines of output. *)
Theorem scripts_run_to_completion :
  (forall s, s ∈ scripts ->
     file s <> "example5.py" -> file s <> "directory_and_filemanage9.py" ->
     runs_to_completion s)
  /\ (forall w,
        run example5_py w =
        (Raised AssertionError,
         printed [[py true]; [py false]; [py false]; [py false]; [py false]; [py true];
                  [VNone]; [py false]; [py true]; [py false];
                  [py (FLibm "cos" (NFloat math.pi))]]
           (set_imported (imported w ++ ["math"]) w))).
Proof.
  split; [|exact example5_run].
  intros s Hin. exact (proj1 (Forall_forall _ _) scripts_complete s Hin).
Qed.

Lemma scripts_run_to_completion_witness :
  fst (run example7_py (start project_tree)) = Normal tt.
Proof.
  apply (proj1 scripts_run_to_completion example7_py).
  - in_scripts.
  - discriminate.
  - discriminate.
Defined.

(** C2, counterexample: started where [Test.txt] does not exist,
    directory_and_filemanage9.py ends at its [os.remove] and the directory
    [New_folder], which was not there before, stays behind. *)
Lemma directory_script_leaves_a_directory :
  directory_and_filemanage9_py ∈ scripts
  /\ fs (sys (start project_tree)) !! (project_dir ++ ["New_folder"]) = None
  /\ fst (run directory_and_filemanage9_py (start project_tree)) = Raised FileNotFoundError
  /\ fs (sys (snd (run directory_and_filemanage9_py (start project_tree))))
       !! (project_dir ++ ["New_folder"]) = Some (Dir stat.S_IRWXU)
  /\ ~ leaves_nothing directory_and_filemanage9_py.
Proof.
  assert (H1 : fs (sys (start project_tree)) !! (project_dir ++ ["New_folder"]) = None)
    by (vm_compute; reflexivity).
  assert (H2 : fs (sys (snd (run directory_and_filemanage9_py (start project_tree))))
       !! (project_dir ++ ["New_folder"]) = Some (Dir stat.S_IRWXU))
    by (vm_compute; reflexivity).
  split; [in_scripts|]. split; [exact H1|].
  split; [vm_compute; reflexivity|]. split; [exact H2|].
  intros H. pose proof (H (start project_tree) (project_dir ++ ["New_folder"]) H1) as H3.
  assert (Hno : Some (Dir stat.S_IRWXU) = None) by (rewrite <- H2; exact H3).
  discriminate Hno.
Qed.

(** C2, amended: every script other than directory_and_filemanage9.py
    leaves the operating system's side of the world, the file system with
    it, exactly as it found it; so nothing it created remains.
    (example5.py stops before its [open('example.txt', 'w')].) *)
Theorem scripts_leave_no_data (s : script) :
  s ∈ scripts -> file s <> "directory_and_filemanage9.py" ->
  (forall w, sys (snd (run s w)) = sys w) /\ leaves_nothing s.
Proof.
  intros Hin Hname. split.
  - intros w. now apply quiet_sys.
  - intros w p Hp. now rewrite quiet_sys.
Qed.

Lemma scripts_leave_no_data_witness :
  (forall w, sys (snd (run example5_py w)) = sys w) /\ leaves_nothing example5_py.
Proof.
  apply (scripts_leave_no_data example5_py).
  - in_scripts.
  - discriminate.
Defined.

(** Exactly one script calls the operating system: the others never do,
    directory_and_filemanage9.py does in every world. *)
Lemma only_one_script_calls_the_system (s : script) :
  s ∈ scripts ->
  if bool_decide (file s = "directory_and_filemanage9.py")
  then forall w, exists l, calls (sys (snd (run s w))) = calls (sys w) ++ SysGetcwd :: l
  else makes_no_call s.
Proof.
  intros Hin. case_bool_decide as Hname.
  - assert (Hs : run s = directory_and_filemanage9).
    { apply list_elem_of_In in Hin. unfold scripts in Hin. cbn [In] in Hin.
      repeat (destruct Hin as [<-|Hin]; [first [discriminate Hname|reflexivity]|]).
      contradiction. }
    rewrite Hs. apply directory_and_filemanage9_calls.
  - intros w. now rewrite quiet_sys.
Qed.

(** C3: the script that works on the file system never removes a
    directory.  Its last statement, [os.rmdir('Test.txt')], comes right
    after [os.remove('Test.txt')] has removed that name, so in every
    world the script ends with an exception; started where every earlier
    call succeeds, it makes its ten calls in order, the last one fails
    with [FileNotFoundError], and every directory is still there,
    [New_folder] included. *)
Theorem directory_script_never_removes_a_directory :
  (forall w, exists e, fst (directory_and_filemanage9 w) = Raised e)
  /\ (forall w w', os.remove "Test.txt" w = (Normal tt, w') ->
        exists e, fst (os.rmdir "Test.txt" w') = Raised e)
  /\ fst (run directory_and_filemanage9_py (start project_tree_with_file))
     = Raised FileNotFoundError
  /\ calls (sys (snd (run directory_and_filemanage9_py (start project_tree_with_file))))
     = [SysGetcwd; SysGetcwdb; SysChdir project_dir; SysGetcwd; SysListdir project_dir;
        SysMkdir (project_dir ++ ["test_folder"]);
        SysRename (project_dir ++ ["test_folder"]) (project_dir ++ ["New_folder"]);
        SysChmod (project_dir ++ ["New_folder"]) stat.S_IRWXU;
        SysRemove (project_dir ++ ["Test.txt"]);
        SysRmdir (project_dir ++ ["Test.txt"])]
  /\ fs (sys (snd (run directory_and_filemanage9_py (start project_tree_with_file))))
     = <[project_dir ++ ["New_folder"] := Dir stat.S_IRWXU]> project_tree.
Proof.
  split; [exact directory_and_filemanage9_raises|].
  split; [intros w w'; apply rmdir_after_remove|].
  split; [vm_compute; reflexivity|].
  split; [vm_compute; reflexivity|].
  apply (bool_decide_unpack _). vm_compute. exact I.
Qed.

Lemma started_after_same (w0 w : world) :
  fs (sys w0) = fs (sys w) -> contents (sys w0) = contents (sys w) ->
  started_after w0 w = w.
Proof.
  intros Hfs Hc. unfold started_after. rewrite Hfs, Hc.
  destruct w as [? ? ? ? ? ? []]. reflexivity.
Qed.

(** C6: no script imports a file of the repository, every imported
    module being one of the standard library; and what a script returns
    and prints is the same whether it starts on the file system as it
    was, or on the file system another script has left. *)
Theorem scripts_are_independent :
  (forall s m, s ∈ scripts -> m ∈ imports s ->
     m ∈ stdlib_modules /\ m ∉ repo_modules)
  /\ (forall a b wa wb,
        a ∈ scripts -> b ∈ scripts -> file a <> file b ->
        fs (sys wa) = fs (sys wb) -> contents (sys wa) = contents (sys wb) ->
        fst (run b (started_after (snd (run a wa)) wb)) = fst (run b wb)
        /\ stdout (snd (run b (started_after (snd (run a wa)) wb)))
           = stdout (snd (run b wb))).
Proof.
  split.
  - intros s m Hin Hm.
    apply list_elem_of_In in Hin. unfold scripts in Hin. cbn [In] in Hin.
    repeat (destruct Hin as [<-|Hin];
            [cbn [imports] in Hm; apply list_elem_of_In in Hm; cbn [In] in Hm;
             repeat (destruct Hm as [<-|Hm];
                     [split; apply (bool_decide_unpack _); vm_compute; exact I|]);
             contradiction|]).
    contradiction.
  - intros a b wa wb Ha Hb Hab Hfs Hc.
    destruct (decide (file a = "directory_and_filemanage9.py")) as [Hdir|Hdir].
    + assert (Hq : quiet (run b)) by (apply quiet_in_scripts; [exact Hb|congruence]).
      unfold started_after. rewrite Hq. split; reflexivity.
    + rewrite started_after_same; [split; reflexivity| |].
      * rewrite quiet_sys by assumption. exact Hfs.
      * rewrite quiet_sys by assumption. exact Hc.
Qed.

Lemma scripts_are_independent_witness :
  fst (run example7_py
         (started_after (snd (run directory_and_filemanage9_py (start project_tree)))
            (start project_tree)))
  = fst (run example7_py (start project_tree))
  /\ stdout (snd (run example7_py
         (started_after (snd (run directory_and_filemanage9_py (start project_tree)))
            (start project_tree))))
     = stdout (snd (run example7_py (start project_tree))).
Proof.
  apply (proj2 scripts_are_independent directory_and_filemanage9_py example7_py).
  - in_scripts.
  - in_scripts.
  - discriminate.
  - reflexivity.
  - reflexivity.
Defined.

(** * Further properties of the code *)

(** ** example17.py: the iterators *)

Lemma Pow_of_Two_spent (j : nat) (max k : Z) :
  max < k ->
  nexts Pow_of_Two.__next__ j {| Pow_of_Two.max := max; Pow_of_Two.n := Some k |}
  = (repeat (Raised StopIteration) j,
     {| Pow_of_Two.max := max; Pow_of_Two.n := Some k |}).
Proof.
  intros Hk. induction j as [|j IH]; [reflexivity|].
  cbn [nexts repeat]. unfold Pow_of_Two.__next__ at 1.
  cbn [Pow_of_Two.n Pow_of_Two.max].
  rewrite (proj2 (Z.leb_gt k max)) by lia. now rewrite IH.
Qed.

(** X1: for every [max], negative ones included, iterating
    [Pow_of_Two(max)] after [iter()] gives the [max + 1] powers
    [2^0 .. 2^max] (none when [max < 0]) and from then on every [next()]
    raises [StopIteration]: a spent iterator stays spent. *)
Theorem Pow_of_Two_stays_spent (max : Z) (j : nat) :
  fst (nexts Pow_of_Two.__next__ (Z.to_nat (max + 1) + j)
         (Pow_of_Two.__iter__ (Pow_of_Two.__init__ max)))
  = map (fun i => Normal (NInt (2 ^ Z.of_nat i))) (seq 0 (Z.to_nat (max + 1)))
      ++ repeat (Raised StopIteration) j.
Proof.
  rewrite nexts_app. unfold Pow_of_Two.__iter__, Pow_of_Two.__init__.
  cbn [Pow_of_Two.max].
  destruct (Z_lt_le_dec (max + 1) 0) as [Hneg|Hpos].
  - replace (Z.to_nat (max + 1)) with 0%nat by lia. cbn [nexts seq map app].
    rewrite Pow_of_Two_spent by lia. reflexivity.
  - rewrite Pow_of_Two_run by lia. rewrite Pow_of_Two_spent by lia. reflexivity.
Qed.

Lemma Pow_of_Two_max_kept (k : nat) (self : Pow_of_Two.t) :
  Pow_of_Two.max (snd (nexts Pow_of_Two.__next__ k self)) = Pow_of_Two.max self.
Proof.
  revert self. induction k as [|k IH]; intros self; [reflexivity|].
  cbn [nexts]. destruct (Pow_of_Two.__next__ self) as [r self'] eqn:E.
  specialize (IH self'). destruct (nexts Pow_of_Two.__next__ k self') as [rs self''].
  cbn [snd] in *. rewrite IH. unfold Pow_of_Two.__next__ in E.
  destruct (Pow_of_Two.n self) as [i|]; [|now injection E as _ <-].
  destruct (i <=? Pow_of_Two.max self); now injection E as _ <-.
Qed.

(** X2: [iter()] on a [Pow_of_Two] object starts it over: however many
    [next()] calls came before, a new [iter()] followed by [k] calls gives
    what the first [k] calls on the fresh object gave. *)
Theorem Pow_of_Two_iter_restarts (max : Z) (used k : nat) :
  nexts Pow_of_Two.__next__ k
    (Pow_of_Two.__iter__
       (snd (nexts Pow_of_Two.__next__ used
               (Pow_of_Two.__iter__ (Pow_of_Two.__init__ max)))))
  = nexts Pow_of_Two.__next__ k (Pow_of_Two.__iter__ (Pow_of_Two.__init__ max)).
Proof.
  unfold Pow_of_Two.__iter__ at 1. rewrite Pow_of_Two_max_kept. reflexivity.
Qed.

(** X3: [Infinite_Iter] never ends: after [iter()], whatever the object
    was before, the first [k] calls of [next()] return the first [k] odd
    numbers [1, 3, ..., 2k - 1], and none raises. *)
Theorem Infinite_Iter_odd_numbers (self : Infinite_Iter.t) (k : nat) :
  nexts Infinite_Iter.__next__ k (Infinite_Iter.__iter__ self)
  = (map (fun j => Normal (2 * Z.of_nat j + 1)) (seq 0 k),
     {| Infinite_Iter.num := Some (2 * Z.of_nat k + 1) |}).
Proof.
  unfold Infinite_Iter.__iter__.
  assert (H : forall k b,
    nexts Infinite_Iter.__next__ k {| Infinite_Iter.num := Some (2 * Z.of_nat b + 1) |}
    = (map (fun j => Normal (2 * Z.of_nat j + 1)) (seq b k),
       {| Infinite_Iter.num := Some (2 * Z.of_nat (b + k) + 1) |})).
  { clear. induction k as [|k IH]; intros b.
    - cbn. now rewrite Nat.add_0_r.
    - cbn [nexts seq map]. unfold Infinite_Iter.__next__ at 1. cbn [Infinite_Iter.num].
      replace (2 * Z.of_nat b + 1 + 2) with (2 * Z.of_nat (S b) + 1) by lia.
      rewrite IH. replace (b + S k)%nat with (S b + k)%nat by lia. reflexivity. }
  exact (H k 0%nat).
Qed.

(** ** Generators that walk a list *)

Lemma gnexts_bind_ret {A B} (k : nat) (b : B) (f : B -> generator A) (w : world) :
  gnexts k (bind (ret b) f) w = gnexts k (f b) w.
Proof. destruct k; reflexivity. Qed.

Lemma next_gyield {A} (x : A) (k : generator A) (w : world) :
  next (gyield x k) w = (Normal x, k, w).
Proof. reflexivity. Qed.

Lemma next_getitem {A} (l : list A) (i : Z) (c : A) (k : generator A) (w : world) :
  index l i = Some c ->
  next (bind (getitem l i) (fun c => gyield c k)) w = (Normal c, k, w).
Proof. intros Hi. unfold next, getitem, bind. rewrite Hi. reflexivity. Qed.

(** A generator that yields the elements at the indices [ixs] of a list,
    all of them in range, behaves as the list [cs] of these elements. *)
Lemma walk_nexts {A} (l : list A) (ixs : list Z) (cs : list A) (j : nat) (w : world) :
  Forall2 (fun i c => index l i = Some c) ixs cs ->
  gnexts (length cs + j)
    (gfor ixs (fun i k => bind (getitem l i) (fun c => gyield c k)) gdone) w
  = (map Normal cs ++ repeat (Raised StopIteration) j, gdone, w).
Proof.
  intros H. induction H as [|i c ixs cs Hi _ IH].
  - cbn [length Nat.add gfor map app]. apply gnexts_gdone.
  - cbn [length Nat.add gfor gnexts]. rewrite (next_getitem _ _ _ _ _ Hi).
    rewrite IH. reflexivity.
Qed.

Lemma walk_for {A} (l : list A) (ixs : list Z) (cs : list A) (body : A -> M unit) (w : world) :
  Forall2 (fun i c => index l i = Some c) ixs cs ->
  for_gen (gfor ixs (fun i k => bind (getitem l i) (fun c => gyield c k)) gdone) body w
  = for_each cs body w.
Proof.
  intros H. revert w. induction H as [|i c ixs cs Hi _ IH]; intros w.
  - reflexivity.
  - cbn [gfor for_each]. rewrite for_gen_bind. unfold getitem at 1. rewrite Hi.
    cbn [or_raise]. rewrite bind_ret, for_gen_gyield.
    apply bind_ext. intros _ w'. apply IH.
Qed.

Lemma reverse_indices (l : list ascii) (n : nat) :
  (n <= length l)%nat ->
  Forall2 (fun i c => index l i = Some c)
    (range3 (Z.of_nat n - 1) (-1) (-1)) (rev (take n l)).
Proof.
  induction n as [|n IH]; intros Hn.
  - constructor.
  - rewrite range3_down.
    destruct (lookup_lt_is_Some_2 l n ltac:(lia)) as [c Hc].
    rewrite (take_S_r _ _ _ Hc), rev_app_distr. cbn [rev app].
    constructor; [now rewrite index_nat|apply IH; lia].
Qed.

Lemma reverse_string_indices (s : string) :
  Forall2 (fun i c => index (chars s) i = Some c)
    (range3 (len (chars s) - 1) (-1) (-1)) (rev (chars s)).
Proof.
  pose proof (reverse_indices (chars s) (length (chars s)) (le_n _)) as H.
  now rewrite firstn_all in H.
Qed.

(** X4: [next()] on [reverse_string(s)] returns the characters of [s]
    from the last to the first, one per call, then raises
    [StopIteration] for ever (at once when [s] is empty); it never raises
    [IndexError] and prints nothing. *)
Theorem reverse_string_next (s : string) (j : nat) (w : world) :
  gnexts (length (chars s) + j) (reverse_string s) w
  = (map Normal (rev (chars s)) ++ repeat (Raised StopIteration) j, gdone, w).
Proof.
  rewrite <- (length_rev (chars s)). unfold reverse_string. cbv zeta.
  apply walk_nexts, reverse_string_indices.
Qed.

(** X5: a [for] loop over [reverse_string(s)] runs its body on the
    characters of [s] taken backwards, exactly as a loop over the
    reversed list would, whatever the body does. *)
Theorem reverse_string_for (s : string) (body : ascii -> M unit) (w : world) :
  for_gen (reverse_string s) body w = for_each (rev (chars s)) body w.
Proof.
  unfold reverse_string. cbv zeta. apply walk_for, reverse_string_indices.
Qed.

(** X6: the iterator of a list hands out the elements in order, one per
    [next()], and after the last one every [next()] raises
    [StopIteration], as the comment at line 16 of example17.py says of
    the fifth call on the four-element list. *)
Theorem list_iterator_next {A} (l : list A) (j : nat) (w : world) :
  gnexts (length l + j) (iter_list l) w
  = (map Normal l ++ repeat (Raised StopIteration) j, gdone, w).
Proof.
  unfold iter_list. induction l as [|x l IH].
  - cbn [length Nat.add gfor map app]. apply gnexts_gdone.
  - cbn [length Nat.add gfor gnexts]. rewrite next_gyield.
    rewrite IH. reflexivity.
Qed.

(** ** example21.py *)

(** X7: [findMax(a, b)] is the larger of its arguments, is one of them,
    and does not depend on their order. *)
Theorem findMax_is_max (a b : Z) :
  example21.findMax a b = Z.max a b
  /\ a <= example21.findMax a b
  /\ b <= example21.findMax a b
  /\ (example21.findMax a b = a \/ example21.findMax a b = b)
  /\ example21.findMax a b = example21.findMax b a.
Proof.
  unfold example21.findMax.
  destruct (Z.gtb_spec a b), (Z.gtb_spec b a); lia.
Qed.

Lemma sumAll_from (l : list Z) (acc : Z) :
  fold_left (fun sum i => sum + i) l acc = acc + example21.sumAll l.
Proof.
  unfold example21.sumAll. cbv zeta. revert acc.
  induction l as [|x l IH]; intros acc; cbn [fold_left]; [lia|].
  rewrite IH, (IH (0 + x)). lia.
Qed.

(** X8: [sumAll] adds up its arguments: it is 0 for no argument, the sum
    of two argument lists is the sum of their sums, and the order of the
    arguments does not matter. *)
Theorem sumAll_sums (l1 l2 : list Z) :
  example21.sumAll [] = 0
  /\ example21.sumAll (l1 ++ l2) = example21.sumAll l1 + example21.sumAll l2
  /\ (l1 ≡ₚ l2 -> example21.sumAll l1 = example21.sumAll l2).
Proof.
  assert (Happ : forall a b, example21.sumAll (a ++ b)
                             = example21.sumAll a + example21.sumAll b).
  { intros a b. unfold example21.sumAll at 1. cbv zeta.
    rewrite fold_left_app, sumAll_from. unfold example21.sumAll at 1. reflexivity. }
  split; [reflexivity|]. split; [apply Happ|].
  intros Hp. induction Hp as [|x a b _ IH|x y a|a b c _ IH1 _ IH2].
  - reflexivity.
  - change (x :: a) with ([x] ++ a). change (x :: b) with ([x] ++ b).
    now rewrite !Happ, IH.
  - change (y :: x :: a) with ([y] ++ [x] ++ a).
    change (x :: y :: a) with ([x] ++ [y] ++ a).
    rewrite !Happ. lia.
  - now rewrite IH1.
Qed.

Lemma sumAll_sums_witness : example21.sumAll [1; 2; 3] = example21.sumAll [2; 1; 3].
Proof.
  apply (proj2 (proj2 (sumAll_sums [1; 2; 3] [2; 1; 3]))).
  apply perm_swap.
Defined.

(** ** example26.py: which handler answers which input *)

Lemma input_line (prompt line : string) (rest : list string) (w : world) :
  stdin w = line :: rest ->
  input prompt w = (Normal line, set_stdin rest (printed [[VStr prompt]] w)).
Proof. intros H. unfold input. now rewrite H. Qed.

Lemma input_end (prompt : string) (w : world) :
  stdin w = [] -> input prompt w = (Raised EOFError, printed [[VStr prompt]] w).
Proof. intros H. unfold input. now rewrite H. Qed.

(** What [int] reads and what it refuses: the separator 28 is no white
    space for it, the no-break space 160 is; a sign must touch its
    digits; 4300 digits are read and 4301 are refused, leading zeros
    counted and underscores not. *)
Lemma parse_int_cases :
  parse_int (String (ascii_of_nat 28) "8") = None
  /\ parse_int (String (ascii_of_nat 28) "-3") = None
  /\ parse_int (String (ascii_of_nat 160) "7") = Some 7
  /\ parse_int (String (ascii_of_nat 133) "-3 ") = Some (-3)
  /\ parse_int (String (ascii_of_nat 9) "+1_000 ") = Some 1000
  /\ parse_int "- 5" = None
  /\ parse_int "007" = Some 7
  /\ parse_int (str (repeat "1"%char 4300)) = Some ((10 ^ 4300 - 1) / 9)
  /\ parse_int (str (repeat "1"%char 4301)) = None
  /\ parse_int (str ("-"%char :: "1"%char :: repeat "0"%char 4300)) = None
  /\ parse_int (str ("0"%char :: concat (repeat ["_"; "0"]%char 4300))) = None.
Proof. do 10 (split; [vm_compute; reflexivity|]). vm_compute. reflexivity. Qed.

Lemma int_of_str_parsed (s : string) (z : Z) (w : world) :
  parse_int s = Some z -> int_of_str s w = (Normal z, w).
Proof. intros H. unfold int_of_str. now rewrite H. Qed.

Lemma int_of_str_refused (s : string) (w : world) :
  parse_int s = None -> int_of_str s w = (Raised ValueError, w).
Proof. intros H. unfold int_of_str. now rewrite H. Qed.

Lemma read_then_print (r r' : list string) (a b : list (list pyval)) (w : world) :
  set_stdin r (printed b (set_stdin r' (printed a w))) = set_stdin r (printed (a ++ b) w).
Proof.
  unfold printed, set_stdin, set_stdout.
  cbn [stdout stdin imported entropy drawn address sys]. now rewrite <- app_assoc.
Qed.

Lemma print_after_read (r : list string) (a b : list (list pyval)) (w : world) :
  printed b (set_stdin r (printed a w)) = set_stdin r (printed (a ++ b) w).
Proof.
  unfold printed, set_stdin, set_stdout.
  cbn [stdout stdin imported entropy drawn address sys]. now rewrite <- app_assoc.
Qed.

(** The try block up to the second number. *)
Lemma example26_two_numbers (s1 s2 : string) (rest : list string) (a b : Z) (w : world) :
  stdin w = s1 :: s2 :: rest -> parse_int s1 = Some a -> parse_int s2 = Some b ->
  example26_try w
  = ((if a <? 0 then raise TypeError else pass) ;;
     c <- truediv (NInt a) (NInt b) ;;
     line <- format "{} / {} = {}" [py a; py b; py c] ;;
     print [line])
      (set_stdin rest
         (printed [[py "Please enter the first number:"];
                   [py "Please enter the second number:"]] w)).
Proof.
  intros Hin H1 H2. unfold example26_try.
  rewrite (bind_normal _ _ _ _ _ (input_line _ _ _ _ Hin)).
  rewrite (bind_normal _ _ _ _ _ (int_of_str_parsed _ _ _ H1)).
  rewrite (bind_normal _ _ _ s2
             (set_stdin rest (printed [[py "Please enter the first number:"];
                                       [py "Please enter the second number:"]] w))).
  - now rewrite (bind_normal _ _ _ _ _ (int_of_str_parsed _ _ _ H2)).
  - rewrite (input_line _ s2 rest) by reflexivity. now rewrite read_then_print.
Qed.

(** X9: in example26.py a negative first number is refused before the
    division is tried: whatever the second number is, zero included, the
    script prints both prompts, the line of the [TypeError] handler and
    the [finally] line, and ends normally having read two lines. *)
Theorem example26_negative_first (s1 s2 : string) (rest : list string) (a b : Z) (w : world) :
  stdin w = s1 :: s2 :: rest -> parse_int s1 = Some a -> parse_int s2 = Some b ->
  a < 0 ->
  example26 w
  = (Normal tt,
     set_stdin rest
       (printed [[py "Please enter the first number:"];
                 [py "Please enter the second number:"];
                 [py "The data is not in range..."];
                 [py "Anyways i will exceute"]] w)).
Proof.
  intros Hin H1 H2 Ha.
  unfold example26, try_finally, try_except.
  rewrite (example26_two_numbers _ _ _ _ _ _ Hin H1 H2).
  rewrite (proj2 (Z.ltb_lt a 0) Ha).
  transitivity
    (Normal tt,
     printed [[py "Anyways i will exceute"]]
       (printed [[py "The data is not in range..."]]
          (set_stdin rest
             (printed [[py "Please enter the first number:"];
                       [py "Please enter the second number:"]] w)))).
  - reflexivity.
  - now rewrite !print_after_read.
Qed.

Lemma example26_negative_first_witness :
  example26 (set_stdin ["-3"; "0"] (start project_tree))
  = (Normal tt,
     set_stdin []
       (printed [[py "Please enter the first number:"];
                 [py "Please enter the second number:"];
                 [py "The data is not in range..."];
                 [py "Anyways i will exceute"]]
          (set_stdin ["-3"; "0"] (start project_tree)))).
Proof.
  apply (example26_negative_first "-3" "0" [] (-3) 0); [reflexivity..|lia].
Defined.

(** X10: a second number that is zero, after a first number that is not
    negative, is answered by the [ZeroDivisionError] handler. *)
Theorem example26_zero_second (s1 s2 : string) (rest : list string) (a : Z) (w : world) :
  stdin w = s1 :: s2 :: rest -> parse_int s1 = Some a -> parse_int s2 = Some 0 ->
  0 <= a ->
  example26 w
  = (Normal tt,
     set_stdin rest
       (printed [[py "Please enter the first number:"];
                 [py "Please enter the second number:"];
                 [py "Division by zero is not possible..."];
                 [py "Anyways i will exceute"]] w)).
Proof.
  intros Hin H1 H2 Ha.
  unfold example26, try_finally, try_except.
  rewrite (example26_two_numbers _ _ _ _ _ _ Hin H1 H2).
  rewrite (proj2 (Z.ltb_ge a 0) Ha).
  transitivity
    (Normal tt,
     printed [[py "Anyways i will exceute"]]
       (printed [[py "Division by zero is not possible..."]]
          (set_stdin rest
             (printed [[py "Please enter the first number:"];
                       [py "Please enter the second number:"]] w)))).
  - reflexivity.
  - now rewrite !print_after_read.
Qed.

Lemma example26_zero_second_witness :
  example26 (set_stdin ["7"; "0"] (start project_tree))
  = (Normal tt,
     set_stdin []
       (printed [[py "Please enter the first number:"];
                 [py "Please enter the second number:"];
                 [py "Division by zero is not possible..."];
                 [py "Anyways i will exceute"]]
          (set_stdin ["7"; "0"] (start project_tree)))).
Proof.
  apply (example26_zero_second "7" "0" [] 7); [reflexivity..|lia].
Defined.

(** X11: when the first line is an ASCII string that [int] refuses, the
    [ValueError] handler answers at once: the second prompt is never
    shown and the second line is not read. *)
Theorem example26_first_not_a_number (s1 : string) (rest : list string) (w : world) :
  stdin w = s1 :: rest -> is_ascii s1 = true -> parse_int s1 = None ->
  example26 w
  = (Normal tt,
     set_stdin rest
       (printed [[py "Please enter the first number:"];
                 [py "The data types are not proper..."];
                 [py "Anyways i will exceute"]] w)).
Proof.
  intros Hin _ H1.
  unfold example26, try_finally, try_except, example26_try.
  rewrite (bind_normal _ _ _ _ _ (input_line _ _ _ _ Hin)).
  rewrite (bind_raised _ _ _ _ _ (int_of_str_refused _ _ H1)).
  transitivity
    (Normal tt,
     printed [[py "Anyways i will exceute"]]
       (printed [[py "The data types are not proper..."]]
          (set_stdin rest (printed [[py "Please enter the first number:"]] w)))).
  - reflexivity.
  - now rewrite !print_after_read.
Qed.

Lemma example26_first_not_a_number_witness :
  is_ascii "seven" = true
  /\ parse_int "seven" = None
  /\ example26 (set_stdin ["seven"; "1"] (start project_tree))
  = (Normal tt,
     set_stdin ["1"]
       (printed [[py "Please enter the first number:"];
                 [py "The data types are not proper..."];
                 [py "Anyways i will exceute"]]
          (set_stdin ["seven"; "1"] (start project_tree)))).
Proof.
  split; [reflexivity|]. split; [reflexivity|].
  apply (example26_first_not_a_number "seven" ["1"]); reflexivity.
Defined.

(** X12: when the input ends before the first number, the [EOFError] of
    [input] is none of the three named exceptions and it is the bare
    [except] that answers. *)
Theorem example26_no_input (w : world) :
  stdin w = [] ->
  example26 w
  = (Normal tt,
     printed [[py "Please enter the first number:"];
              [py "default exception handling if none of the exception matches..."];
              [py "Anyways i will exceute"]] w).
Proof.
  intros Hin.
  unfold example26, try_finally, try_except, example26_try.
  rewrite (bind_raised _ _ _ _ _ (input_end _ _ Hin)).
  transitivity
    (Normal tt,
     printed [[py "Anyways i will exceute"]]
       (printed [[py "default exception handling if none of the exception matches..."]]
          (printed [[py "Please enter the first number:"]] w))).
  - reflexivity.
  - now rewrite !printed_printed.
Qed.

Lemma example26_no_input_witness :
  example26 (start project_tree)
  = (Normal tt,
     printed [[py "Please enter the first number:"];
              [py "default exception handling if none of the exception matches..."];
              [py "Anyways i will exceute"]] (start project_tree)).
Proof. apply example26_no_input. reflexivity. Defined.

(** X13: for a first number that is not negative and a second that is
    not zero, the script prints the two numbers and their correctly
    rounded quotient, unless the quotient is too large for a float: then
    the [OverflowError] falls to the bare [except]. *)
Theorem example26_quotient_printed (s1 s2 : string) (rest : list string) (a b : Z) (w : world) :
  stdin w = s1 :: s2 :: rest -> parse_int s1 = Some a -> parse_int s2 = Some b ->
  0 <= a -> b <> 0 ->
  example26 w
  = (Normal tt,
     set_stdin rest
       (printed [[py "Please enter the first number:"];
                 [py "Please enter the second number:"];
                 [let q := PyFloat.div (PyFloat.exact a) (PyFloat.exact b) in
                  if PyFloat.is_inf q
                  then py "default exception handling if none of the exception matches..."
                  else VFormat [(VInt a, ""); (VStr " / ", ""); (VInt b, "");
                                (VStr " = ", ""); (VFloat (FVal q), "")]];
                 [py "Anyways i will exceute"]] w)).
Proof.
  intros Hin H1 H2 Ha Hb.
  unfold example26, try_finally, try_except.
  rewrite (example26_two_numbers _ _ _ _ _ _ Hin H1 H2).
  rewrite (proj2 (Z.ltb_ge a 0) Ha).
  unfold truediv. cbn [as_int]. rewrite (proj2 (Z.eqb_neq b 0) Hb). cbv zeta.
  destruct (PyFloat.is_inf _).
  - transitivity
      (Normal tt,
       printed [[py "Anyways i will exceute"]]
         (printed [[py "default exception handling if none of the exception matches..."]]
            (set_stdin rest
               (printed [[py "Please enter the first number:"];
                         [py "Please enter the second number:"]] w)))).
    + reflexivity.
    + now rewrite !print_after_read.
  - transitivity
      (Normal tt,
       printed [[py "Anyways i will exceute"]]
         (printed [[VFormat [(VInt a, ""); (VStr " / ", ""); (VInt b, "");
                             (VStr " = ", "");
                             (VFloat (FVal (PyFloat.div (PyFloat.exact a) (PyFloat.exact b))), "")]]]
            (set_stdin rest
               (printed [[py "Please enter the first number:"];
                         [py "Please enter the second number:"]] w)))).
    + reflexivity.
    + now rewrite !print_after_read.
Qed.

Lemma example26_quotient_printed_witness :
  example26 (set_stdin ["20"; "2"] (start project_tree))
  = (Normal tt,
     set_stdin []
       (printed [[py "Please enter the first number:"];
                 [py "Please enter the second number:"];
                 [let q := PyFloat.div (PyFloat.exact 20) (PyFloat.exact 2) in
                  if PyFloat.is_inf q
                  then py "default exception handling if none of the exception matches..."
                  else VFormat [(VInt 20, ""); (VStr " / ", ""); (VInt 2, "");
                                (VStr " = ", ""); (VFloat (FVal q), "")]];
                 [py "Anyways i will exceute"]]
          (set_stdin ["20"; "2"] (start project_tree)))).
Proof.
  apply (example26_quotient_printed "20" "2" [] 20 2); [reflexivity..|lia|lia].
Defined.

(** ** The file system: moving a subtree *)

Lemma under_spec (d p : path) : os.under d p = true <-> d `prefix_of` p.
Proof. unfold os.under. apply bool_decide_eq_true. Qed.

Lemma under_false (d p : path) : os.under d p = false <-> ~ d `prefix_of` p.
Proof. unfold os.under. apply bool_decide_eq_false. Qed.

Lemma under_refl (d : path) : os.under d d = true.
Proof. now apply under_spec. Qed.

Lemma reroot_under (src dst p : path) :
  os.under src p = true -> os.under dst (os.reroot src dst p) = true.
Proof.
  intros H. unfold os.reroot. rewrite H. apply under_spec. now apply prefix_app_r.
Qed.

Lemma reroot_inj (src dst p q : path) :
  os.under src p = true -> os.under src q = true ->
  os.reroot src dst p = os.reroot src dst q -> p = q.
Proof.
  intros Hp Hq. unfold os.reroot. rewrite Hp, Hq.
  apply under_spec in Hp as [p' ->]. apply under_spec in Hq as [q' ->].
  rewrite !drop_app_length. intros H. now apply app_inv_head in H as ->.
Qed.

(** What lies neither under the source nor under the destination stays. *)
Lemma move_tree_elsewhere {V} (src dst p : path) (t : gmap path V) :
  os.under src p = false -> os.under dst p = false ->
  os.move_tree src dst t !! p = t !! p.
Proof.
  intros Hs Hd. unfold os.move_tree.
  apply (map_fold_weak_ind
           (fun (b : gmap path V) (m : gmap path V) =>
              (forall i x, m !! i = Some x -> os.under src i = true) -> b !! p = t !! p)).
  - intros _. rewrite map_lookup_filter. destruct (t !! p) as [x|]; [|reflexivity].
    cbn. rewrite option_guard_True; [reflexivity|]. cbn. tauto.
  - intros i x m r Hi IH Hall.
    assert (Hiu : os.under src i = true) by (apply (Hall i x), lookup_insert_eq).
    rewrite lookup_insert_ne.
    + apply IH. intros j y Hj. apply (Hall j y).
      rewrite lookup_insert_ne; [exact Hj|]. intros ->. congruence.
    + intros E. pose proof (reroot_under src dst i Hiu) as Hu. rewrite E in Hu. congruence.
  - intros i x Hix. now apply map_lookup_filter_Some in Hix as [_ Hix].
Qed.

(** The node at the source arrives at the destination. *)
Lemma move_tree_arrives {V} (src dst : path) (t : gmap path V) (n : V) :
  t !! src = Some n -> os.move_tree src dst t !! dst = Some n.
Proof.
  intros Hsrc. unfold os.move_tree.
  set (moved := filter (fun kv : path * V => os.under src (fst kv) = true) t).
  assert (Hmoved : moved !! src = Some n).
  { apply map_lookup_filter_Some. split; [exact Hsrc|apply under_refl]. }
  assert (H : forall b0 : gmap path V,
    (forall i x, moved !! i = Some x -> os.under src i = true) ->
    forall i x, moved !! i = Some x ->
      (map_fold (fun p n acc => <[os.reroot src dst p := n]> acc) b0 moved : gmap path V)
        !! os.reroot src dst i = Some x).
  { intros b0.
    apply (map_fold_weak_ind
             (fun (b : gmap path V) (m : gmap path V) =>
                (forall i x, m !! i = Some x -> os.under src i = true) ->
                forall i x, m !! i = Some x -> b !! os.reroot src dst i = Some x)).
    - intros _ i x Hi. now rewrite lookup_empty in Hi.
    - intros i x m r Hi IH Hall j y Hj.
      destruct (decide (i = j)) as [->|Hne].
      + rewrite lookup_insert_eq in Hj. injection Hj as ->. apply lookup_insert_eq.
      + rewrite lookup_insert_ne in Hj by exact Hne.
        rewrite lookup_insert_ne.
        * apply IH; [|exact Hj]. intros k z Hk. apply (Hall k z).
          rewrite lookup_insert_ne; [exact Hk|]. intros ->. congruence.
        * intros E. apply Hne. apply (reroot_inj src dst); [| |exact E].
          -- apply (Hall i x), lookup_insert_eq.
          -- apply (Hall j y). now rewrite lookup_insert_ne.  }
  match goal with |- map_fold _ ?k _ !! _ = _ => specialize (H k) end.
  assert (Hall : forall i x, moved !! i = Some x -> os.under src i = true).
  { intros i x Hix. now apply map_lookup_filter_Some in Hix as [_ Hix]. }
  specialize (H Hall src n Hmoved).
  replace (os.reroot src dst src) with dst in H; [exact H|].
  unfold os.reroot. now rewrite under_refl, drop_all, app_nil_r.
Qed.

(** ** directory_and_filemanage9.py, call by call *)

Lemma under_outside (d q p : path) :
  os.under d q = true -> os.under d p = false -> os.under q p = false.
Proof.
  intros Hq Hp. apply under_false. intros H. apply under_false in Hp. apply Hp.
  apply under_spec in Hq. etransitivity; eassumption.
Qed.

Lemma outside_ne (d q p : path) :
  os.under d q = true -> os.under d p = false -> q <> p.
Proof. intros Hq Hp ->. congruence. Qed.

Lemma under_project (name : string) : os.under project_dir (project_dir ++ [name]) = true.
Proof. apply under_spec. now apply prefix_app_r. Qed.

Lemma node_at_project (t : gmap path node) (name : string) :
  os.node_at t (project_dir ++ [name]) = t !! (project_dir ++ [name]).
Proof. reflexivity. Qed.

Lemma call_os_run {A} (c : syscall) (body : os_state -> outcome A * os_state) (w : world)
    (P : outcome A * world -> Prop) :
  let s := set_calls (calls (sys w) ++ [c]) (sys w) in
  P (Raised PermissionError, set_sys s w) ->
  P (let '(r, s') := body s in (r, set_sys s' w)) ->
  P (os.call_os c body w).
Proof.
  intros s H1 H2. unfold os.call_os. fold s. destruct (denied s c); [exact H1|exact H2].
Qed.

Ltac called := unfold advances; cbn [fst snd].

Ltac on_sys :=
  repeat match goal with
         | |- context [sys (set_sys ?s ?w)] => change (sys (set_sys s w)) with s
         end.

(** A call that raises, or returns without touching the tree, carries
    the run one call further. *)
Lemma reached_next (w0 w : world) (i : nat) (c : syscall) (s : os_state) :
  ready w0 i w ->
  directory_and_filemanage9_trace !! i = Some c ->
  calls s = calls (sys w) ++ [c] -> fs s = fs (sys w) ->
  reached w0 (S i) (set_sys s w).
Proof.
  intros [[Hc [Ho Hn]] [_ [_ [_ H8]]]] Hi Hs Hf. split; [|split].
  - on_sys. rewrite Hs, Hc, <- app_assoc. f_equal. symmetry. now apply take_S_r.
  - intros p Hp. on_sys. rewrite Hf. now apply Ho.
  - intros H9. on_sys. rewrite Hf. apply H8. lia.
Qed.

Lemma ready_next (w0 w : world) (i : nat) (c : syscall) (s : os_state) :
  ready w0 i w ->
  directory_and_filemanage9_trace !! i = Some c ->
  calls s = calls (sys w) ++ [c] -> fs s = fs (sys w) -> cwd s = cwd (sys w) ->
  (i = 0 \/ i = 1 \/ i = 3 \/ i = 4 \/ 8 <= i)%nat ->
  ready w0 (S i) (set_sys s w).
Proof.
  intros H Hi Hs Hf Hd Hcase. split; [now apply (reached_next w0 w i c)|].
  destruct H as [_ [H3 [_ [_ H8]]]]. on_sys. rewrite Hf, Hd.
  repeat split; intros; first [exfalso; lia | apply H3; lia | apply H8; lia].
Qed.

Lemma ready_same_sys (w0 w w' : world) (i : nat) :
  sys w' = sys w -> ready w0 i w -> ready w0 i w'.
Proof. unfold ready, reached, same_outside. now intros ->. Qed.

Lemma advances_bind {A B} (m : M A) (k : A -> M B) (w0 w : world) (i : nat)
    (P : world -> Prop) :
  advances w0 i (m w) ->
  (forall w', reached w0 (S i) w' -> P w') ->
  (forall a w', ready w0 (S i) w' -> P (snd (k a w'))) ->
  P (snd (bind m k w)).
Proof.
  unfold advances, bind. destruct (m w) as [[a|e] w']; cbn [fst snd]; intros H Hr Hk.
  - now apply Hk.
  - now apply Hr.
Qed.

Lemma getcwd_advances (w0 w : world) (i : nat) (c : syscall) :
  ready w0 i w ->
  directory_and_filemanage9_trace !! i = Some c ->
  (i = 0 \/ i = 1 \/ i = 3)%nat ->
  advances w0 i (os.call_os c os.getcwd_body w).
Proof.
  intros H Hi Hcase. apply call_os_run.
  - called. now apply (reached_next w0 w i c).
  - unfold os.getcwd_body.
    destruct (os.node_at _ _) as [[m|m]|]; called;
      first [apply (ready_next w0 w i c); [assumption || reflexivity..|lia]
            | now apply (reached_next w0 w i c)].
Qed.

Lemma chdir_advances (w0 w : world) :
  ready w0 2 w ->
  advances w0 2 (os.chdir "/Users/srinu/Documents/frontend-prep/backend/python" w).
Proof.
  intros H. unfold os.chdir.
  change (os.resolve (cwd (sys w)) "/Users/srinu/Documents/frontend-prep/backend/python")
    with project_dir.
  apply call_os_run.
  - called. now apply (reached_next w0 w 2 (SysChdir project_dir)).
  - destruct (os.node_at _ _) as [[m|m]|]; called;
      try (now apply (reached_next w0 w 2 (SysChdir project_dir))).
    split; [now apply (reached_next w0 w 2 (SysChdir project_dir))|].
    repeat split; intros; first [reflexivity | exfalso; lia].
Qed.

Lemma listdir_advances (w0 w : world) :
  ready w0 4 w -> advances w0 4 (os.listdir w).
Proof.
  intros H. unfold os.listdir.
  assert (Hd : cwd (sys w) = project_dir) by (apply H; lia). rewrite Hd.
  apply call_os_run.
  - called. now apply (reached_next w0 w 4 (SysListdir project_dir)).
  - destruct (os.node_at _ _) as [[m|m]|]; called;
      first [apply (ready_next w0 w 4 (SysListdir project_dir)); [assumption || reflexivity..|lia]
            | now apply (reached_next w0 w 4 (SysListdir project_dir))].
Qed.

(** A call that returns with the tree changed inside the project
    directory only. *)
Lemma reached_changed (w0 w : world) (i : nat) (c : syscall) (s : os_state) :
  ready w0 i w ->
  directory_and_filemanage9_trace !! i = Some c ->
  calls s = calls (sys w) ++ [c] ->
  (forall p, os.under project_dir p = false -> fs s !! p = fs (sys w) !! p) ->
  ((9 <= S i)%nat -> fs s !! (project_dir ++ ["New_folder"]) = Some (Dir stat.S_IRWXU)) ->
  reached w0 (S i) (set_sys s w).
Proof.
  intros [[Hc [Ho Hn]] _] Hi Hs Hf H9. split; [|split].
  - on_sys. rewrite Hs, Hc, <- app_assoc. f_equal. symmetry. now apply take_S_r.
  - intros p Hp. on_sys. rewrite (Hf p Hp). now apply Ho.
  - exact H9.
Qed.

Lemma mkdir_advances (w0 w : world) :
  ready w0 5 w -> advances w0 5 (os.mkdir "test_folder" w).
Proof.
  intros H. unfold os.mkdir.
  assert (Hd : cwd (sys w) = project_dir) by (apply H; lia). rewrite Hd.
  change (os.resolve project_dir "test_folder") with (project_dir ++ ["test_folder"]).
  set (c := SysMkdir (project_dir ++ ["test_folder"])).
  apply call_os_run.
  - called. now apply (reached_next w0 w 5 c).
  - destruct (os.node_at _ _) as [n|]; [called; now apply (reached_next w0 w 5 c)|].
    destruct (os.check_parent _ _); called; [|now apply (reached_next w0 w 5 c)].
    split.
    + apply (reached_changed w0 w 5 c); [assumption|reflexivity..| |intros; exfalso; lia].
      intros p Hp. cbn [fs set_fs]. apply lookup_insert_ne.
      apply (outside_ne project_dir); [apply under_project|exact Hp].
    + on_sys. repeat split; intros; try (exfalso; lia).
      * cbn [cwd set_fs set_calls]. exact Hd.
      * cbn [fs set_fs]. apply lookup_insert_eq.
Qed.

Lemma rename_advances (w0 w : world) :
  ready w0 6 w -> advances w0 6 (os.rename "test_folder" "New_folder" w).
Proof.
  intros H. unfold os.rename.
  assert (Hd : cwd (sys w) = project_dir) by (apply H; lia). rewrite Hd.
  assert (Ht : fs (sys w) !! (project_dir ++ ["test_folder"]) = Some (Dir 511))
    by now apply H.
  change (os.resolve project_dir "test_folder") with (project_dir ++ ["test_folder"]).
  change (os.resolve project_dir "New_folder") with (project_dir ++ ["New_folder"]).
  set (ps := project_dir ++ ["test_folder"]) in *.
  set (pd := project_dir ++ ["New_folder"]) in *.
  set (c := SysRename ps pd).
  assert (Hmoved : forall s, calls s = calls (sys w) ++ [c] -> fs s = fs (sys w) ->
            cwd s = project_dir ->
            ready w0 7 (set_sys (set_contents (os.move_tree ps pd (contents s))
                                   (set_fs (os.move_tree ps pd (fs s)) s)) w)).
  { intros s Hs Hf Hc. split.
    - apply (reached_changed w0 w 6 c); [assumption|reflexivity|exact Hs| |intros; exfalso; lia].
      intros p Hp. cbn [fs set_fs set_contents]. rewrite Hf.
      apply move_tree_elsewhere;
        (apply (under_outside project_dir); [apply under_project|exact Hp]).
    - on_sys. repeat split; intros; try (exfalso; lia).
      + exact Hc.
      + cbn [fs set_fs set_contents]. apply move_tree_arrives. now rewrite Hf. }
  apply call_os_run.
  - called. now apply (reached_next w0 w 6 c).
  - set (s := set_calls _ _). change (fs s) with (fs (sys w)).
    change ps with ("Users" :: tail ps) at 1. cbv iota.
    change (os.node_at (fs (sys w)) ("Users" :: tail ps)) with (fs (sys w) !! ps).
    rewrite Ht.
    replace (bool_decide (ps = pd)) with false by (vm_compute; reflexivity).
    replace (os.under ps pd) with false by (vm_compute; reflexivity).
    destruct (os.check_parent _ _); [|called; now apply (reached_next w0 w 6 c)].
    destruct (os.node_at _ pd) as [[m|m]|];
      [called; now apply (reached_next w0 w 6 c)| |called; now apply (Hmoved s)].
    change pd with ("Users" :: tail pd) at 1. cbv iota.
    destruct (os.children _ _); called;
      [now apply (Hmoved s)|now apply (reached_next w0 w 6 c)].
Qed.

Lemma chmod_advances (w0 w : world) :
  ready w0 7 w -> advances w0 7 (os.chmod "New_folder" stat.S_IRWXU w).
Proof.
  intros H. unfold os.chmod.
  assert (Hd : cwd (sys w) = project_dir) by (apply H; lia). rewrite Hd.
  assert (Hn : fs (sys w) !! (project_dir ++ ["New_folder"]) = Some (Dir 511))
    by now apply H.
  change (os.resolve project_dir "New_folder") with (project_dir ++ ["New_folder"]).
  set (pd := project_dir ++ ["New_folder"]) in *.
  set (c := SysChmod pd stat.S_IRWXU).
  apply call_os_run.
  - called. now apply (reached_next w0 w 7 c).
  - set (s := set_calls _ _). change (fs s) with (fs (sys w)).
    change pd with ("Users" :: tail pd) at 1. cbv iota.
    change (os.node_at (fs (sys w)) ("Users" :: tail pd)) with (fs (sys w) !! pd).
    rewrite Hn. called.
    split.
    + apply (reached_changed w0 w 7 c); [assumption|reflexivity..| |intros; exfalso; lia].
      intros p Hp. cbn [fs set_fs]. apply lookup_insert_ne.
      apply (outside_ne project_dir); [apply under_project|exact Hp].
    + on_sys. repeat split; intros; try (exfalso; lia).
      * exact Hd.
      * cbn [fs set_fs]. apply lookup_insert_eq.
Qed.

Lemma remove_advances (w0 w : world) :
  ready w0 8 w -> advances w0 8 (os.remove "Test.txt" w).
Proof.
  intros H. unfold os.remove.
  assert (Hd : cwd (sys w) = project_dir) by (apply H; lia). rewrite Hd.
  assert (Hn : fs (sys w) !! (project_dir ++ ["New_folder"]) = Some (Dir stat.S_IRWXU))
    by (apply H; lia).
  change (os.resolve project_dir "Test.txt") with (project_dir ++ ["Test.txt"]).
  set (p := project_dir ++ ["Test.txt"]) in *.
  set (c := SysRemove p).
  apply call_os_run.
  - called. now apply (reached_next w0 w 8 c).
  - set (s := set_calls _ _).
    destruct (os.node_at _ _) as [[m|m]|]; called;
      try (now apply (reached_next w0 w 8 c)).
    assert (Hn' : delete p (fs s) !! (project_dir ++ ["New_folder"])
                  = Some (Dir stat.S_IRWXU)).
    { rewrite lookup_delete_ne; [exact Hn|]. intros E. vm_compute in E. discriminate E. }
    split.
    + apply (reached_changed w0 w 8 c); [assumption|reflexivity..| |intros _; exact Hn'].
      intros q Hq. cbn [fs set_fs set_contents]. apply lookup_delete_ne.
      apply (outside_ne project_dir); [apply under_project|exact Hq].
    + on_sys. repeat split; intros; try (exfalso; lia).
      * exact Hd.
      * exact Hn'.
Qed.

Lemma rmdir_advances (w0 w : world) :
  ready w0 9 w -> advances w0 9 (os.rmdir "Test.txt" w).
Proof.
  intros H. unfold os.rmdir.
  assert (Hd : cwd (sys w) = project_dir) by (apply H; lia). rewrite Hd.
  assert (Hn : fs (sys w) !! (project_dir ++ ["New_folder"]) = Some (Dir stat.S_IRWXU))
    by (apply H; lia).
  change (os.resolve project_dir "Test.txt") with (project_dir ++ ["Test.txt"]).
  set (p := project_dir ++ ["Test.txt"]) in *.
  set (c := SysRmdir p).
  apply call_os_run.
  - called. now apply (reached_next w0 w 9 c).
  - set (s := set_calls _ _).
    change p with ("Users" :: tail p) at 1. cbv iota.
    destruct (os.node_at _ _) as [[m|m]|]; try (called; now apply (reached_next w0 w 9 c)).
    destruct (os.children _ _); called; [|now apply (reached_next w0 w 9 c)].
    assert (Hn' : delete p (fs s) !! (project_dir ++ ["New_folder"])
                  = Some (Dir stat.S_IRWXU)).
    { rewrite lookup_delete_ne; [exact Hn|]. intros E. vm_compute in E. discriminate E. }
    split.
    + apply (reached_changed w0 w 9 c); [assumption|reflexivity..| |intros _; exact Hn'].
      intros q Hq. cbn [fs set_fs]. apply lookup_delete_ne.
      apply (outside_ne project_dir); [apply under_project|exact Hq].
    + on_sys. repeat split; intros; try (exfalso; lia).
      * exact Hd.
      * exact Hn'.
Qed.


(** Every run stops after some number of the calls, having made them in
    the order of the lines. *)
Lemma directory_and_filemanage9_reaches (w : world) :
  exists i, (1 <= i <= 10)%nat /\ reached w i (snd (directory_and_filemanage9 w)).
Proof.
  unfold directory_and_filemanage9.
  assert (H0 : ready w 0 w).
  { split; [split; [|split]|].
    - cbn. now rewrite app_nil_r.
    - now intros p _.
    - intros; exfalso; lia.
    - repeat split; intros; exfalso; lia. }
  set (P := fun w' => exists i, (1 <= i <= 10)%nat /\ reached w i w').
  assert (Stop : forall i w', (1 <= i <= 10)%nat -> reached w i w' -> P w')
    by (intros i w' Hi Hr; exists i; now split).
  assert (Silent : forall i w1 w2, sys w2 = sys w1 -> ready w i w1 -> ready w i w2)
    by (intros i w1 w2; apply ready_same_sys).
  change (P (snd ((d <- os.getcwd ;; print [py d] ;;
    d <- os.getcwdb ;; print [VBytes d] ;;
    os.chdir "/Users/srinu/Documents/frontend-prep/backend/python" ;;
    d <- os.getcwd ;; print [py d] ;;
    l <- os.listdir ;; print [py l] ;;
    os.mkdir "test_folder" ;;
    os.rename "test_folder" "New_folder" ;;
    os.chmod "New_folder" stat.S_IRWXU ;;
    os.remove "Test.txt" ;;
    os.rmdir "Test.txt")
      (set_imported ((imported w ++ ["os"]) ++ ["stat"]) w)))).
  apply (Silent 0%nat w (set_imported ((imported w ++ ["os"]) ++ ["stat"]) w) eq_refl) in H0.
  revert H0. generalize (set_imported ((imported w ++ ["os"]) ++ ["stat"]) w) as w1.
  intros w1 H1.
  apply (advances_bind _ _ w w1 0);
    [now apply getcwd_advances; [|reflexivity|lia]
    |intros; apply (Stop 1%nat); [lia|assumption] |].
  clear w1 H1. intros d w1 H1.
  apply (Silent _ _ (printed [[py d]] w1) eq_refl) in H1.
  change (P (snd ((d <- os.getcwdb ;; print [VBytes d] ;;
    os.chdir "/Users/srinu/Documents/frontend-prep/backend/python" ;;
    d <- os.getcwd ;; print [py d] ;;
    l <- os.listdir ;; print [py l] ;;
    os.mkdir "test_folder" ;;
    os.rename "test_folder" "New_folder" ;;
    os.chmod "New_folder" stat.S_IRWXU ;;
    os.remove "Test.txt" ;;
    os.rmdir "Test.txt") (printed [[py d]] w1)))).
  revert H1. generalize (printed [[py d]] w1). clear d w1. intros w1 H1.
  apply (advances_bind _ _ w w1 1);
    [now apply getcwd_advances; [|reflexivity|lia]
    |intros; apply (Stop 2%nat); [lia|assumption] |].
  clear w1 H1. intros d w1 H1.
  apply (Silent _ _ (printed [[VBytes d]] w1) eq_refl) in H1.
  change (P (snd ((
    os.chdir "/Users/srinu/Documents/frontend-prep/backend/python" ;;
    d <- os.getcwd ;; print [py d] ;;
    l <- os.listdir ;; print [py l] ;;
    os.mkdir "test_folder" ;;
    os.rename "test_folder" "New_folder" ;;
    os.chmod "New_folder" stat.S_IRWXU ;;
    os.remove "Test.txt" ;;
    os.rmdir "Test.txt") (printed [[VBytes d]] w1)))).
  revert H1. generalize (printed [[VBytes d]] w1). clear d w1. intros w1 H1.
  apply (advances_bind _ _ w w1 2);
    [now apply chdir_advances | intros; apply (Stop 3%nat); [lia|assumption] |].
  clear w1 H1. intros _ w1 H1.
  apply (advances_bind _ _ w w1 3);
    [now apply getcwd_advances; [|reflexivity|lia]
    |intros; apply (Stop 4%nat); [lia|assumption] |].
  clear w1 H1. intros d w1 H1.
  apply (Silent _ _ (printed [[py d]] w1) eq_refl) in H1.
  change (P (snd ((
    l <- os.listdir ;; print [py l] ;;
    os.mkdir "test_folder" ;;
    os.rename "test_folder" "New_folder" ;;
    os.chmod "New_folder" stat.S_IRWXU ;;
    os.remove "Test.txt" ;;
    os.rmdir "Test.txt") (printed [[py d]] w1)))).
  revert H1. generalize (printed [[py d]] w1). clear d w1. intros w1 H1.
  apply (advances_bind _ _ w w1 4);
    [now apply listdir_advances | intros; apply (Stop 5%nat); [lia|assumption] |].
  clear w1 H1. intros l w1 H1.
  apply (Silent _ _ (printed [[py l]] w1) eq_refl) in H1.
  change (P (snd ((
    os.mkdir "test_folder" ;;
    os.rename "test_folder" "New_folder" ;;
    os.chmod "New_folder" stat.S_IRWXU ;;
    os.remove "Test.txt" ;;
    os.rmdir "Test.txt") (printed [[py l]] w1)))).
  revert H1. generalize (printed [[py l]] w1). clear l w1. intros w1 H1.
  apply (advances_bind _ _ w w1 5);
    [now apply mkdir_advances | intros; apply (Stop 6%nat); [lia|assumption] |].
  clear w1 H1. intros _ w1 H1.
  apply (advances_bind _ _ w w1 6);
    [now apply rename_advances | intros; apply (Stop 7%nat); [lia|assumption] |].
  clear w1 H1. intros _ w1 H1.
  apply (advances_bind _ _ w w1 7);
    [now apply chmod_advances | intros; apply (Stop 8%nat); [lia|assumption] |].
  clear w1 H1. intros _ w1 H1.
  apply (advances_bind _ _ w w1 8);
    [now apply remove_advances | intros; apply (Stop 9%nat); [lia|assumption] |].
  clear w1 H1. intros _ w1 H1.
  pose proof (rmdir_advances w w1 H1) as H. unfold advances in H.
  destruct (os.rmdir "Test.txt" w1) as [[a|e] w2]; cbn [fst snd] in *.
  - apply (Stop 10%nat); [lia|apply H].
  - apply (Stop 10%nat); [lia|exact H].
Qed.

(** X14 (directory_and_filemanage9.py, lines 3-19): whatever the file
    system, the working directory and the refusals of the system are,
    the run changes no entry outside the directory
    /Users/srinu/Documents/frontend-prep/backend/python it changes to. *)
Theorem directory_and_filemanage9_confined (w : world) (p : path) :
  os.under project_dir p = false ->
  fs (sys (snd (directory_and_filemanage9 w))) !! p = fs (sys w) !! p.
Proof.
  intros Hp. destruct (directory_and_filemanage9_reaches w) as [i [_ [_ [Ho _]]]].
  now apply Ho.
Qed.

Lemma directory_and_filemanage9_confined_witness :
  os.under project_dir ["Users"; "srinu"] = false
  /\ fs (sys (snd (directory_and_filemanage9 (start project_tree)))) !! ["Users"; "srinu"]
     = fs (sys (start project_tree)) !! ["Users"; "srinu"].
Proof.
  split; [reflexivity|].
  apply (directory_and_filemanage9_confined (start project_tree) ["Users"; "srinu"]).
  reflexivity.
Defined.

(** X15 (directory_and_filemanage9.py, lines 3-19): in every world the
    calls of a run are the first [i] calls of the lines in their order,
    for some [i] from 1 to 10, each made once and with the paths taken
    in the directory the script changes to. *)
Theorem directory_and_filemanage9_call_order (w : world) :
  exists i, (1 <= i <= 10)%nat
    /\ calls (sys (snd (directory_and_filemanage9 w)))
       = calls (sys w) ++ take i directory_and_filemanage9_trace.
Proof.
  destruct (directory_and_filemanage9_reaches w) as [i [Hi [Hc _]]].
  exists i. now split.
Qed.

(** X16 (directory_and_filemanage9.py, lines 11-17): a run that gets as
    far as [os.remove('Test.txt')] leaves New_folder in the project
    directory, a directory of mode [stat.S_IRWXU]. *)
Theorem directory_and_filemanage9_New_folder (w : world) (l : list syscall) :
  calls (sys (snd (directory_and_filemanage9 w))) = calls (sys w) ++ l ->
  SysRemove (project_dir ++ ["Test.txt"]) ∈ l ->
  fs (sys (snd (directory_and_filemanage9 w))) !! (project_dir ++ ["New_folder"])
  = Some (Dir stat.S_IRWXU).
Proof.
  intros Hl Hin. destruct (directory_and_filemanage9_reaches w) as [i [Hi [Hc [_ Hn]]]].
  apply Hn. rewrite Hc in Hl. apply app_inv_head in Hl. subst l.
  destruct (le_lt_dec 9 i) as [H9|H9]; [exact H9|exfalso].
  apply list_elem_of_In in Hin.
  do 9 (destruct i as [|i]; [cbn in Hin; intuition discriminate|]). lia.
Qed.

Lemma directory_and_filemanage9_New_folder_witness :
  calls (sys (snd (directory_and_filemanage9 (start project_tree))))
  = calls (sys (start project_tree)) ++ take 9 directory_and_filemanage9_trace
  /\ SysRemove (project_dir ++ ["Test.txt"]) ∈ take 9 directory_and_filemanage9_trace
  /\ fs (sys (snd (directory_and_filemanage9 (start project_tree))))
       !! (project_dir ++ ["New_folder"]) = Some (Dir stat.S_IRWXU).
Proof.
  assert (H1 : calls (sys (snd (directory_and_filemanage9 (start project_tree))))
               = calls (sys (start project_tree)) ++ take 9 directory_and_filemanage9_trace)
    by (vm_compute; reflexivity).
  assert (H2 : SysRemove (project_dir ++ ["Test.txt"])
               ∈ take 9 directory_and_filemanage9_trace)
    by (apply list_elem_of_In; cbn; tauto).
  split; [exact H1|]. split; [exact H2|].
  exact (directory_and_filemanage9_New_folder (start project_tree) _ H1 H2).
Defined.
